(** * PR-CYBR-P0D: automation scripts of the podcast pipeline

    A shallow embedding of the scripts under [scripts/] and the properties
    their specification states about them.  Each Python module is a Rocq
    [Module] of the same name holding the translated functions; the
    theorems follow the definitions.

    Conventions of the embedding:
    - Python [str] is [string]; the model covers ASCII text (one [ascii]
      per character), which is what the scripts' own literals are.
    - Python [int] is [Z] (or [nat]/[N] for loop counters that start at a
      non-negative literal and only grow).
    - a raised exception is the [inl] of a sum; remote services are state
      passed explicitly. *)

From Stdlib Require Import ZArith Lia Bool List Ascii String.
From stdpp Require Import base option list strings pretty gmap.
Import ListNotations.

Local Open Scope string_scope.
Local Open Scope list_scope.

(** ** Python built-ins on [str] used by the scripts *)

Module Py.

(** [c] in [string.ascii_lowercase] *)
Definition is_lower (c : ascii) : bool :=
  Nat.leb 97 (nat_of_ascii c) && Nat.leb (nat_of_ascii c) 122.

Definition upper_char (c : ascii) : ascii :=
  if is_lower c then ascii_of_nat (nat_of_ascii c - 32) else c.

(** [s.upper()] *)
Fixpoint upper (s : string) : string :=
  match s with
  | EmptyString => EmptyString
  | String c s' => String (upper_char c) (upper s')
  end.

(** [c.isspace()] on the ASCII range: TAB, LF, VT, FF, CR, FS, GS, RS, US
    and the space. *)
Definition is_space (c : ascii) : bool :=
  let n := nat_of_ascii c in
  (Nat.leb 9 n && Nat.leb n 13) || (Nat.leb 28 n && Nat.leb n 32).

(** [s.lstrip()] *)
Fixpoint lstrip (s : string) : string :=
  match s with
  | EmptyString => EmptyString
  | String c s' => if is_space c then lstrip s' else s
  end.

(** [s.rstrip()] *)
Fixpoint rstrip (s : string) : string :=
  match s with
  | EmptyString => EmptyString
  | String c s' =>
      match rstrip s' with
      | EmptyString => if is_space c then EmptyString else String c EmptyString
      | r => String c r
      end
  end.

(** [s.strip()] *)
Definition strip (s : string) : string := rstrip (lstrip s).

(** [s[:n]] for a non-negative literal [n] *)
Fixpoint slice_to (n : nat) (s : string) : string :=
  match n, s with
  | O, _ => EmptyString
  | S _, EmptyString => EmptyString
  | S n', String c s' => String c (slice_to n' s')
  end.

(** [s.startswith(p)] *)
Fixpoint startswith (p s : string) : bool :=
  match p, s with
  | EmptyString, _ => true
  | String _ _, EmptyString => false
  | String a p', String b s' => Ascii.eqb a b && startswith p' s'
  end.

(** [needle in hay] *)
Fixpoint contains (needle hay : string) : bool :=
  startswith needle hay ||
  match hay with
  | EmptyString => false
  | String _ hay' => contains needle hay'
  end.

(** [s.split(sep)] for a one-character separator: never empty, the empty
    string splits into one empty field. *)
Fixpoint split (sep : ascii) (s : string) : list string :=
  match s with
  | EmptyString => [EmptyString]
  | String c s' =>
      if Ascii.eqb c sep then EmptyString :: split sep s'
      else match split sep s' with
           | [] => [String c EmptyString]
           | w :: ws => String c w :: ws
           end
  end.

(** [c * n] *)
Fixpoint repeat_char (c : ascii) (n : nat) : string :=
  match n with
  | O => EmptyString
  | S n' => String c (repeat_char c n')
  end.

(** [str(n)] for a non-negative counter *)
Definition str_nat (n : nat) : string := pretty n.

(** [str(z)] for an [int] *)
Definition str_int (z : Z) : string := pretty z.

(** [f"{n:0wd}"] for a non-negative [n]: decimal digits left-padded with
    zeros to at least [w] characters. *)
Definition fmt_0d (w n : nat) : string :=
  let digits := str_nat n in
  repeat_char "0" (w - String.length digits) +:+ digits.

(** [f"{z:0wd}"] for an [int]: the sign counts towards the width. *)
Definition fmt_0d_int (w : nat) (z : Z) : string :=
  if (z <? 0)%Z then "-" +:+ fmt_0d (w - 1) (Z.to_nat (- z))
  else fmt_0d w (Z.to_nat z).

(** Truthiness of a [str]: only the empty string is falsy. *)
Definition truthy (s : string) : bool :=
  match s with EmptyString => false | String _ _ => true end.

(** Truthiness of an [Optional[str]]: [None] and [""] are falsy. *)
Definition truthy_opt (o : option string) : bool :=
  match o with None => false | Some s => truthy s end.

(** [all(p(c) for c in s)] *)
Fixpoint all_chars (p : ascii -> bool) (s : string) : bool :=
  match s with
  | EmptyString => true
  | String c s' => p c && all_chars p s'
  end.

(** [c] in [string.digits] *)
Definition is_digit (c : ascii) : bool :=
  Nat.leb 48 (nat_of_ascii c) && Nat.leb (nat_of_ascii c) 57.

(** [s[n:]] for a non-negative literal [n] *)
Fixpoint slice_from (n : nat) (s : string) : string :=
  match n, s with
  | O, _ => s
  | S _, EmptyString => EmptyString
  | S n', String _ s' => slice_from n' s'
  end.

(** [sep.join(parts)] *)
Fixpoint join (sep : string) (parts : list string) : string :=
  match parts with
  | [] => EmptyString
  | [p] => p
  | p :: ps => p +:+ sep +:+ join sep ps
  end.

(** Exceptions the scripts can meet.  [RequestException] stands for
    [requests.exceptions.RequestException] and its subclasses, [OSError]
    for the errors of the file system (a [RequestException] is an
    [OSError], an [OSError] is not a [RequestException]); every
    constructor is an instance of [Exception]. *)
Inductive exn :=
| OverflowError
| IndexError
| TypeError
| ValueError (msg : string)
| FileNotFoundError (msg : string)
| RequestException (msg : string)
| APIResponseError (msg : string)
| OSError (msg : string).

(** [str(e)] *)
Definition str_exn (e : exn) : string :=
  match e with
  | OverflowError => "date value out of range"
  | IndexError => "list index out of range"
  | TypeError => "unsupported format string passed to NoneType.__format__"
  | ValueError msg | FileNotFoundError msg
  | RequestException msg | APIResponseError msg | OSError msg => msg
  end.

(** [isinstance(e, requests.exceptions.RequestException)] *)
Definition is_request_exception (e : exn) : bool :=
  match e with RequestException _ => true | _ => false end.

(** A computation that returns a value or raises. *)
Definition result (A : Type) : Type := (exn + A)%type.

Definition ret {A} (a : A) : result A := inr a.
Definition raise {A} (e : exn) : result A := inl e.

Definition bind {A B} (m : result A) (k : A -> result B) : result B :=
  match m with
  | inl e => inl e
  | inr a => k a
  end.

End Py.

Notation "'let*' x ':=' m 'in' k" := (Py.bind m (fun x => k))
  (at level 10, x pattern, m at level 100, k at level 200).

(** ** scripts/extract_tasks.py *)

Module extract_tasks.

(** The task dictionary built by the stub extractor. *)
Record Task := mkTask {
  task_id : string;
  agent : string;
  repo : string;
  title : string;
  description : string;
  priority : string;
  type_ : string;
  labels : list string;
  explicit : bool
}.

(** The keys of [transcript_data] the extractor reads; [None] is a key
    that is absent, for which [dict.get] supplies the default. *)
Record TranscriptData := mkTranscript {
  meeting_id : option string;
  transcript : option string
}.

Definition action_keywords : list string :=
  ["TODO"; "ACTION ITEM"; "TASK"; "NEED TO"; "SHOULD";
   "UPDATE"; "FIX"; "IMPLEMENT"; "CREATE"; "ADD"].

(** [any(keyword in line_upper for keyword in action_keywords)] *)
Definition has_action_keyword (line : string) : bool :=
  existsb (fun keyword => Py.contains keyword (Py.upper line)) action_keywords.

(** The dictionary literal of the loop body. *)
Definition make_task (mid : string) (task_id_counter : nat) (line : string) : Task :=
  {| task_id := mid +:+ "_TASK_" +:+ Py.fmt_0d 3 task_id_counter;
     agent := "A-01";
     repo := "PR-CYBR-AGENT-01";
     title := Py.slice_to 100 (Py.strip line);
     description := Py.strip line;
     priority := "medium";
     type_ := "enhancement";
     labels := ["automation/codex"; "meeting/" +:+ mid];
     explicit := false |}.

(** The [for line in lines] loop, with its [break] once the counter has
    passed 10. *)
Fixpoint stub_loop (mid : string) (lines : list string)
    (task_id_counter : nat) (tasks : list Task) : list Task :=
  match lines with
  | [] => tasks
  | line :: rest =>
      if has_action_keyword line then
        let tasks' := tasks ++ [make_task mid task_id_counter line] in
        let counter' := task_id_counter + 1 in
        if Nat.ltb 10 counter' then tasks'
        else stub_loop mid rest counter' tasks'
      else stub_loop mid rest task_id_counter tasks
  end.

(** The lines of the transcript, and among them the ones with an action
    keyword, in transcript order. *)
Definition transcript_lines (transcript_data : TranscriptData) : list string :=
  Py.split "010" (default "" (transcript transcript_data)).

Definition matching_lines (transcript_data : TranscriptData) : list string :=
  filter (fun line => has_action_keyword line = true) (transcript_lines transcript_data).

Definition extract_tasks_stub (transcript_data : TranscriptData) : list Task :=
  let mid := default "unknown" (meeting_id transcript_data) in
  let transcript_text := default "" (transcript transcript_data) in
  let lines := Py.split "010" transcript_text in
  stub_loop mid lines 1 [].

(** The two messages the entry point can log. *)
Inductive LogRecord :=
| Warning (msg : string)
| Info (msg : string).

(** [extract_tasks_with_llm]: [api_key] is [os.environ.get('OPENAI_API_KEY')].
    The result pairs what is logged with the returned task list. *)
Definition extract_tasks_with_llm (api_key : option string)
    (transcript_data : TranscriptData) : list LogRecord * list Task :=
  if negb (Py.truthy_opt api_key) then
    ([Warning "OPENAI_API_KEY not set. Using stub task extraction."],
     extract_tasks_stub transcript_data)
  else
    ([Info "Using stub task extraction (OpenAI integration not yet implemented)"],
     extract_tasks_stub transcript_data).

End extract_tasks.


(** ** scripts/populate_release_schedule.py *)

Module populate_release_schedule.

Local Open Scope Z_scope.

(** A naive [datetime]: the date as its proleptic Gregorian ordinal
    ([date.toordinal()], day 1 is 0001-01-01) and the time of day. *)
Record datetime := mkDatetime {
  ordinal : Z;
  hour : Z;
  minute : Z;
  second : Z;
  microsecond : Z
}.

(** [date.max.toordinal()], the ordinal of 9999-12-31 *)
Definition MAXORDINAL : Z := 3652059.

Definition is_leap (year : Z) : bool :=
  (year mod 4 =? 0) && (negb (year mod 100 =? 0) || (year mod 400 =? 0)).

Definition days_before_year (year : Z) : Z :=
  let y := year - 1 in
  y * 365 + y / 4 - y / 100 + y / 400.

Definition days_before_month (year month : Z) : Z :=
  nth (Z.to_nat month) [0; 0; 31; 59; 90; 120; 151; 181; 212; 243; 273; 304; 334] 0
  + (if (2 <? month) && is_leap year then 1 else 0).

(** [datetime(year, month, day, hour, minute)] for a valid calendar date *)
Definition mk_datetime (year month day hour minute : Z) : datetime :=
  {| ordinal := days_before_year year + days_before_month year month + day;
     hour := hour; minute := minute; second := 0; microsecond := 0 |}.

(** [d.weekday()]: Monday is 0, Sunday is 6. *)
Definition weekday (d : datetime) : Z := (ordinal d + 6) mod 7.

(** [d + timedelta(days=n)]: the time of day is kept; a date outside
    0001-01-01 .. 9999-12-31 raises [OverflowError]. *)
Definition add_days (d : datetime) (n : Z) : Py.result datetime :=
  let o := ordinal d + n in
  if (1 <=? o) && (o <=? MAXORDINAL) then
    Py.ret {| ordinal := o; hour := hour d; minute := minute d;
              second := second d; microsecond := microsecond d |}
  else Py.raise Py.OverflowError.

(** [d.replace(hour=6, minute=0, second=0, microsecond=0)] *)
Definition replace_0600 (d : datetime) : datetime :=
  {| ordinal := ordinal d; hour := 6; minute := 0; second := 0; microsecond := 0 |}.

Definition RELEASE_DAYS : list Z := [0; 2; 4].
Definition START_DATE : datetime := mk_datetime 2024 1 1 6 0.
Definition EPISODES_PER_SEASON : Z := 52.
Definition TOTAL_SEASONS : Z := 17.

(** The [for day in RELEASE_DAYS] loop returns at the first [day] that is
    greater than the current weekday; when none is, the code after the
    loop goes to the Monday of the next week. *)
Definition get_next_release_day (current_date : datetime) : Py.result datetime :=
  let current_weekday := weekday current_date in
  match List.find (fun day => current_weekday <? day) RELEASE_DAYS with
  | Some day =>
      let days_ahead := day - current_weekday in
      let* next_date := add_days current_date days_ahead in
      Py.ret (replace_0600 next_date)
  | None =>
      let days_ahead := (7 - current_weekday) + nth 0 RELEASE_DAYS 0 in
      let* next_date := add_days current_date days_ahead in
      Py.ret (replace_0600 next_date)
  end.

(** One schedule row: [(season, episode, release_date)]. *)
Definition entry : Type := Z * Z * datetime.

(** The body of [for episode in range(1, episodes + 1)], [n] iterations
    left, [episode] the current loop variable. *)
Fixpoint season_loop (season : Z) (n : nat) (episode : Z)
    (current_date : datetime) (schedule : list entry) : Py.result (list entry) :=
  match n with
  | O => Py.ret schedule
  | S n' =>
      let schedule' := (schedule ++ [(season, episode, current_date)])%list in
      let* tomorrow := add_days current_date 1 in
      let* next := get_next_release_day tomorrow in
      season_loop season n' (episode + 1) next schedule'
  end.

Definition generate_season_schedule (season episodes : Z) (start_date : datetime)
    : Py.result (list entry) :=
  season_loop season (Z.to_nat episodes) 1 start_date [].

(** The body of [for season in range(1, seasons + 1)]. *)
Fixpoint full_loop (n : nat) (season episodes_per_season : Z)
    (current_date : datetime) (full_schedule : list entry) : Py.result (list entry) :=
  match n with
  | O => Py.ret full_schedule
  | S n' =>
      let* season_schedule :=
        generate_season_schedule season episodes_per_season current_date in
      let full_schedule' := (full_schedule ++ season_schedule)%list in
      let* current_date' :=
        match List.last (map Some season_schedule) None with
        | Some (_, _, d) =>
            let* tomorrow := add_days d 1 in get_next_release_day tomorrow
        | None => Py.ret current_date
        end in
      full_loop n' (season + 1) episodes_per_season current_date' full_schedule'
  end.

Definition generate_full_schedule (start_date : datetime)
    (seasons episodes_per_season : Z) : Py.result (list entry) :=
  full_loop (Z.to_nat seasons) 1 episodes_per_season start_date [].

(** *** The dates the loop visits, in closed form

    From a date whose weekday is [w] the loop moves [days_to_next w] days
    on: one day forward, then to the first release day after that. *)
Definition days_to_next (w : Z) : Z :=
  match w with
  | 0 => 2 | 1 => 3 | 2 => 2 | 3 => 4 | 4 => 3 | 5 => 2 | _ => 3
  end.

Definition advance (d : datetime) : datetime :=
  mkDatetime (ordinal d + days_to_next (weekday d)) 6 0 0 0.

Fixpoint dates_from (n : nat) (d : datetime) : list datetime :=
  match n with
  | O => []
  | S n' => d :: dates_from n' (advance d)
  end.

(** The release-day cycle: Monday to Wednesday and Wednesday to Friday
    of one week, Friday to the Monday of the next. *)
Definition next_in_cycle (d d' : datetime) : Prop :=
  (weekday d = 0 /\ weekday d' = 2 /\ ordinal d' = ordinal d + 2)
  \/ (weekday d = 2 /\ weekday d' = 4 /\ ordinal d' = ordinal d + 2)
  \/ (weekday d = 4 /\ weekday d' = 0 /\ ordinal d' = ordinal d + 3).

(** 06:00:00 sharp. *)
Definition at_0600 (d : datetime) : Prop :=
  hour d = 6 /\ minute d = 0 /\ second d = 0 /\ microsecond d = 0.

End populate_release_schedule.

(** ** scripts/generate_code_names.py *)

Module generate_code_names.

Definition EPISODES_PER_SEASON : nat := 52.
Definition TOTAL_SEASONS : nat := 17.
Definition CODE_PREFIX : string := "P0D".
Definition CODE_THEME : string := "AXIS".

(** The dictionary literal, in insertion order. *)
Definition SYMBOL_SETS : list (string * list string) :=
  [ ("encryption",
     ["CIPHER"; "ENCRYPT"; "HASH"; "TOKEN"; "KEY"; "SALT";
      "AES"; "RSA"; "TLS"; "SSL"; "PKI"; "CERT"]);
    ("security",
     ["FIREWALL"; "SHIELD"; "GUARD"; "SENTINEL"; "BASTION"; "FORTRESS";
      "AEGIS"; "BARRIER"; "DEFENSE"; "PATROL"; "WATCH"; "VAULT"]);
    ("attack",
     ["BREACH"; "EXPLOIT"; "PAYLOAD"; "VECTOR"; "MALWARE"; "PHISH";
      "TROJAN"; "WORM"; "ROOTKIT"; "BACKDOOR"; "INJECT"; "OVERFLOW"]);
    ("network",
     ["PACKET"; "ROUTER"; "GATEWAY"; "PROXY"; "TUNNEL"; "BRIDGE";
      "NODE"; "MESH"; "FABRIC"; "LINK"; "HUB"; "SWITCH"]);
    ("data",
     ["STREAM"; "BUFFER"; "CACHE"; "QUEUE"; "STACK"; "HEAP";
      "BLOCK"; "CHUNK"; "SHARD"; "FRAME"; "SEGMENT"; "BYTE"]);
    ("protocol",
     ["HTTP"; "TCP"; "UDP"; "DNS"; "DHCP"; "FTP";
      "SMTP"; "SSH"; "SNMP"; "ICMP"; "BGP"; "OSPF"]);
    ("operation",
     ["SCAN"; "PROBE"; "TRACE"; "QUERY"; "FETCH"; "PUSH";
      "PULL"; "MERGE"; "FORK"; "CLONE"; "PATCH"; "BUILD"]);
    ("status",
     ["ACTIVE"; "IDLE"; "READY"; "ARMED"; "ALERT"; "LOCKED";
      "SECURE"; "OPEN"; "CLOSED"; "PENDING"; "LIVE"; "STANDBY"]) ].

(** [sorted(xs)] on strings: insertion into an ascending list by code
    point order. *)
Fixpoint insert_sorted (x : string) (l : list string) : list string :=
  match l with
  | [] => [x]
  | y :: l' => if String.leb x y then x :: l else y :: insert_sorted x l'
  end.

Definition sorted (xs : list string) : list string :=
  fold_right insert_sorted [] xs.

(** [sorted(set(all_symbols))] after the flattening loop *)
Definition all_symbols : list string :=
  sorted (remove_dups (concat (map snd SYMBOL_SETS))).

(** The pool entry for index [i] of [range(total_episodes)]. *)
Definition pool_symbol (symbols : list string) (i : nat) : Py.result string :=
  match symbols !! (i mod length symbols)%nat with
  | None => Py.raise Py.IndexError
  | Some base_symbol =>
      let suffix_num := (i / length symbols)%nat in
      if Nat.ltb 0 suffix_num
      then Py.ret (base_symbol +:+ Py.str_nat suffix_num)
      else Py.ret base_symbol
  end.

(** Running a fallible body over a list, left to right. *)
Fixpoint for_each {A B} (f : A -> Py.result B) (l : list A) : Py.result (list B) :=
  match l with
  | [] => Py.ret []
  | a :: l' =>
      let* b := f a in
      let* bs := for_each f l' in
      Py.ret (b :: bs)
  end.

Definition generate_symbol_pool (seasons episodes_per_season : nat)
    : Py.result (list string) :=
  let total_episodes := (seasons * episodes_per_season)%nat in
  if Nat.ltb (length all_symbols) total_episodes then
    for_each (pool_symbol all_symbols) (seq 0 total_episodes)
  else Py.ret (take total_episodes all_symbols).

Definition generate_code_name (season episode : nat) (symbol : string) : string :=
  CODE_PREFIX +:+ "-S" +:+ Py.fmt_0d 2 season +:+ "-E" +:+ Py.fmt_0d 3 episode
  +:+ "-" +:+ CODE_THEME +:+ "-" +:+ symbol.

(** One row: [(season, episode, code_name, symbol)]. *)
Record CodeName := mkCodeName {
  cn_season : nat;
  cn_episode : nat;
  code_name : string;
  symbol : string
}.

(** The inner [for episode in range(1, episodes_per_season + 1)]; the
    state is [(code_names, symbol_index)]. *)
Fixpoint episode_loop (symbols : list string) (season : nat) (n episode : nat)
    (st : list CodeName * nat) : Py.result (list CodeName * nat) :=
  match n with
  | O => Py.ret st
  | S n' =>
      let '(code_names, symbol_index) := st in
      match symbols !! symbol_index with
      | None => Py.raise Py.IndexError
      | Some sym =>
          let row := mkCodeName season episode (generate_code_name season episode sym) sym in
          episode_loop symbols season n' (S episode)
            (code_names ++ [row], S symbol_index)
      end
  end.

(** The outer [for season in range(1, seasons + 1)]. *)
Fixpoint season_loop (symbols : list string) (episodes_per_season : nat)
    (n season : nat) (st : list CodeName * nat) : Py.result (list CodeName * nat) :=
  match n with
  | O => Py.ret st
  | S n' =>
      let* st' := episode_loop symbols season episodes_per_season 1 st in
      season_loop symbols episodes_per_season n' (S season) st'
  end.

(** [shuffle] is the permutation [random.shuffle] applies in place when
    [randomize] is set. *)
Definition generate_all_code_names (seasons episodes_per_season : nat)
    (randomize : bool) (shuffle : list string -> list string)
    : Py.result (list CodeName) :=
  let* symbols := generate_symbol_pool seasons episodes_per_season in
  let symbols := if randomize then shuffle symbols else symbols in
  let* st := season_loop symbols episodes_per_season seasons 1 ([], O) in
  Py.ret (fst st).

(** *** The table in closed form

    The symbol at position [i] of a pool drawn from [symbols]: the base
    symbol [i mod len], bare on its first use and followed by the number
    [i / len] on its [i / len]-th reuse. *)
Definition symbol_at (symbols : list string) (i : nat) : string :=
  let base := nth (i mod length symbols) symbols "" in
  if Nat.ltb 0 (i / length symbols) then base +:+ Py.str_nat (i / length symbols)
  else base.

(** The row at position [i] of the table. *)
Definition row_at (episodes_per_season : nat) (symbols : list string) (i : nat) : CodeName :=
  let season := 1 + i / episodes_per_season in
  let episode := 1 + i mod episodes_per_season in
  let sym := nth i symbols "" in
  mkCodeName season episode (generate_code_name season episode sym) sym.

End generate_code_names.

(** ** hashlib.sha256 and uuid.UUID, as far as [notion_sync] uses them *)

Module hashlib.

Local Open Scope Z_scope.

(** A 32-bit word is a [Z] in [0, 2^32); [w32] is the wrap-around. *)
Definition w32 (x : Z) : Z := x mod 2 ^ 32.

Definition add32 (x y : Z) : Z := w32 (x + y).

Definition rotr (n x : Z) : Z :=
  Z.lor (Z.shiftr x n) (w32 (Z.shiftl x (32 - n))).

Definition not32 (x : Z) : Z := Z.lxor x (2 ^ 32 - 1).

Definition Ch (x y z : Z) : Z := Z.lxor (Z.land x y) (Z.land (not32 x) z).
Definition Maj (x y z : Z) : Z :=
  Z.lxor (Z.lxor (Z.land x y) (Z.land x z)) (Z.land y z).
Definition Sigma0 (x : Z) : Z := Z.lxor (Z.lxor (rotr 2 x) (rotr 13 x)) (rotr 22 x).
Definition Sigma1 (x : Z) : Z := Z.lxor (Z.lxor (rotr 6 x) (rotr 11 x)) (rotr 25 x).
Definition sigma0 (x : Z) : Z := Z.lxor (Z.lxor (rotr 7 x) (rotr 18 x)) (Z.shiftr x 3).
Definition sigma1 (x : Z) : Z := Z.lxor (Z.lxor (rotr 17 x) (rotr 19 x)) (Z.shiftr x 10).

(** The constants of the standard: the first 32 bits of the fractional
    parts of the cube roots ([K]) and of the square roots ([H0]) of the
    first primes. *)
Definition is_prime (n : nat) : bool :=
  Nat.ltb 1 n && forallb (fun d => negb (Nat.eqb (n mod d) 0)) (seq 2 (n - 2)).

Definition primes : list Z :=
  map Z.of_nat (List.filter is_prime (seq 2 310)).

(** The integer cube root, one bit at a time from bit [n - 1] down. *)
Fixpoint cbrt_bits (n : nat) (x r : Z) : Z :=
  match n with
  | O => r
  | S n' =>
      let c := r + 2 ^ Z.of_nat n' in
      cbrt_bits n' x (if c * c * c <=? x then c else r)
  end.

Definition frac_cbrt32 (p : Z) : Z := w32 (cbrt_bits 36 (p * 2 ^ 96) 0).
Definition frac_sqrt32 (p : Z) : Z := w32 (Z.sqrt (p * 2 ^ 64)).

Definition K : list Z := Eval vm_compute in map frac_cbrt32 primes.

(** The eight working variables / chaining values. *)
Record state := mkState { ha : Z; hb : Z; hc : Z; hd : Z; he : Z; hf : Z; hg : Z; hh : Z }.

Definition H0 : state :=
  Eval vm_compute in
  let h i := frac_sqrt32 (nth i primes 0) in
  mkState (h 0%nat) (h 1%nat) (h 2%nat) (h 3%nat) (h 4%nat) (h 5%nat) (h 6%nat) (h 7%nat).

(** Padding: the byte 0x80, zero bytes up to 56 modulo 64, then the bit
    length as a 64-bit big-endian integer. *)
Definition be_bytes (n : nat) (x : Z) : list Z :=
  map (fun i => (x / 2 ^ (8 * Z.of_nat i)) mod 256) (rev (seq 0 n)).

Definition pad (msg : list Z) : list Z :=
  let len := Z.of_nat (length msg) in
  let zeros := Z.to_nat ((55 - len) mod 64) in
  (msg ++ [128] ++ repeat 0 zeros ++ be_bytes 8 (8 * len))%list.

Definition is_byte (b : Z) : Prop := 0 <= b < 256.

(** Big-endian value of a list of bytes. *)
Definition be_int (bs : list Z) : Z := fold_left (fun acc b => acc * 256 + b) bs 0.

(** Cutting the padded message into 64-byte blocks, [n] blocks. *)
Fixpoint blocks (n : nat) (bs : list Z) : list (list Z) :=
  match n with
  | O => []
  | S n' => take 64 bs :: blocks n' (drop 64 bs)
  end.

(** The 16 big-endian words of a block. *)
Definition block_words (blk : list Z) : list Z :=
  map (fun i => be_int (take 4 (drop (4 * i) blk))) (seq 0 16).

(** Message schedule: [w] holds the words computed so far, most recent
    first; [n] words remain to be added. *)
Fixpoint extend (n : nat) (w : list Z) : list Z :=
  match n with
  | O => w
  | S n' =>
      let new := add32 (add32 (sigma1 (nth 1 w 0)) (nth 6 w 0))
                       (add32 (sigma0 (nth 14 w 0)) (nth 15 w 0)) in
      extend n' (new :: w)
  end.

Definition schedule (blk : list Z) : list Z :=
  rev (extend 48 (rev (block_words blk))).

Definition round (s : state) (kw : Z * Z) : state :=
  let '(k, w) := kw in
  let t1 := add32 (add32 (add32 (hh s) (Sigma1 (he s))) (add32 (Ch (he s) (hf s) (hg s)) k)) w in
  let t2 := add32 (Sigma0 (ha s)) (Maj (ha s) (hb s) (hc s)) in
  mkState (add32 t1 t2) (ha s) (hb s) (hc s) (add32 (hd s) t1) (he s) (hf s) (hg s).

Definition compress (h : state) (blk : list Z) : state :=
  let s := fold_left round (combine K (schedule blk)) h in
  mkState (add32 (ha h) (ha s)) (add32 (hb h) (hb s)) (add32 (hc h) (hc s))
          (add32 (hd h) (hd s)) (add32 (he h) (he s)) (add32 (hf h) (hf s))
          (add32 (hg h) (hg s)) (add32 (hh h) (hh s)).

Definition state_bytes (s : state) : list Z :=
  concat (map (be_bytes 4) [ha s; hb s; hc s; hd s; he s; hf s; hg s; hh s]).

(** [hashlib.sha256(msg).digest()] *)
Definition sha256 (msg : list Z) : list Z :=
  let padded := pad msg in
  state_bytes (fold_left compress (blocks (length padded / 64) padded) H0).

(** [s.encode('utf-8')] on ASCII text: one byte per character. *)
Fixpoint encode (s : string) : list Z :=
  match s with
  | EmptyString => []
  | String c s' => Z.of_nat (nat_of_ascii c) :: encode s'
  end.

Definition hex_char (d : Z) : ascii :=
  nth (Z.to_nat d)
    ["0"; "1"; "2"; "3"; "4"; "5"; "6"; "7"; "8"; "9"; "a"; "b"; "c"; "d"; "e"; "f"]%char
    "0"%char.

(** The two lowercase hex digits of every byte: [bytes.hex()]. *)
Fixpoint hex (bs : list Z) : string :=
  match bs with
  | [] => EmptyString
  | b :: bs' => String (hex_char (b / 16)) (String (hex_char (b mod 16)) (hex bs'))
  end.

(** [hashlib.sha256(msg).hexdigest()] *)
Definition hexdigest (msg : list Z) : string := hex (sha256 msg).

End hashlib.

Module uuid.

Local Open Scope Z_scope.

(** The value of a hex digit, as [int(c, 16)] accepts it. *)
Definition hex_digit (c : ascii) : option Z :=
  let n := Z.of_nat (nat_of_ascii c) in
  if (48 <=? n) && (n <=? 57) then Some (n - 48)
  else if (97 <=? n) && (n <=? 102) then Some (n - 87)
  else if (65 <=? n) && (n <=? 70) then Some (n - 55)
  else None.

(** [int(s, 16)] on a string of hex digits, most significant first. *)
Fixpoint int16 (s : string) (acc : Z) : option Z :=
  match s with
  | EmptyString => Some acc
  | String c s' =>
      match hex_digit c with
      | Some d => int16 s' (acc * 16 + d)
      | None => None
      end
  end.

(** [uuid.UUID(hex)]: the 128-bit integer of a 32-digit hex string.  The
    constructor first removes ["urn:"], ["uuid:"], braces and hyphens,
    none of which occurs in a string of hex digits; any other length or
    character raises [ValueError]. *)
Definition UUID (hex : string) : Py.result Z :=
  if negb (Nat.eqb (String.length hex) 32) then
    Py.raise (Py.ValueError "badly formed hexadecimal UUID string")
  else match int16 hex 0 with
       | Some i => Py.ret i
       | None => Py.raise (Py.ValueError "badly formed hexadecimal UUID string")
       end.

(** ['%0wx' % i] for [0 <= i < 16^w]: exactly [w] digits. *)
Fixpoint hex_fixed (w : nat) (i : Z) : string :=
  match w with
  | O => EmptyString
  | S w' => String (hashlib.hex_char ((i / 16 ^ Z.of_nat w') mod 16)) (hex_fixed w' i)
  end.

(** [s[a:b]] *)
Definition slice (a b : nat) (s : string) : string :=
  String.substring a (b - a) s.

(** [str(u)]: ['%032x' % u.int] cut 8-4-4-4-12.  A [UUID]'s integer is
    below [2^128], so the format yields 32 digits. *)
Definition str (u : Z) : string :=
  let h := hex_fixed 32 u in
  slice 0 8 h +:+ "-" +:+ slice 8 12 h +:+ "-" +:+ slice 12 16 h +:+ "-"
  +:+ slice 16 20 h +:+ "-" +:+ slice 20 32 h.

(** The 32 hex digits back out of the hyphenated form. *)
Definition unhyphen (s : string) : string :=
  slice 0 8 s +:+ slice 9 13 s +:+ slice 14 18 s +:+ slice 19 23 s +:+ slice 24 36 s.

End uuid.

(** ** Remote calls: state passing with exceptions *)

Module Eff.

(** A computation over a world [W] (the remote services, the file system)
    that returns a value or raises, and leaves a new world either way. *)
Definition M (W A : Type) : Type := W -> Py.result A * W.

Definition ret {W A} (a : A) : M W A := fun w => (inr a, w).

Definition raise {W A} (e : Py.exn) : M W A := fun w => (inl e, w).

Definition bind {W A B} (m : M W A) (k : A -> M W B) : M W B :=
  fun w =>
    match m w with
    | (inl e, w') => (inl e, w')
    | (inr a, w') => k a w'
    end.

(** [try: body except <classes accepted by catches>: handler] *)
Definition try_except {W A} (body : M W A) (catches : Py.exn -> bool)
    (handler : Py.exn -> M W A) : M W A :=
  fun w =>
    match body w with
    | (inl e, w') => if catches e then handler e w' else (inl e, w')
    | (inr a, w') => (inr a, w')
    end.

(** [except Exception] *)
Definition any_exception (e : Py.exn) : bool := true.

Definition lift {W A} (r : Py.result A) : M W A := fun w => (r, w).

End Eff.

Notation "x <- m ;; k" := (Eff.bind m (fun x => k))
  (at level 100, m at next level, right associativity).

(** ** scripts/notion_sync.py *)

Module notion_sync.

(** The property values the script writes. *)
Inductive PropValue :=
| rich_text (content : string)
| title (content : string)
| select (name : string)
| number (n : Z)
| date (start : string)
| url (u : string).

Global Instance PropValue_eq_dec : EqDecision PropValue.
Proof. solve_decision. Defined.

(** A database row. *)
Record Page := mkPage {
  id : string;
  parent : string;
  properties : gmap string PropValue
}.

(** The three calls made on [notion_client.Client]. *)
Class Client (W : Type) := {
  (** [databases.query(database_id, filter={"property": p, "rich_text": {"equals": v}})],
      the [results] list of the response *)
  databases_query : string -> string -> string -> Eff.M W (list Page);
  (** [pages.create(parent={"database_id": d}, properties=ps)] *)
  pages_create : string -> gmap string PropValue -> Eff.M W Page;
  (** [pages.update(page_id=p, properties=ps)] *)
  pages_update : string -> gmap string PropValue -> Eff.M W Page
}.

(** What the standard library supplies to [format_properties]:
    [strptime_iso d] is [datetime.strptime(d, '%Y-%m-%d').isoformat()], or
    [None] when [strptime] raises [ValueError]; [utcnow_iso] is
    [datetime.utcnow().isoformat()] at the time of the call. *)
Record Clock := mkClock {
  strptime_iso : string -> option string;
  utcnow_iso : string
}.

(** The stable string the identifier is derived from. *)
Definition identifier (agent repo : string) (issue : Z) (meeting_date : string) : string :=
  agent +:+ ":" +:+ repo +:+ ":" +:+ Py.str_int issue +:+ ":" +:+ meeting_date.

Definition generate_deterministic_id (agent repo : string) (issue : Z)
    (meeting_date : string) : Py.result string :=
  let hash_hex := hashlib.hexdigest (hashlib.encode (identifier agent repo issue meeting_date)) in
  let* u := uuid.UUID (Py.slice_to 32 hash_hex) in
  Py.ret (uuid.str u).

(** The first 128 bits of the SHA-256 digest of the stable string, as an
    integer. *)
Definition digest128 (agent repo : string) (issue : Z) (meeting_date : string) : Z :=
  hashlib.be_int
    (take 16 (hashlib.sha256 (hashlib.encode (identifier agent repo issue meeting_date)))).

(** The delimiter does not occur in [s]. *)
Definition no_colon (s : string) : bool :=
  Py.all_chars (fun c => negb (Ascii.eqb c ":")) s.

Section WithClient.

Context {W : Type} `{Client W}.

(** [self.database_id] *)
Variable database_id : string.

Definition search_existing_page (deterministic_id : string) : Eff.M W (option string) :=
  Eff.try_except
    (results <- databases_query database_id "Task ID" deterministic_id ;;
     match results with
     | page :: _ => Eff.ret (Some (id page))
     | [] => Eff.ret None
     end)
    Eff.any_exception
    (fun _ => Eff.ret None).

(** Truthiness of the optional [pr] number. *)
Definition pr_given (pr : option Z) : bool :=
  match pr with
  | Some n => negb (n =? 0)%Z
  | None => false
  end.

Definition format_properties (clock : Clock) (deterministic_id agent repo : string)
    (issue : Z) (pr : option Z) (meeting_date summary : string)
    : gmap string PropValue :=
  let meeting_datetime :=
    match strptime_iso clock meeting_date with
    | Some iso => iso
    | None => utcnow_iso clock
    end in
  let issue_url :=
    "https://github.com/PR-CYBR/" +:+ repo +:+ "/issues/" +:+ Py.str_int issue in
  let pr_url :=
    if pr_given pr
    then Some ("https://github.com/PR-CYBR/" +:+ repo +:+ "/pull/"
               +:+ Py.str_int (default 0%Z pr))
    else None in
  let properties : gmap string PropValue :=
    <["Task ID" := rich_text deterministic_id]>
    (<["Title" := title (Py.slice_to 100 summary)]>
    (<["Agent" := select agent]>
    (<["Repository" := rich_text repo]>
    (<["Issue" := number issue]>
    (<["Meeting Date" := date meeting_datetime]>
    (<["Summary" := rich_text (Py.slice_to 2000 summary)]>
    (<["Issue URL" := url issue_url]>
    (<["Status" := select "Complete"]> ∅)))))))) in
  if Py.truthy_opt pr_url then
    <["PR URL" := url (default "" pr_url)]>
      (<["PR" := number (default 0%Z pr)]> properties)
  else properties.

Definition create_page (clock : Clock) (deterministic_id agent repo : string)
    (issue : Z) (pr : option Z) (meeting_date summary : string) : Eff.M W string :=
  let properties :=
    format_properties clock deterministic_id agent repo issue pr meeting_date summary in
  response <- pages_create database_id properties ;;
  Eff.ret (id response).

Definition update_page (clock : Clock) (page_id deterministic_id agent repo : string)
    (issue : Z) (pr : option Z) (meeting_date summary : string) : Eff.M W unit :=
  let properties :=
    format_properties clock deterministic_id agent repo issue pr meeting_date summary in
  _ <- pages_update page_id properties ;;
  Eff.ret tt.

(** The result dictionary of [upsert]. *)
Record UpsertResult := mkResult {
  status : string;
  page_id : string;
  deterministic_id : string
}.

Definition upsert (clock : Clock) (agent repo : string) (issue : Z) (pr : option Z)
    (meeting_date summary : string) : Eff.M W UpsertResult :=
  did <- Eff.lift (generate_deterministic_id agent repo issue meeting_date) ;;
  existing_page <- search_existing_page did ;;
  if Py.truthy_opt existing_page then
    let existing := default "" existing_page in
    _ <- update_page clock existing did agent repo issue pr meeting_date summary ;;
    Eff.ret (mkResult "updated" existing did)
  else
    page_id <- create_page clock did agent repo issue pr meeting_date summary ;;
    Eff.ret (mkResult "created" page_id did).

End WithClient.

(** [main] after argument parsing: the two environment variables, then
    the upsert; any exception is reported and turned into exit code 1. *)
Definition main {W : Type} `{Client W} (clock : Clock)
    (notion_token notion_database_id : option string)
    (agent repo : string) (issue : Z) (pr : option Z)
    (meeting_date summary : string) : W -> Z * W :=
  fun w =>
    if negb (Py.truthy_opt notion_token) then (1%Z, w)
    else if negb (Py.truthy_opt notion_database_id) then (1%Z, w)
    else
      match upsert (default "" notion_database_id) clock agent repo issue pr
              meeting_date summary w with
      | (inr _, w') => (0%Z, w')
      | (inl _, w') => (1%Z, w')
      end.

(** *** An in-memory workspace database

    The remote side the client talks to: the rows, a counter for fresh
    page ids, and a schedule of faults, one flag per remote call still to
    come ([true]: that call raises).  A query returns the matching rows in
    storage order; an update overwrites the properties it is given and
    keeps the others. *)
Record Store := mkStore {
  pages : list Page;
  next_page : nat;
  faults : list bool
}.

Definition fresh_id (n : nat) : string := "page-" +:+ Py.str_nat n.

(** Consume the fault flag of the call being made. *)
Definition tick (s : Store) : bool * Store :=
  match faults s with
  | [] => (false, s)
  | f :: fs => (f, mkStore (pages s) (next_page s) fs)
  end.

Definition matches (database_id property value : string) (p : Page) : bool :=
  String.eqb (parent p) database_id
  && bool_decide (properties p !! property = Some (rich_text value)).

Definition store_query (database_id property value : string) : Eff.M Store (list Page) :=
  fun s =>
    let '(fault, s') := tick s in
    if fault then (inl (Py.APIResponseError "service unavailable"), s')
    else (inr (filter (fun p => matches database_id property value p = true) (pages s')), s').

Definition store_create (database_id : string) (props : gmap string PropValue)
    : Eff.M Store Page :=
  fun s =>
    let '(fault, s') := tick s in
    if fault then (inl (Py.APIResponseError "service unavailable"), s')
    else
      let page := mkPage (fresh_id (next_page s')) database_id props in
      (inr page, mkStore (pages s' ++ [page]) (S (next_page s')) (faults s')).

Definition patch (page_id : string) (props : gmap string PropValue) (p : Page) : Page :=
  if String.eqb (id p) page_id
  then mkPage (id p) (parent p) (props ∪ properties p)
  else p.

Definition store_update (page_id : string) (props : gmap string PropValue)
    : Eff.M Store Page :=
  fun s =>
    let '(fault, s') := tick s in
    if fault then (inl (Py.APIResponseError "service unavailable"), s')
    else
      match List.find (fun p => String.eqb (id p) page_id) (pages s') with
      | None => (inl (Py.APIResponseError "Could not find page"), s')
      | Some p =>
          (inr (patch page_id props p),
           mkStore (map (patch page_id props) (pages s')) (next_page s') (faults s'))
      end.

Global Instance store_client : Client Store := {
  databases_query := store_query;
  pages_create := store_create;
  pages_update := store_update
}.

(** The rows that carry a given task identifier. *)
Definition records_for (database_id deterministic_id : string) (s : Store) : list Page :=
  filter (fun p => matches database_id "Task ID" deterministic_id p = true) (pages s).

(** Page ids are unique and were all handed out by the id counter. *)
Definition well_formed (s : Store) : Prop :=
  NoDup (map id (pages s))
  /\ Forall (fun p => exists m, m < next_page s /\ id p = fresh_id m) (pages s).

(** A clock and a small database to run the script on. *)
Definition demo_clock : Clock :=
  mkClock (fun d => Some (d +:+ "T00:00:00")) "2025-01-16T09:00:00".

Definition demo_store : Store :=
  mkStore [mkPage (fresh_id 0) "db1" {[ "Task ID" := rich_text "another-task" ]}] 1 [].

End notion_sync.

(** ** scripts/create_issues.py *)

Module create_issues.

(** A task definition as read from the tasks file.  [repo] is the one
    key looked up without a default. *)
Record Task := mkTask {
  task_id : string;
  agent : string;
  repo : option string;
  title : string;
  description : string;
  priority : string;
  type_ : string;
  labels : list string;
  explicit : bool
}.

(** The JSON body of a create or update request. *)
Record Payload := mkPayload {
  p_title : option string;
  p_body : string;
  p_labels : list string
}.

(** The three requests made on the [requests.Session], each followed by
    [raise_for_status()] and, where the script reads it, [json()]. *)
Class Session (W : Type) := {
  (** [GET /search/issues?q=..&per_page=..]: the [number] of each item *)
  search_issues : string -> nat -> Eff.M W (list Z);
  (** [POST /repos/{org}/{repo}/issues]: the [number] of the new issue *)
  post_issue : string -> string -> Payload -> Eff.M W Z;
  (** [PATCH /repos/{org}/{repo}/issues/{number}] *)
  patch_issue : string -> string -> Z -> Payload -> Eff.M W unit
}.

(** The result dictionary of [process_task]. *)
Record TaskResult := mkTaskResult {
  r_task_id : string;
  r_status : string;
  r_issue_number : option Z;
  r_repo : option string;
  r_error : option string
}.

Section WithSession.

Context {W : Type} `{Session W}.

(** [self.organization], [self.agent_mapping]; [now] is
    [time.strftime('%Y-%m-%d %H:%M:%S UTC')]. *)
Variable organization : string.
Variable agent_mapping : gmap string string.
Variable now : string.

Definition get_repository_name (agent_id : string) (fallback_repo : option string)
    : Py.result string :=
  let repo :=
    match agent_mapping !! agent_id with
    | Some r => Some r
    | None => fallback_repo
    end in
  if negb (Py.truthy_opt repo)
  then Py.raise (Py.ValueError ("Unknown agent ID: " +:+ agent_id))
  else Py.ret (default "" repo).

Definition search_issue_by_task_id (repo task_id : string) : Eff.M W (option Z) :=
  let query := "repo:" +:+ organization +:+ "/" +:+ repo +:+ " " +:+ task_id +:+ " in:title" in
  Eff.try_except
    (items <- search_issues query 10 ;;
     match items with
     | issue_number :: _ => Eff.ret (Some issue_number)
     | [] => Eff.ret None
     end)
    Py.is_request_exception
    (fun _ => Eff.ret None).

Definition body_head (task : Task) : list string :=
  [ description task; ""; "---";
    "**Task ID:** `" +:+ task_id task +:+ "`";
    "**Priority:** " +:+ priority task;
    "**Type:** " +:+ type_ task;
    "**Explicit:** " +:+ (if explicit task then "Yes" else "No (Inferred)") ].

Definition newline : string := String "010" EmptyString.

Definition create_issue (repo : string) (task : Task) : Eff.M W Z :=
  let title := "[" +:+ task_id task +:+ "] " +:+ title task in
  let meeting_labels := filter (fun l => Py.startswith "meeting/" l = true) (labels task) in
  let body_parts :=
    match meeting_labels with
    | l :: _ =>
        let meeting_id := List.last (Py.split "/" l) "" in
        body_head task ++ ["**Meeting:** " +:+ meeting_id]
    | [] => body_head task
    end in
  let payload := mkPayload (Some title) (Py.join newline body_parts) (labels task) in
  post_issue organization repo payload.

Definition update_issue (repo : string) (issue_number : Z) (task : Task) : Eff.M W unit :=
  let body_parts := body_head task ++ [""; "*Last updated: " +:+ now +:+ "*"] in
  let payload := mkPayload None (Py.join newline body_parts) (labels task) in
  patch_issue organization repo issue_number payload.

(** Truthiness of an [Optional[int]]. *)
Definition truthy_int (o : option Z) : bool :=
  match o with
  | Some n => negb (n =? 0)%Z
  | None => false
  end.

Definition process_task (task : Task) : W -> TaskResult * W :=
  fun w =>
    let body : Eff.M W TaskResult :=
      repo <- Eff.lift (get_repository_name (agent task) (repo task)) ;;
      existing_issue <- search_issue_by_task_id repo (task_id task) ;;
      if truthy_int existing_issue then
        _ <- update_issue repo (default 0%Z existing_issue) task ;;
        Eff.ret (mkTaskResult (task_id task) "updated" existing_issue (Some repo) None)
      else
        issue_number <- create_issue repo task ;;
        Eff.ret (mkTaskResult (task_id task) "created" (Some issue_number) (Some repo) None) in
    match body w with
    | (inr r, w') => (r, w')
    | (inl e, w') =>
        (mkTaskResult (task_id task) "error" None None (Some (Py.str_exn e)), w')
    end.


(** The [for task in tasks] loop of [main]; the half-second sleep between
    tasks has no effect on the results. *)
Fixpoint process_all (tasks : list Task) (results : list TaskResult)
    : W -> list TaskResult * W :=
  fun w =>
    match tasks with
    | [] => (results, w)
    | task :: rest =>
        let '(result, w') := process_task task w in
        process_all rest (results ++ [result]) w'
    end.


(** [sum(1 for r in results if r.get('status') == s)] *)
Definition count_status (s : string) (results : list TaskResult) : nat :=
  length (filter (fun r => r_status r = s) results).

End WithSession.

(** The configuration file: the agent mapping and the organization. *)
Record Config := mkConfig {
  agents : gmap string string;
  organization : option string
}.

(** [main] after argument parsing.  [config] and [tasks] are the outcome
    of reading the two input files (a missing or malformed file raises). *)
Definition main {W : Type} `{Session W} (now : string)
    (github_token : option string) (dry_run : bool)
    (config : Py.result Config) (tasks : Py.result (list Task)) : W -> Z * W :=
  fun w =>
    if negb (Py.truthy_opt github_token) && negb dry_run then (1%Z, w)
    else
      match config with
      | inl _ => (1%Z, w)
      | inr cfg =>
          match tasks with
          | inl _ => (1%Z, w)
          | inr [] => (0%Z, w)
          | inr ts =>
              if dry_run then (0%Z, w)
              else
                let org := default "PR-CYBR" (organization cfg) in
                let '(results, w') := process_all org (agents cfg) now ts [] w in
                let errors := count_status "error" results in
                ((if Nat.eqb errors 0 then 0 else 1)%Z, w')
          end
      end.

(** *** An in-memory issue tracker

    The issues filed so far, and a schedule of faults, one entry per
    request still to come ([Some e]: that request raises [e]). *)
Record Issue := mkIssue {
  i_repo : string;
  i_number : Z;
  i_title : string;
  i_body : string;
  i_labels : list string
}.

Record Tracker := mkTracker {
  issues : list Issue;
  faults : list (option Py.exn)
}.

Definition tick (t : Tracker) : option Py.exn * Tracker :=
  match faults t with
  | [] => (None, t)
  | f :: fs => (f, mkTracker (issues t) fs)
  end.

(** The search understands the one query shape the script sends,
    ["repo:<org>/<repo> <text> in:title"]: the issues of that repository
    whose title contains the text. *)
Definition query_repo (q : string) : string :=
  List.last (Py.split "/" (hd "" (Py.split " " q))) "".

Definition query_text (q : string) : string :=
  Py.join " " (removelast (tl (Py.split " " q))).

Definition tracker_search (q : string) (per_page : nat) : Eff.M Tracker (list Z) :=
  fun t =>
    let '(fault, t') := tick t in
    match fault with
    | Some e => (inl e, t')
    | None =>
        (inr (take per_page
                (map i_number
                   (filter (fun i => i_repo i = query_repo q
                                     ∧ Py.contains (query_text q) (i_title i) = true)
                           (issues t')))), t')
    end.

Definition next_number (repo : string) (t : Tracker) : Z :=
  Z.of_nat (length (filter (fun i => i_repo i = repo) (issues t))) + 1.

Definition tracker_post (org repo : string) (p : Payload) : Eff.M Tracker Z :=
  fun t =>
    let '(fault, t') := tick t in
    match fault with
    | Some e => (inl e, t')
    | None =>
        let n := next_number repo t' in
        (inr n, mkTracker (issues t' ++ [mkIssue repo n (default "" (p_title p))
                                           (p_body p) (p_labels p)]) (faults t'))
    end.

Definition tracker_patch (org repo : string) (n : Z) (p : Payload) : Eff.M Tracker unit :=
  fun t =>
    let '(fault, t') := tick t in
    match fault with
    | Some e => (inl e, t')
    | None =>
        (inr tt,
         mkTracker
           (map (fun i => if bool_decide (i_repo i = repo ∧ i_number i = n)
                          then mkIssue repo n (i_title i) (p_body p) (p_labels p)
                          else i) (issues t'))
           (faults t'))
    end.

Global Instance tracker_session : Session Tracker := {
  search_issues := tracker_search;
  post_issue := tracker_post;
  patch_issue := tracker_patch
}.

(** A task, a mapping and a tracker to run the script on. *)
Definition demo_task : Task :=
  mkTask "standup_TASK_001" "A-01" (Some "PR-CYBR-AGENT-01") "Rotate the keys"
    "TODO: rotate the keys" "medium" "enhancement"
    ["automation/codex"; "meeting/standup"] false.

Definition demo_mapping : gmap string string := {[ "A-01" := "PR-CYBR-AGENT-01" ]}.

End create_issues.

(** ** scripts/sync_notion.py *)

Module sync_notion.

Definition MAX_RETRIES : nat := 3.
Definition RETRY_DELAY : nat := 5.

(** The ["Release Date"] property of a page: without a ["date"] key, with
    ["date": null], or with a date object and its optional ["start"]. *)
Inductive DateProp :=
| NoDate
| NullDate
| DateStart (start : option string).

(** A page of the query response, as far as [_parse_episode] reads it:
    the [plain_text] parts of the title and description, the file URL,
    the release date and the episode number. *)
Record RawPage := mkRawPage {
  rp_id : string;
  rp_title : list string;
  rp_file_url : option string;
  rp_release_date : DateProp;
  rp_episode_number : option Z;
  rp_description : list string
}.

Record Episode := mkEpisode {
  notion_id : string;
  title : string;
  file_url : string;
  release_date : string;
  episode_number : option Z;
  description : string
}.

(** An HTTP response: whether [raise_for_status()] passes, the content
    type header and the body. *)
Record Response := mkResponse {
  status_ok : bool;
  content_type : string;
  content : list Z
}.

Inductive FileContent :=
| Mp3 (bytes : list Z)
| Metadata (episode : Episode) (downloaded_at : string) (file_size : nat).

(** A write that fails: it raises [OSError] with the message [wf_msg];
    [wf_left] is what it leaves under the file's name, [None] when the
    file is as it was before. *)
Record WriteFault := mkWriteFault {
  wf_msg : string;
  wf_left : option FileContent
}.

(** The world of the script: the outcome of the database query, the
    outcomes of the HTTP requests still to come (none left: the
    connection fails), the episodes directory, the seconds slept, and the
    outcomes of the file writes still to come ([None], or none left: the
    write succeeds). *)
Record World := mkWorld {
  live_query : Py.result (list RawPage);
  http : list (Py.result Response);
  files : gmap string FileContent;
  slept : nat;
  writes : list (option WriteFault)
}.

Definition databases_query : Eff.M World (list RawPage) :=
  fun w => (live_query w, w).

Definition requests_get (u : string) : Eff.M World Response :=
  fun w =>
    match http w with
    | [] => (inl (Py.RequestException "connection error"), w)
    | r :: rest => (r, mkWorld (live_query w) rest (files w) (slept w) (writes w))
    end.

Definition raise_for_status (r : Response) : Eff.M World unit :=
  if status_ok r then Eff.ret tt else Eff.raise (Py.RequestException "HTTP error").

(** The directory after a failed write to [name]. *)
Definition after_fault (name : string) (fault : WriteFault)
    (fs : gmap string FileContent) : gmap string FileContent :=
  match wf_left fault with
  | Some partial => <[name := partial]> fs
  | None => fs
  end.

(** [path.write_bytes(..)] and [path.write_text(..)]: the file is written,
    or [OSError] is raised (no space left, no permission, ...), which the
    [except requests.RequestException] of the caller does not catch. *)
Definition write_file (name : string) (c : FileContent) : Eff.M World unit :=
  fun w =>
    match writes w with
    | Some fault :: rest =>
        (inl (Py.OSError (wf_msg fault)),
         mkWorld (live_query w) (http w) (after_fault name fault (files w)) (slept w) rest)
    | None :: rest =>
        (inr tt, mkWorld (live_query w) (http w) (<[name := c]> (files w)) (slept w) rest)
    | [] =>
        (inr tt, mkWorld (live_query w) (http w) (<[name := c]> (files w)) (slept w) [])
    end.

Definition sleep (seconds : nat) : Eff.M World unit :=
  fun w => (inr tt, mkWorld (live_query w) (http w) (files w) (slept w + seconds) (writes w)).

Section WithLibraries.

(** [slugify(title)], [hashlib.md5(title.encode()).hexdigest()[:8]] and
    [datetime.utcnow().isoformat()]. *)
Variable slugify : string -> string.
Variable md5_hex8 : string -> string.
Variable now : string.

Definition concat_text (parts : list string) : string :=
  fold_right String.append "" parts.

(** [None] is both the explicit [return None] and the one taken when
    reading the page raises. *)
Definition _parse_episode (page : RawPage) : option Episode :=
  let title := concat_text (rp_title page) in
  let file_url := rp_file_url page in
  match rp_release_date page with
  | NullDate => None
  | NoDate | DateStart None =>
      if negb (Py.truthy title) || negb (Py.truthy_opt file_url) then None
      else Some (mkEpisode (rp_id page) title (default "" file_url) ""
                   (rp_episode_number page) (concat_text (rp_description page)))
  | DateStart (Some start) =>
      if negb (Py.truthy title) || negb (Py.truthy_opt file_url) then None
      else Some (mkEpisode (rp_id page) title (default "" file_url) start
                   (rp_episode_number page) (concat_text (rp_description page)))
  end.

(** A failed query is printed and raised again. *)
Definition get_live_episodes : Eff.M World (list Episode) :=
  Eff.try_except
    (results <- databases_query ;;
     Eff.ret (omap _parse_episode results))
    Eff.any_exception
    (fun e => Eff.raise e).

Definition _get_episode_filename (episode : Episode) : string :=
  let slug := slugify (title episode) in
  match episode_number episode with
  | Some n =>
      if negb (n =? 0)%Z then "episode-" +:+ Py.fmt_0d_int 3 n +:+ "-" +:+ slug
      else "episode-" +:+ md5_hex8 (title episode) +:+ "-" +:+ slug
  | None => "episode-" +:+ md5_hex8 (title episode) +:+ "-" +:+ slug
  end.

Definition _file_exists (filename_base : string) : Eff.M World bool :=
  fun w => (inr (bool_decide (is_Some (files w !! (filename_base +:+ ".mp3")))), w).

(** [for attempt in range(MAX_RETRIES)], [n] attempts left. *)
Fixpoint attempts (episode : Episode) (filename_base : string) (n attempt : nat)
    : Eff.M World bool :=
  match n with
  | O => Eff.ret false
  | S n' =>
      Eff.try_except
        (response <- requests_get (file_url episode) ;;
         _ <- raise_for_status response ;;
         _ <- write_file (filename_base +:+ ".mp3") (Mp3 (content response)) ;;
         _ <- write_file (filename_base +:+ "-metadata.json")
                (Metadata episode now (length (content response))) ;;
         Eff.ret true)
        Py.is_request_exception
        (fun _ =>
           if Nat.ltb attempt (MAX_RETRIES - 1) then
             _ <- sleep RETRY_DELAY ;;
             attempts episode filename_base n' (S attempt)
           else Eff.ret false)
  end.

Definition download_episode (episode : Episode) : Eff.M World bool :=
  let filename_base := _get_episode_filename episode in
  already <- _file_exists filename_base ;;
  if already then Eff.ret false
  else attempts episode filename_base MAX_RETRIES 0.

(** The [for episode in episodes] loop of [sync]. *)
Fixpoint download_all (episodes : list Episode) (downloaded_count : nat)
    : Eff.M World nat :=
  match episodes with
  | [] => Eff.ret downloaded_count
  | episode :: rest =>
      ok <- download_episode episode ;;
      download_all rest (if ok then downloaded_count + 1 else downloaded_count)
  end.

Definition sync : Eff.M World nat :=
  episodes <- get_live_episodes ;;
  download_all episodes 0.

(** [main]: the argument of the [sys.exit] that ends the process. *)
Definition main (NOTION_TOKEN NOTION_DATABASE_ID : option string) : World -> Z * World :=
  fun w =>
    if negb (Py.truthy_opt NOTION_TOKEN) then (1%Z, w)
    else if negb (Py.truthy_opt NOTION_DATABASE_ID) then (1%Z, w)
    else
      match sync w with
      | (inr downloaded_count, w') =>
          ((if Nat.eqb downloaded_count 0 then 0 else 0)%Z, w')
      | (inl _, w') => (1%Z, w')
      end.

End WithLibraries.


(** Every write still to come succeeds. *)
Definition writes_succeed (w : World) : Prop :=
  Forall (fun outcome => outcome = None) (writes w).

(** A live episode and a world in which every request for it fails. *)
Definition demo_page : RawPage :=
  mkRawPage "page-7" ["Zero"; " Trust"] (Some "https://cdn.example/zero-trust.mp3")
    (DateStart (Some "2025-01-15")) (Some 7%Z) ["Pilot episode"].

Definition demo_world : World := mkWorld (inr [demo_page]) [] ∅ 0 [].

End sync_notion.

(** ** scripts/sync_notion_enhanced.py (with the mocks of google_drive_utils.py) *)

Module sync_notion_enhanced.

(** The episode dictionary built by [_parse_episode_extended].  The URL
    properties can be [None] (a null URL in the database). *)
Record Episode := mkEpisode {
  notion_id : string;
  title : string;
  season : option Z;
  episode : option Z;
  status : string;
  code_name : string;
  prompt_input : string;
  script_doc_link : option string;
  track_cloud : option string;
  duration : string;
  show_notes_link : option string
}.

(** A Python value handed to [update_notion_property]: the pipeline
    passes strings, the ["number"] type is meant for numbers; any other
    object is kept with the text [str] gives for it. *)
Inductive Value :=
| str_value (s : string)
| int_value (z : Z)
| other_value (text : string).

(** [str(value)] *)
Definition str_of (value : Value) : string :=
  match value with
  | str_value s => s
  | int_value z => Py.str_int z
  | other_value text => text
  end.

(** The property payloads [update_notion_property] can send:
    [{"rich_text": [{"text": {"content": c}}]}], [{"url": u}] and
    [{"number": value}]. *)
Inductive PropValue :=
| rich_text (content : string)
| url (u : string)
| number (value : Value).

(** One accepted [pages.update] call. *)
Record Update := mkUpdate {
  u_page : string;
  u_property : string;
  u_value : PropValue
}.

(** The world of the script: the property updates the database accepted,
    the faults of the update calls still to come ([true]: the call
    raises), the documents created in the drive (title and content), the
    sources added to notebooks, the audio overviews requested, and the
    local prompt files. *)
Record World := mkWorld {
  updates : list Update;
  faults : list bool;
  docs : list (string * string);
  sources : list (string * string);
  overviews : list string;
  prompt_files : gmap string string
}.

Definition pages_update (u : Update) : Eff.M World unit :=
  fun w =>
    match faults w with
    | true :: fs =>
        (inl (Py.APIResponseError "service unavailable"),
         mkWorld (updates w) fs (docs w) (sources w) (overviews w) (prompt_files w))
    | false :: fs =>
        (inr tt, mkWorld (updates w ++ [u]) fs (docs w) (sources w) (overviews w)
                   (prompt_files w))
    | [] =>
        (inr tt, mkWorld (updates w ++ [u]) [] (docs w) (sources w) (overviews w)
                   (prompt_files w))
    end.

Section WithSync.

(** [hash(s)] of the running interpreter; whether [self.google_drive] and
    [self.notebook_lm] were initialised. *)
Variable py_hash : string -> Z.
Variable google_drive : bool.
Variable notebook_lm : bool.

(** [f"{hash(s) % 10000:04d}"] *)
Definition hash4 (s : string) : string :=
  Py.fmt_0d_int 4 (py_hash s mod 10000).

(** [GoogleDriveClient.create_google_doc]: the URL of the new document. *)
Definition create_google_doc (title content : string) : Eff.M World string :=
  fun w =>
    (inr ("https://docs.google.com/document/d/doc_" +:+ hash4 title +:+ "/edit"),
     mkWorld (updates w) (faults w) (docs w ++ [(title, content)]) (sources w)
       (overviews w) (prompt_files w)).

Definition add_source_to_notebook (notebook_id document_id : string) : Eff.M World unit :=
  fun w =>
    (inr tt,
     mkWorld (updates w) (faults w) (docs w) (sources w ++ [(notebook_id, document_id)])
       (overviews w) (prompt_files w)).

(** [NotebookLMClient.generate_audio_overview]: the URL of the audio. *)
Definition generate_audio_overview (notebook_id : string) : Eff.M World string :=
  fun w =>
    (inr ("https://notebooklm.google.com/audio/audio_" +:+ hash4 notebook_id +:+ ".mp3"),
     mkWorld (updates w) (faults w) (docs w) (sources w) (overviews w ++ [notebook_id])
       (prompt_files w)).

Definition newline : string := String "010" EmptyString.

(** [generate_show_notes]: the episode dictionary has no description. *)
Definition generate_show_notes (ep : Episode) : string :=
  "# " +:+ title ep +:+ newline +:+ newline
  +:+ "## Episode Description" +:+ newline +:+ "" +:+ newline +:+ newline
  +:+ "## Topics Covered" +:+ newline +:+ "- [Topic to be added]" +:+ newline +:+ newline
  +:+ "## Resources" +:+ newline +:+ "- [Resource links to be added]" +:+ newline +:+ newline
  +:+ "## Timestamps" +:+ newline +:+ "- 00:00 - Introduction" +:+ newline
  +:+ "- [Additional timestamps to be added]" +:+ newline +:+ newline
  +:+ "---" +:+ newline +:+ "Generated automatically by PR-CYBR-P0D" +:+ newline.

(** The [properties] payload for a property type, [None] for a type that
    is not supported. *)
Definition payload (value : Value) (property_type : string) : option PropValue :=
  if String.eqb property_type "rich_text" then Some (rich_text (str_of value))
  else if String.eqb property_type "url" then Some (url (str_of value))
  else if String.eqb property_type "number" then Some (number value)
  else None.

(** [update_notion_property]: an unsupported type is reported and answered
    with [False] before any call; a failed call is reported and answered
    with [False] as well. *)
Definition update_notion_property (page_id property_name : string) (value : Value)
    (property_type : string) : Eff.M World bool :=
  Eff.try_except
    (match payload value property_type with
     | Some properties =>
         _ <- pages_update (mkUpdate page_id property_name properties) ;;
         Eff.ret true
     | None => Eff.ret false
     end)
    Eff.any_exception
    (fun _ => Eff.ret false).

(** [f"{n:0wd}"] of an optional number: [None] raises [TypeError]. *)
Definition fmt_number (w : nat) (n : option Z) : Py.result string :=
  match n with
  | Some z => Py.ret (Py.fmt_0d_int w z)
  | None => Py.raise Py.TypeError
  end.

Definition read_prompt_file (name : string) : Eff.M World (option string) :=
  fun w => (inr (prompt_files w !! name), w).

Definition process_prompt_input (ep : Episode) : Eff.M World bool :=
  if negb google_drive then Eff.ret false
  else
    prompt_text <-
      (if negb (Py.truthy (prompt_input ep)) then
         s <- Eff.lift (fmt_number 2 (season ep)) ;;
         e <- Eff.lift (fmt_number 3 (episode ep)) ;;
         read_prompt_file ("prompt_S" +:+ s +:+ "E" +:+ e +:+ ".txt")
       else Eff.ret (Some (prompt_input ep))) ;;
    match prompt_text with
    | None => Eff.ret false
    | Some text =>
        doc_url <- create_google_doc (code_name ep +:+ " - Script") text ;;
        _ <- update_notion_property (notion_id ep) "Script-Doc-Link" (str_value doc_url) "url" ;;
        Eff.ret true
    end.

(** [doc_url.split("/")[-2] if "/" in doc_url else doc_url] *)
Definition doc_id_of (doc_url : string) : string :=
  if Py.contains "/" doc_url
  then List.last (removelast (Py.split "/" doc_url)) ""
  else doc_url.

Definition process_notebooklm_integration (ep : Episode) : Eff.M World bool :=
  if negb notebook_lm || negb (Py.truthy_opt (script_doc_link ep)) then Eff.ret false
  else
    let doc_id := doc_id_of (default "" (script_doc_link ep)) in
    s <- Eff.lift (fmt_number 2 (season ep)) ;;
    let notebook_id := "notebook_S" +:+ s in
    _ <- add_source_to_notebook notebook_id doc_id ;;
    audio_url <- generate_audio_overview notebook_id ;;
    _ <- update_notion_property (notion_id ep) "Track-Cloud" (str_value audio_url) "url" ;;
    Eff.ret true.

Definition process_audio_metadata (ep : Episode) : Eff.M World bool :=
  if negb (Py.truthy_opt (track_cloud ep)) then Eff.ret false
  else
    let duration := "45:30" in
    _ <- update_notion_property (notion_id ep) "Duration" (str_value duration) "rich_text" ;;
    Eff.ret true.

Definition generate_and_upload_show_notes (ep : Episode) : Eff.M World bool :=
  if negb google_drive then Eff.ret false
  else
    let show_notes := generate_show_notes ep in
    doc_url <- create_google_doc (code_name ep +:+ " - Show Notes") show_notes ;;
    _ <- update_notion_property (notion_id ep) "Show-Notes-Link" (str_value doc_url) "url" ;;
    Eff.ret true.

(** [if cond: step(episode)], the step's answer being dropped. *)
Definition when (cond : bool) (step : Eff.M World bool) : Eff.M World unit :=
  if cond then (_ <- step ;; Eff.ret tt) else Eff.ret tt.

Definition retrofit_episode (ep : Episode) : World -> bool * World :=
  fun w =>
    let body : Eff.M World unit :=
      _ <- when (Py.truthy (prompt_input ep) && negb (Py.truthy_opt (script_doc_link ep)))
             (process_prompt_input ep) ;;
      _ <- when (Py.truthy_opt (script_doc_link ep) && negb (Py.truthy_opt (track_cloud ep)))
             (process_notebooklm_integration ep) ;;
      _ <- when (Py.truthy_opt (track_cloud ep) && negb (Py.truthy (duration ep)))
             (process_audio_metadata ep) ;;
      when (Py.truthy_opt (track_cloud ep) && negb (Py.truthy_opt (show_notes_link ep)))
        (generate_and_upload_show_notes ep) in
    match body w with
    | (inr _, w') => (true, w')
    | (inl _, w') => (false, w')
    end.

End WithSync.

(** *** What a run may add for an episode

    A property update is allowed when it is for the episode's page and
    writes an output field that the episode lacks; a document when it is
    the script or the show notes of an episode that lacks the link to it. *)
Definition allowed_update (ep : Episode) (u : Update) : Prop :=
  u_page u = notion_id ep
  /\ ((u_property u = "Script-Doc-Link" /\ Py.truthy_opt (script_doc_link ep) = false)
      \/ (u_property u = "Track-Cloud" /\ Py.truthy_opt (track_cloud ep) = false)
      \/ (u_property u = "Duration" /\ Py.truthy (duration ep) = false)
      \/ (u_property u = "Show-Notes-Link" /\ Py.truthy_opt (show_notes_link ep) = false)).

Definition allowed_doc (ep : Episode) (d : string * string) : Prop :=
  (d.1 = code_name ep +:+ " - Script" /\ Py.truthy_opt (script_doc_link ep) = false)
  \/ (d.1 = code_name ep +:+ " - Show Notes" /\ Py.truthy_opt (show_notes_link ep) = false).

(** [w'] is [w] after some allowed additions: updates and documents are
    appended, audio sources are registered and overviews requested only
    for an episode without an audio link, prompt files are untouched. *)
Definition grows (ep : Episode) (w w' : World) : Prop :=
  (exists new, updates w' = updates w ++ new /\ Forall (allowed_update ep) new)
  /\ (exists new, docs w' = docs w ++ new /\ Forall (allowed_doc ep) new)
  /\ (exists new, sources w' = sources w ++ new
                  /\ (Py.truthy_opt (track_cloud ep) = true -> new = []))
  /\ (exists new, overviews w' = overviews w ++ new
                  /\ (Py.truthy_opt (track_cloud ep) = true -> new = []))
  /\ prompt_files w' = prompt_files w.

(** A computation that, from any world, only makes allowed additions,
    whether it returns or raises. *)
Definition preserves {A} (ep : Episode) (m : Eff.M World A) : Prop :=
  forall w, grows ep w (m w).2.

(** An episode with every field populated, and an empty world. *)
Definition demo_episode : Episode :=
  mkEpisode "page-7" "Zero Trust" (Some 1%Z) (Some 7%Z) "Not started"
    "P0D-S01-E007-AXIS-BARRIER" "Explain zero trust."
    (Some "https://docs.google.com/document/d/doc_0042/edit")
    (Some "https://notebooklm.google.com/audio/audio_0007.mp3")
    "45:30"
    (Some "https://docs.google.com/document/d/doc_0043/edit").

Definition demo_world : World := mkWorld [] [] [] [] [] ∅.

(** *** The season databases

    [environ] is [os.environ].  The body of [for season in range(1, 19)],
    over the seasons still to come. *)
Fixpoint season_ids_loop (environ : gmap string string) (seasons : list nat)
    (database_ids : list (nat * string)) : list (nat * string) :=
  match seasons with
  | [] => database_ids
  | season :: rest =>
      let db_id := environ !! ("PR_CYBR_P0D_S" +:+ Py.str_nat season +:+ "_DB_ID") in
      if Py.truthy_opt db_id
      then season_ids_loop environ rest (database_ids ++ [(season, default "" db_id)])
      else season_ids_loop environ rest database_ids
  end.

Definition get_season_database_ids (environ : gmap string string) : list (nat * string) :=
  season_ids_loop environ (seq 1 18) [].

(** A computation that never raises. *)
Definition returns {A} (m : Eff.M World A) : Prop :=
  forall w, exists a w', m w = (inr a, w').

End sync_notion_enhanced.

(** * Properties *)

(** ** Facts about the string built-ins *)

Section StringFacts.

Lemma append_nil_l s : "" +:+ s = s.
Proof. reflexivity. Qed.

Lemma append_cons c a s : String c a +:+ s = String c (a +:+ s).
Proof. reflexivity. Qed.

Lemma append_nil_r s : s +:+ "" = s.
Proof. induction s as [|c s IH]; [done|]. by rewrite append_cons, IH. Qed.

Lemma append_assoc a b c : (a +:+ b) +:+ c = a +:+ b +:+ c.
Proof. induction a as [|x a IH]; [done|]. by rewrite !append_cons, IH. Qed.

Lemma all_chars_app p a b :
  Py.all_chars p (a +:+ b) = Py.all_chars p a && Py.all_chars p b.
Proof.
  induction a as [|c a IH]; [done|].
  rewrite append_cons. simpl. rewrite IH. by rewrite andb_assoc.
Qed.

Lemma all_chars_impl (p q : ascii -> bool) s :
  (forall c, p c = true -> q c = true) ->
  Py.all_chars p s = true -> Py.all_chars q s = true.
Proof.
  intros Hpq. induction s as [|c s IH]; simpl; [done|].
  intros [Hc Hs]%andb_true_iff. apply andb_true_iff. auto.
Qed.

(** Two strings that each consist of a part without [p]-characters
    followed by a part of [p]-characters only are cut at the same place. *)
Lemma app_split_by_class (p : ascii -> bool) a a' d d' :
  Py.all_chars (fun c => negb (p c)) a = true ->
  Py.all_chars (fun c => negb (p c)) a' = true ->
  Py.all_chars p d = true ->
  Py.all_chars p d' = true ->
  a +:+ d = a' +:+ d' -> a = a' /\ d = d'.
Proof.
  revert a'. induction a as [|c a IH]; intros [|c' a'] Ha Ha' Hd Hd' Heq;
    rewrite ?append_nil_l, ?append_cons in Heq; simpl in Ha, Ha'.
  - done.
  - rewrite Heq in Hd. simpl in Hd.
    apply andb_true_iff in Ha' as [Hc' _]. apply andb_true_iff in Hd as [Hc _].
    rewrite Hc in Hc'. discriminate.
  - rewrite <- Heq in Hd'. simpl in Hd'.
    apply andb_true_iff in Ha as [Hc _]. apply andb_true_iff in Hd' as [Hc' _].
    rewrite Hc' in Hc. discriminate.
  - injection Heq as -> Heq.
    apply andb_true_iff in Ha as [_ Ha]. apply andb_true_iff in Ha' as [_ Ha'].
    destruct (IH a' Ha Ha' Hd Hd' Heq) as [-> ->]. done.
Qed.

(** A separator that occurs in neither head cuts both strings alike. *)
Lemma app_sep_split (sep : ascii) a a' x x' :
  Py.all_chars (fun c => negb (Ascii.eqb c sep)) a = true ->
  Py.all_chars (fun c => negb (Ascii.eqb c sep)) a' = true ->
  a +:+ String sep x = a' +:+ String sep x' -> a = a' /\ x = x'.
Proof.
  revert a'. induction a as [|c a IH]; intros [|c' a'] Ha Ha' Heq;
    rewrite ?append_nil_l, ?append_cons in Heq; simpl in Ha, Ha'.
  - by injection Heq as ->.
  - injection Heq as <- _. rewrite Ascii.eqb_refl in Ha'. discriminate.
  - injection Heq as -> _. rewrite Ascii.eqb_refl in Ha. discriminate.
  - injection Heq as -> Heq.
    apply andb_true_iff in Ha as [_ Ha]. apply andb_true_iff in Ha' as [_ Ha'].
    destruct (IH a' Ha Ha' Heq) as [-> ->]. done.
Qed.

Lemma pretty_N_char_digit x : Py.is_digit (pretty_N_char x) = true.
Proof. unfold pretty_N_char. by repeat case_match. Qed.

(** The decimal digits [str] puts in front of what it has so far. *)
Lemma pretty_N_go_digits x s :
  exists p, pretty_N_go x s = p +:+ s
            /\ Py.all_chars Py.is_digit p = true
            /\ ((0 < x)%N -> p <> "").
Proof.
  revert s. induction (N.lt_wf_0 x) as [x _ IH]; intros s.
  destruct (decide (x = 0)%N) as [->|Hx].
  - exists "". rewrite pretty_N_go_0. split; [done|]. split; [done|]. lia.
  - rewrite pretty_N_go_step by lia.
    destruct (IH (x `div` 10)%N ltac:(apply N.div_lt; lia)
                (String (pretty_N_char (x `mod` 10)) s)) as (p & Hp & Hdig & _).
    exists (p +:+ String (pretty_N_char (x `mod` 10)) "").
    rewrite Hp. split; [|split].
    + by rewrite append_assoc.
    + rewrite all_chars_app, Hdig. simpl. by rewrite pretty_N_char_digit.
    + intros _. destruct p; discriminate.
Qed.

Lemma pretty_N_digits (x : N) :
  Py.all_chars Py.is_digit (pretty x) = true /\ pretty x <> "".
Proof.
  unfold pretty, pretty_N. case_decide as H0; [done|].
  destruct (pretty_N_go_digits x "") as (p & -> & Hdig & Hne).
  rewrite append_nil_r. split; [done|]. apply Hne. lia.
Qed.

Lemma str_nat_digits n :
  Py.all_chars Py.is_digit (Py.str_nat n) = true /\ Py.str_nat n <> "".
Proof. apply pretty_N_digits. Qed.

Lemma str_nat_inj n m : Py.str_nat n = Py.str_nat m -> n = m.
Proof. apply pretty_nat_inj. Qed.

(** [str] of an integer is a run of digits, after a minus sign if the
    integer is negative. *)
Lemma str_int_chars z :
  Py.all_chars (fun c => Py.is_digit c || Ascii.eqb c "-") (Py.str_int z) = true.
Proof.
  unfold Py.str_int, pretty, pretty_Z. destruct z as [|p|p]; [done|..].
  - apply (all_chars_impl Py.is_digit); [by intros c ->|]. apply pretty_N_digits.
  - rewrite append_cons, append_nil_l. simpl.
    apply (all_chars_impl Py.is_digit); [by intros c ->|]. apply pretty_N_digits.
Qed.

Lemma str_int_inj z z' : Py.str_int z = Py.str_int z' -> z = z'.
Proof. apply pretty_Z_inj. Qed.

End StringFacts.

(** ** The stub task extractor *)

Section ExtractTasks.

Import extract_tasks.

Lemma Forall2_imap_self {A B} (P : B -> A -> Prop) (f : nat -> A -> B) (l : list A) :
  (forall i x, P (f i x) x) -> Forall2 P (imap f l) l.
Proof.
  revert f. induction l as [|x l IH]; intros f Hf; simpl; constructor; auto.
  apply IH. intros i y. apply Hf.
Qed.

Lemma stub_loop_spec mid lines c tasks :
  1 <= c <= 10 ->
  stub_loop mid lines c tasks =
  tasks ++ imap (fun i line => make_task mid (c + i) line)
             (take (11 - c) (filter (fun line => has_action_keyword line = true) lines)).
Proof.
  revert c tasks.
  induction lines as [|line rest IH]; intros c tasks Hc.
  - cbn [stub_loop]. rewrite filter_nil, take_nil. simpl. by rewrite app_nil_r.
  - cbn [stub_loop]. rewrite filter_cons.
    destruct (has_action_keyword line) eqn:Hk.
    + rewrite decide_True by done.
      destruct (11 - c) as [|k] eqn:Hk11; [lia|].
      rewrite firstn_cons, imap_cons, Nat.add_0_r.
      destruct (Nat.ltb_spec 10 (c + 1)) as [Hlt|Hge].
      * assert (k = 0) as -> by lia. by rewrite take_0.
      * rewrite IH by lia. rewrite <- app_assoc. simpl.
        do 2 f_equal. replace (11 - (c + 1)) with k by lia.
        apply imap_ext. intros i x _. simpl. f_equal. lia.
    + rewrite decide_False by discriminate.
      by apply IH.
Qed.

(** C5 (amended): the stub extractor yields one task per line with an
    action keyword, in transcript order, for the first ten such lines and
    none for any other line; the tasks are numbered from 1 and each title
    is the first 100 characters of its line with the surrounding
    whitespace stripped. *)
Theorem extract_tasks_stub_spec (td : extract_tasks.TranscriptData) :
  let mid := default "unknown" (meeting_id td) in
  let hits := take 10 (matching_lines td) in
  extract_tasks_stub td = imap (fun i line => make_task mid (S i) line) hits
  /\ length (extract_tasks_stub td) = Nat.min 10 (length (matching_lines td))
  /\ Forall2 (fun task line =>
                title task = Py.slice_to 100 (Py.strip line)
                /\ description task = Py.strip line)
       (extract_tasks_stub td) hits.
Proof.
  intros mid hits.
  assert (extract_tasks_stub td = imap (fun i line => make_task mid (S i) line) hits) as Heq.
  { unfold extract_tasks_stub. rewrite stub_loop_spec by lia. done. }
  split; [done|]. rewrite Heq. split.
  - rewrite length_imap. unfold hits. rewrite length_take. lia.
  - apply Forall2_imap_self. intros i x. done.
Qed.

(** C5, as stated, fails: a matching line that starts with blanks gets a
    title that is not the first 100 characters of the line. *)
Lemma stub_title_is_not_line_prefix :
  let td := mkTranscript (Some "standup") (Some "  TODO: rotate the keys") in
  matching_lines td = ["  TODO: rotate the keys"]
  /\ map title (extract_tasks_stub td) = ["TODO: rotate the keys"]
  /\ ~ Forall2 (fun task line => title task = Py.slice_to 100 line)
         (extract_tasks_stub td) (take 10 (matching_lines td)).
Proof.
  split; [reflexivity|]. split; [reflexivity|].
  vm_compute. intros Hall. inversion Hall as [|? ? ? ? Hhd]. discriminate Hhd.
Qed.

(** C10: whatever the value of OPENAI_API_KEY, set or not, the entry point
    returns the stub extractor's task list; only the log line differs. *)
Theorem extract_tasks_with_llm_key_independent
    (key1 key2 : option string) (td : extract_tasks.TranscriptData) :
  snd (extract_tasks_with_llm key1 td) = extract_tasks_stub td
  /\ snd (extract_tasks_with_llm key1 td) = snd (extract_tasks_with_llm key2 td).
Proof.
  unfold extract_tasks_with_llm.
  destruct (negb (Py.truthy_opt key1)), (negb (Py.truthy_opt key2)); done.
Qed.

End ExtractTasks.

(** ** The release schedule *)

Section ReleaseSchedule.

Import populate_release_schedule.
Local Open Scope Z_scope.

Lemma weekday_range d : 0 <= weekday d < 7.
Proof. unfold weekday. apply Z.mod_pos_bound. lia. Qed.

(** [get_next_release_day] on its own: the first release day strictly
    after the weekday of its argument. *)
Lemma get_next_release_day_eq d :
  1 <= ordinal d -> ordinal d + 3 <= MAXORDINAL ->
  get_next_release_day d =
  Py.ret (mkDatetime
            (ordinal d + match weekday d with
                         | 0 => 2 | 1 => 1 | 2 => 2 | 3 => 1 | 4 => 3 | 5 => 2 | _ => 1
                         end) 6 0 0 0).
Proof.
  intros Hlo Hhi. pose proof (weekday_range d) as Hw.
  unfold get_next_release_day, add_days, RELEASE_DAYS, MAXORDINAL in *.
  assert (weekday d = 0 \/ weekday d = 1 \/ weekday d = 2 \/ weekday d = 3
          \/ weekday d = 4 \/ weekday d = 5 \/ weekday d = 6) as Hcases by lia.
  destruct Hcases as [E|[E|[E|[E|[E|[E|E]]]]]]; rewrite E; simpl;
    match goal with
    | |- context [if ?b then _ else _] =>
        replace b with true by (symmetry; apply andb_true_intro; split; apply Z.leb_le; lia)
    end; reflexivity.
Qed.

(** One turn of the loop body: a day forward, then the next release day. *)
Lemma loop_step d :
  1 <= ordinal d -> ordinal d + 4 <= MAXORDINAL ->
  (let* tomorrow := add_days d 1 in get_next_release_day tomorrow) = Py.ret (advance d).
Proof.
  intros Hlo Hhi. unfold add_days.
  replace ((1 <=? ordinal d + 1) && (ordinal d + 1 <=? MAXORDINAL)) with true
    by (symmetry; apply andb_true_intro; split; apply Z.leb_le; lia).
  cbn [Py.bind Py.ret].
  rewrite get_next_release_day_eq by (cbn [ordinal]; lia).
  cbn [ordinal]. unfold advance, Py.ret. do 2 f_equal.
  pose proof (weekday_range d) as Hw.
  set (t := mkDatetime _ _ _ _ _).
  assert (weekday t = (weekday d + 1) mod 7) as Ht.
  { unfold weekday, t. cbn [ordinal]. Z.div_mod_to_equations. lia. }
  rewrite Ht.
  assert (weekday d = 0 \/ weekday d = 1 \/ weekday d = 2 \/ weekday d = 3
          \/ weekday d = 4 \/ weekday d = 5 \/ weekday d = 6) as Hcases by lia.
  destruct Hcases as [E|[E|[E|[E|[E|[E|E]]]]]]; rewrite E; simpl; lia.
Qed.

Lemma advance_ordinal d : ordinal d + 2 <= ordinal (advance d) <= ordinal d + 4.
Proof.
  pose proof (weekday_range d) as Hw. unfold advance. cbn [ordinal].
  assert (weekday d = 0 \/ weekday d = 1 \/ weekday d = 2 \/ weekday d = 3
          \/ weekday d = 4 \/ weekday d = 5 \/ weekday d = 6) as Hcases by lia.
  destruct Hcases as [E|[E|[E|[E|[E|[E|E]]]]]]; rewrite E; simpl; lia.
Qed.

Lemma schedule_loop_eq season n e cur sched :
  1 <= ordinal cur -> ordinal cur + 4 * Z.of_nat n <= MAXORDINAL ->
  season_loop season n e cur sched =
  Py.ret (sched ++ imap (fun i d => (season, e + Z.of_nat i, d)) (dates_from n cur))%list.
Proof.
  revert e cur sched. induction n as [|n IH]; intros e cur sched Hlo Hhi.
  - simpl. by rewrite app_nil_r.
  - cbn [season_loop dates_from].
    pose proof (loop_step cur Hlo ltac:(lia)) as Hstep.
    unfold Py.bind in Hstep |- *.
    destruct (add_days cur 1) as [err|tomorrow]; [discriminate Hstep|].
    rewrite Hstep. unfold Py.ret at 1.
    pose proof (advance_ordinal cur) as Hadv.
    rewrite IH by lia.
    rewrite <- app_assoc. rewrite imap_cons. simpl. rewrite Z.add_0_r.
    do 3 f_equal. apply imap_ext. intros i x _. simpl. do 2 f_equal. lia.
Qed.

Lemma dates_from_length n d : length (dates_from n d) = n.
Proof. revert d. induction n; intros d; simpl; auto. Qed.

Lemma dates_from_lookup_succ n d k x :
  dates_from n d !! S k = Some x -> dates_from (Nat.pred n) (advance d) !! k = Some x.
Proof. destruct n; simpl; [discriminate|auto]. Qed.

(** After a date on a release day, or on the Tuesday the schedule may
    start from, the loop lands on a release day at 06:00. *)
Lemma advance_release_day d :
  weekday d = 0 \/ weekday d = 1 \/ weekday d = 2 \/ weekday d = 4 ->
  at_0600 (advance d)
  /\ (weekday (advance d) = 0 \/ weekday (advance d) = 2 \/ weekday (advance d) = 4).
Proof.
  intros Hw. split; [by repeat split|].
  unfold advance, weekday in *. cbn [ordinal].
  destruct Hw as [E|[E|[E|E]]]; rewrite E; simpl; Z.div_mod_to_equations; lia.
Qed.

Lemma advance_next_in_cycle d :
  weekday d = 0 \/ weekday d = 2 \/ weekday d = 4 -> next_in_cycle d (advance d).
Proof.
  intros Hw. unfold next_in_cycle, advance, weekday in *. cbn [ordinal].
  destruct Hw as [E|[E|E]]; rewrite E; simpl;
    [left|right; left|right; right]; repeat split; try done;
    Z.div_mod_to_equations; lia.
Qed.

(** Every date after the first, and its successor. *)
Lemma dates_from_tail n d k x :
  weekday d = 0 \/ weekday d = 1 \/ weekday d = 2 \/ weekday d = 4 ->
  dates_from n d !! S k = Some x ->
  at_0600 x /\ (weekday x = 0 \/ weekday x = 2 \/ weekday x = 4)
  /\ forall y, dates_from n d !! S (S k) = Some y -> next_in_cycle x y.
Proof.
  revert n d. induction k as [|k IH]; intros n d Hw Hx.
  - destruct n as [|[|n]]; simpl in Hx; try discriminate. injection Hx as <-.
    destruct (advance_release_day d Hw) as [H6 Hrel].
    repeat split; try apply H6; [done|].
    intros y Hy. destruct n; simpl in Hy; [discriminate|]. injection Hy as <-.
    by apply advance_next_in_cycle.
  - destruct n as [|n]; [discriminate|]. cbn [dates_from] in Hx |- *.
    change ((d :: dates_from n (advance d)) !! S (S k)) with (dates_from n (advance d) !! S k) in Hx.
    destruct (advance_release_day d Hw) as [_ Hrel].
    destruct (IH n (advance d) ltac:(tauto) Hx) as (H6 & Hrel' & Hnext).
    repeat split; try apply H6; [done|].
    intros y Hy. apply Hnext. exact Hy.
Qed.

(** C3 (amended): with a start date on a Tuesday, the first row of the
    schedule is the start date itself, unchanged; every later row is at
    06:00 on a Monday, Wednesday or Friday, and the row after it is the
    next day of the cycle Monday, Wednesday, Friday, next week's Monday.
    [get_next_release_day] applied to the Tuesday itself yields the
    following Wednesday at 06:00. *)
Theorem tuesday_schedule (season episodes : Z) (start : datetime) :
  weekday start = 1 ->
  1 <= episodes ->
  1 <= ordinal start ->
  ordinal start + 4 * episodes <= MAXORDINAL ->
  get_next_release_day start = Py.ret (mkDatetime (ordinal start + 1) 6 0 0 0)
  /\ exists sched,
       generate_season_schedule season episodes start = Py.ret sched
       /\ Z.of_nat (length sched) = episodes
       /\ sched !! 0%nat = Some (season, 1, start)
       /\ forall (k : nat) (s e : Z) (d : datetime),
           sched !! S k = Some (s, e, d) ->
           s = season /\ e = Z.of_nat k + 2 /\ at_0600 d
           /\ (weekday d = 0 \/ weekday d = 2 \/ weekday d = 4)
           /\ forall (s' e' : Z) (d' : datetime),
               sched !! S (S k) = Some (s', e', d') -> next_in_cycle d d'.
Proof.
  intros Htue Hep Hlo Hhi. split.
  { rewrite get_next_release_day_eq by lia. by rewrite Htue. }
  unfold generate_season_schedule.
  rewrite schedule_loop_eq by lia.
  eexists. split; [reflexivity|]. cbn [app].
  set (n := Z.to_nat episodes).
  assert (forall (k : nat) s e d,
            imap (fun i d => (season, 1 + Z.of_nat i, d)) (dates_from n start) !! k
            = Some (s, e, d) ->
            s = season /\ e = 1 + Z.of_nat k /\ dates_from n start !! k = Some d) as Hlook.
  { intros k s e d Hk. rewrite list_lookup_imap in Hk.
    destruct (dates_from n start !! k) as [x|]; simpl in Hk; [|discriminate].
    injection Hk as <- <- <-. done. }
  split; [rewrite length_imap, dates_from_length; lia|].
  split.
  { destruct n as [|n'] eqn:Hn; [lia|]. reflexivity. }
  intros k s e d Hk. apply Hlook in Hk as (-> & -> & Hd).
  destruct (dates_from_tail n start k d ltac:(tauto) Hd) as (H6 & Hrel & Hnext).
  repeat split; try apply H6; [lia|done|].
  intros s' e' d' Hk'. apply Hlook in Hk' as (_ & _ & Hd'). by apply Hnext.
Qed.

Lemma tuesday_schedule_witness :
  let start := mk_datetime 2024 1 2 6 0 in
  get_next_release_day start = Py.ret (mkDatetime (ordinal start + 1) 6 0 0 0)
  /\ exists sched,
       generate_season_schedule 1 52 start = Py.ret sched
       /\ Z.of_nat (length sched) = 52
       /\ sched !! 0%nat = Some (1, 1, start)
       /\ forall (k : nat) (s e : Z) (d : datetime),
           sched !! S k = Some (s, e, d) ->
           s = 1 /\ e = Z.of_nat k + 2 /\ at_0600 d
           /\ (weekday d = 0 \/ weekday d = 2 \/ weekday d = 4)
           /\ forall (s' e' : Z) (d' : datetime),
               sched !! S (S k) = Some (s', e', d') -> next_in_cycle d d'.
Proof.
  intros start.
  apply (tuesday_schedule 1 52 start);
    [reflexivity | lia | apply Z.leb_le; reflexivity | apply Z.leb_le; reflexivity].
Defined.

(** C3, as stated, fails: from Tuesday 2024-01-02 the schedule opens with
    that Tuesday and goes on to Friday 2024-01-05; Wednesday 2024-01-03 is
    not in it. *)
Lemma tuesday_start_is_first_release :
  let start := mk_datetime 2024 1 2 6 0 in
  weekday start = 1
  /\ generate_season_schedule 1 4 start =
     Py.ret [ (1, 1, start); (1, 2, mk_datetime 2024 1 5 6 0);
              (1, 3, mk_datetime 2024 1 8 6 0); (1, 4, mk_datetime 2024 1 10 6 0) ]
  /\ weekday (mk_datetime 2024 1 5 6 0) = 4
  /\ ~ (exists rest, generate_season_schedule 1 4 start
                     = Py.ret ((1, 1, mk_datetime 2024 1 3 6 0) :: rest)).
Proof.
  split; [reflexivity|]. split; [reflexivity|]. split; [reflexivity|].
  intros [rest Hrest]. vm_compute in Hrest. discriminate Hrest.
Qed.

End ReleaseSchedule.

(** ** Episode code names *)

Section CodeNames.

Import generate_code_names.

Lemma for_each_map {A B} (f : A -> Py.result B) (g : A -> B) (l : list A) :
  (forall a, a ∈ l -> f a = Py.ret (g a)) ->
  for_each f l = Py.ret (map g l).
Proof.
  induction l as [|a l IH]; intros Hf; [done|].
  cbn [for_each]. rewrite Hf by set_solver.
  cbn [Py.bind Py.ret]. rewrite IH by (intros; apply Hf; set_solver). done.
Qed.

Lemma pool_symbol_eq symbols i :
  symbols <> [] -> pool_symbol symbols i = Py.ret (symbol_at symbols i).
Proof.
  intros Hne. unfold pool_symbol, symbol_at.
  assert (i mod length symbols < length symbols) as Hlt.
  { apply Nat.mod_upper_bound. destruct symbols; [done|]. simpl. lia. }
  destruct (lookup_lt_is_Some_2 symbols _ Hlt) as [base Hbase].
  rewrite Hbase. rewrite (nth_lookup_Some _ _ _ _ Hbase).
  by destruct (Nat.ltb 0 (i / length symbols)).
Qed.

(** The pool when the symbols run out. *)
Lemma generate_symbol_pool_eq seasons eps :
  length all_symbols < seasons * eps ->
  generate_symbol_pool seasons eps
  = Py.ret (map (symbol_at all_symbols) (seq 0 (seasons * eps))).
Proof.
  intros Hlt. unfold generate_symbol_pool.
  destruct (Nat.ltb_spec (length all_symbols) (seasons * eps)) as [_|]; [|lia].
  apply for_each_map. intros i _. apply pool_symbol_eq.
  intros Hnil. rewrite Hnil in Hlt. vm_compute in Hnil. discriminate Hnil.
Qed.

Lemma code_episode_loop_eq symbols season n e names idx :
  idx + n <= length symbols ->
  episode_loop symbols season n e (names, idx)
  = Py.ret (names ++ map (fun j => let sym := nth (idx + j) symbols "" in
                                   mkCodeName season (e + j)
                                     (generate_code_name season (e + j) sym) sym)
                      (seq 0 n), idx + n).
Proof.
  revert e names idx. induction n as [|n IH]; intros e names idx Hle.
  - simpl. by rewrite app_nil_r, Nat.add_0_r.
  - cbn [episode_loop].
    destruct (lookup_lt_is_Some_2 symbols idx ltac:(lia)) as [sym Hsym].
    rewrite Hsym. rewrite IH by lia.
    unfold Py.ret. do 2 f_equal; [|lia].
    rewrite <- app_assoc. f_equal. cbn [seq map app].
    rewrite !Nat.add_0_r. rewrite (nth_lookup_Some _ _ _ _ Hsym). f_equal.
    rewrite <- seq_shift, map_map. apply map_ext. intros j.
    by replace (S idx + j) with (idx + S j) by lia; replace (S e + j) with (e + S j) by lia.
Qed.

Lemma code_season_loop_eq symbols eps n k names :
  0 < eps ->
  (k + n) * eps <= length symbols ->
  season_loop symbols eps n (S k) (names, k * eps)
  = Py.ret (names ++ map (row_at eps symbols) (seq (k * eps) (n * eps)), (k + n) * eps).
Proof.
  intros Heps. revert k names. induction n as [|n IH]; intros k names Hle.
  - simpl. by rewrite app_nil_r, Nat.add_0_r.
  - cbn [season_loop]. rewrite code_episode_loop_eq by lia.
    cbn [Py.bind Py.ret].
    replace (k * eps + eps) with (S k * eps) by lia.
    rewrite IH by lia. unfold Py.ret. do 2 f_equal; [|lia].
    rewrite <- app_assoc. f_equal.
    replace (S n * eps) with (eps + n * eps) by lia.
    rewrite seq_app, map_app. f_equal; [|by replace (k * eps + eps) with (S k * eps) by lia].
    assert (seq (k * eps) eps = map (Nat.add (k * eps)) (seq 0 eps)) as ->.
    { change (map (Nat.add (k * eps)) (seq 0 eps)) with (Nat.add (k * eps) <$> seq 0 eps).
      rewrite fmap_add_seq. f_equal; lia. }
    rewrite map_map. apply map_ext_in. intros j Hj%in_seq.
    unfold row_at.
    replace ((k * eps + j) / eps) with k by (apply Nat.div_unique with j; lia).
    replace ((k * eps + j) mod eps) with j by (apply Nat.mod_unique with k; lia).
    done.
Qed.

Lemma all_symbols_length : length all_symbols = 96.
Proof. reflexivity. Qed.

Lemma all_symbols_NoDup : NoDup all_symbols.
Proof. apply (bool_decide_unpack _). vm_compute. exact I. Qed.

Lemma all_symbols_no_digit :
  Forall (fun s => Py.all_chars (fun c => negb (Py.is_digit c)) s = true) all_symbols.
Proof. apply (bool_decide_unpack _). vm_compute. exact I. Qed.

(** A symbol of the pool is its base symbol followed by the digits of its
    reuse count, if any. *)
Lemma symbol_at_split i :
  exists base suffix,
    all_symbols !! (i mod 96) = Some base
    /\ symbol_at all_symbols i = base +:+ suffix
    /\ suffix = (if Nat.ltb 0 (i / 96) then Py.str_nat (i / 96) else "")
    /\ Py.all_chars (fun c => negb (Py.is_digit c)) base = true
    /\ Py.all_chars Py.is_digit suffix = true.
Proof.
  assert (i mod 96 < length all_symbols) as Hlt.
  { rewrite all_symbols_length. apply Nat.mod_upper_bound. lia. }
  destruct (lookup_lt_is_Some_2 all_symbols _ Hlt) as [base Hbase].
  exists base, (if Nat.ltb 0 (i / 96) then Py.str_nat (i / 96) else "").
  split; [done|]. split; [|split; [done|split]].
  - unfold symbol_at. rewrite all_symbols_length.
    rewrite (nth_lookup_Some _ _ _ _ Hbase).
    destruct (Nat.ltb 0 (i / 96)); [done|]. by rewrite append_nil_r.
  - pose proof all_symbols_no_digit as Hall. rewrite Forall_forall in Hall.
    apply Hall. by apply list_elem_of_lookup_2 in Hbase.
  - destruct (Nat.ltb 0 (i / 96)); [|done]. apply str_nat_digits.
Qed.

Lemma symbol_at_inj i j :
  symbol_at all_symbols i = symbol_at all_symbols j -> i = j.
Proof.
  intros Heq.
  destruct (symbol_at_split i) as (bi & si & Hbi & Hi & Hsi & Hbi_nd & Hsi_d).
  destruct (symbol_at_split j) as (bj & sj & Hbj & Hj & Hsj & Hbj_nd & Hsj_d).
  rewrite Hi, Hj in Heq.
  destruct (app_split_by_class Py.is_digit bi bj si sj Hbi_nd Hbj_nd Hsi_d Hsj_d Heq)
    as [-> Hs].
  assert (i mod 96 = j mod 96) as Hmod
    by exact (NoDup_lookup _ _ _ _ all_symbols_NoDup Hbi Hbj).
  assert (i / 96 = j / 96) as Hdiv.
  { subst si sj.
    destruct (Nat.ltb_spec 0 (i / 96)), (Nat.ltb_spec 0 (j / 96)).
    - by apply str_nat_inj.
    - by destruct (str_nat_digits (i / 96)) as [_ []].
    - by destruct (str_nat_digits (j / 96)) as [_ []].
    - lia. }
  rewrite (Nat.div_mod_eq i 96), (Nat.div_mod_eq j 96). lia.
Qed.

Lemma nth_map_seq {A} (f : nat -> A) (d : A) (n i : nat) :
  i < n -> nth i (map f (seq 0 n)) d = f i.
Proof.
  intros Hi. apply nth_lookup_Some with (d := d).
  change (map f (seq 0 n)) with (f <$> seq 0 n).
  rewrite list_lookup_fmap, lookup_seq_lt by done. done.
Qed.

(** With at most two digits of season and three of episode, a code name
    is an 18-character prefix followed by the symbol. *)
Lemma fmt_season_length s :
  s < 100 -> String.length (Py.fmt_0d 2 s) = 2.
Proof.
  intros Hs.
  assert (Forall (fun s => String.length (Py.fmt_0d 2 s) = 2) (seq 0 100)) as Hall
    by (apply (bool_decide_unpack _); vm_compute; exact I).
  rewrite Forall_forall in Hall. apply Hall. apply elem_of_seq. lia.
Qed.

Lemma fmt_episode_length e :
  e < 100 -> String.length (Py.fmt_0d 3 e) = 3.
Proof.
  intros He.
  assert (Forall (fun e => String.length (Py.fmt_0d 3 e) = 3) (seq 0 100)) as Hall
    by (apply (bool_decide_unpack _); vm_compute; exact I).
  rewrite Forall_forall in Hall. apply Hall. apply elem_of_seq. lia.
Qed.

Lemma generate_code_name_symbol s e sym :
  s < 100 -> e < 100 ->
  Py.slice_from 18 (generate_code_name s e sym) = sym.
Proof.
  intros Hs He. unfold generate_code_name.
  pose proof (fmt_season_length s Hs) as Hls.
  pose proof (fmt_episode_length e He) as Hle.
  destruct (Py.fmt_0d 2 s) as [|a [|b [|]]]; try discriminate Hls.
  destruct (Py.fmt_0d 3 e) as [|x [|y [|z [|]]]]; try discriminate Hle.
  reflexivity.
Qed.

(** C8: for 17 seasons of 52 episodes the 96 base symbols are fewer than
    the 884 episodes; the symbol of the episode at position [i] is the
    base symbol [i mod 96], bare on its first use and followed by the
    number [i / 96] on its [i / 96]-th reuse; no two episodes share a
    symbol, and no two share a code name. *)
Theorem code_names_17x52 (shuffle : list string -> list string) :
  length all_symbols = 96
  /\ exists names,
       generate_all_code_names 17 52 false shuffle = Py.ret names
       /\ length names = 884
       /\ (forall i row, names !! i = Some row ->
             cn_season row = 1 + i / 52
             /\ cn_episode row = 1 + i mod 52
             /\ (exists base,
                   all_symbols !! (i mod 96) = Some base
                   /\ symbol row = if Nat.eqb (i / 96) 0 then base
                                   else base +:+ Py.str_nat (i / 96))
             /\ code_name row
                = generate_code_name (cn_season row) (cn_episode row) (symbol row))
       /\ NoDup (map symbol names)
       /\ NoDup (map code_name names).
Proof.
  split; [exact all_symbols_length|].
  set (pool := map (symbol_at all_symbols) (seq 0 (17 * 52))).
  assert (length pool = 884) as Hpool by (unfold pool; by rewrite length_map, length_seq).
  exists (map (row_at 52 pool) (seq 0 (17 * 52))).
  assert (forall i, i < 884 -> nth i pool "" = symbol_at all_symbols i) as Hnth
    by (intros i Hi; unfold pool; by apply nth_map_seq).
  split.
  { unfold generate_all_code_names.
    rewrite generate_symbol_pool_eq by (rewrite all_symbols_length; lia).
    cbn [Py.bind Py.ret]. fold pool.
    pose proof (code_season_loop_eq pool 52 17 0 [] ltac:(lia) ltac:(rewrite Hpool; lia)) as Hloop.
    change (0 * 52) with 0 in Hloop. rewrite Hloop. reflexivity. }
  split; [by rewrite length_map, length_seq|].
  split.
  { intros i row Hrow.
    change (map (row_at 52 pool) (seq 0 (17 * 52))) with (row_at 52 pool <$> seq 0 (17 * 52)) in Hrow.
    rewrite list_lookup_fmap in Hrow.
    destruct (seq 0 (17 * 52) !! i) as [i'|] eqn:Hi; [|discriminate].
    apply lookup_seq in Hi as [-> Hi]. injection Hrow as <-.
    cbn [row_at cn_season cn_episode symbol code_name Nat.add].
    split; [done|]. split; [done|]. split; [|done].
    rewrite Hnth by lia.
    destruct (symbol_at_split i) as (base & suffix & Hbase & Hsym & Hsuffix & _).
    exists base. split; [done|]. rewrite Hsym, Hsuffix.
    destruct (i / 96); simpl; [by rewrite append_nil_r|done]. }
  assert (forall i j, i ∈ seq 0 (17 * 52) -> j ∈ seq 0 (17 * 52) ->
            symbol (row_at 52 pool i) = symbol (row_at 52 pool j) -> i = j) as Hinj.
  { intros i j Hi%elem_of_seq Hj%elem_of_seq. cbn [row_at symbol].
    rewrite !Hnth by lia. apply symbol_at_inj. }
  split.
  - rewrite map_map. apply NoDup_fmap_2_strong; [exact Hinj|apply NoDup_seq].
  - rewrite map_map. apply NoDup_fmap_2_strong; [|apply NoDup_seq].
    intros i j Hi Hj Hcode. apply Hinj; [done..|].
    pose proof Hi as Hi'%elem_of_seq. pose proof Hj as Hj'%elem_of_seq.
    cbn [row_at symbol code_name] in Hcode |- *.
    apply (f_equal (Py.slice_from 18)) in Hcode.
    rewrite !generate_code_name_symbol in Hcode; [done|..].
    all: try (pose proof (Nat.Div0.div_le_upper_bound i 52 17); 
              pose proof (Nat.mod_upper_bound i 52);
              pose proof (Nat.Div0.div_le_upper_bound j 52 17); 
              pose proof (Nat.mod_upper_bound j 52); lia).
Qed.

End CodeNames.

(** ** The deterministic identifier *)

Section DeterministicId.

Import hashlib uuid notion_sync.
Local Open Scope Z_scope.

(** The model of SHA-256 against the test vectors of the standard. *)
Example sha256_empty :
  hexdigest (encode "")
  = "e3b0c44298fc1c149afbf4c8996fb92427ae41e4649b934ca495991b7852b855".
Proof. vm_compute. reflexivity. Qed.

Example sha256_abc :
  hexdigest (encode "abc")
  = "ba7816bf8f01cfea414140de5dae2223b00361a396177a9cb410ff61f20015ad".
Proof. vm_compute. reflexivity. Qed.

Example sha256_two_blocks :
  hexdigest (encode "abcdbcdecdefdefgefghfghighijhijkijkljklmklmnlmnomnopnopq")
  = "248d6a61d20638b8e5c026930c3e6039a33ce45964ff2167f6ecedd419db06c1".
Proof. vm_compute. reflexivity. Qed.

Lemma be_bytes_4 x : be_bytes 4 x =
  [(x / 2 ^ 24) mod 256; (x / 2 ^ 16) mod 256; (x / 2 ^ 8) mod 256; (x / 2 ^ 0) mod 256].
Proof. reflexivity. Qed.

(** A digest is 32 bytes. *)
Lemma sha256_bytes msg :
  length (sha256 msg) = 32%nat /\ Forall is_byte (sha256 msg).
Proof.
  unfold sha256. generalize (fold_left compress (blocks (length (pad msg) / 64) (pad msg)) H0).
  intros s. unfold state_bytes. cbn [map concat]. rewrite !be_bytes_4. cbn [app].
  split; [reflexivity|].
  repeat constructor; apply Z.mod_pos_bound; lia.
Qed.

Lemma be_int_acc bs acc :
  fold_left (fun a b => a * 256 + b) bs acc
  = acc * 256 ^ Z.of_nat (length bs) + be_int bs.
Proof.
  unfold be_int. revert acc. induction bs as [|b bs IH]; intros acc.
  - simpl. lia.
  - cbn [fold_left length]. rewrite IH, (IH (0 * 256 + b)).
    rewrite Nat2Z.inj_succ, Z.pow_succ_r by lia. lia.
Qed.

Lemma be_int_cons b bs : be_int (b :: bs) = b * 256 ^ Z.of_nat (length bs) + be_int bs.
Proof. unfold be_int at 1. cbn [fold_left]. rewrite be_int_acc. lia. Qed.

Lemma be_int_range bs :
  Forall is_byte bs -> 0 <= be_int bs < 256 ^ Z.of_nat (length bs).
Proof.
  induction 1 as [|b bs Hb _ IH]; [done|].
  rewrite be_int_cons. cbn [length]. rewrite Nat2Z.inj_succ, Z.pow_succ_r by lia.
  unfold is_byte in Hb. nia.
Qed.

Lemma be_int_app l1 l2 :
  be_int (l1 ++ l2) = be_int l1 * 256 ^ Z.of_nat (length l2) + be_int l2.
Proof.
  induction l1 as [|b l1 IH]; [simpl; unfold be_int at 2; simpl; lia|].
  cbn [app]. rewrite !be_int_cons, IH, length_app, Nat2Z.inj_add, Z.pow_add_r by lia.
  lia.
Qed.

Lemma hex_digit_hex_char d : 0 <= d < 16 -> hex_digit (hex_char d) = Some d.
Proof.
  intros Hd.
  assert (d = 0 \/ d = 1 \/ d = 2 \/ d = 3 \/ d = 4 \/ d = 5 \/ d = 6 \/ d = 7 \/ d = 8
          \/ d = 9 \/ d = 10 \/ d = 11 \/ d = 12 \/ d = 13 \/ d = 14 \/ d = 15) as Hc by lia.
  repeat (destruct Hc as [->|Hc]; [reflexivity|]). by subst.
Qed.

(** [int(bs.hex(), 16)] is the big-endian value of [bs]. *)
Lemma int16_hex bs acc :
  Forall is_byte bs ->
  int16 (hex bs) acc = Some (acc * 256 ^ Z.of_nat (length bs) + be_int bs).
Proof.
  intros Hbs. revert acc. induction Hbs as [|b bs Hb _ IH]; intros acc.
  - simpl. f_equal. unfold be_int. simpl. lia.
  - cbn [hex int16]. unfold is_byte in Hb.
    rewrite !hex_digit_hex_char by (Z.div_mod_to_equations; lia).
    rewrite IH, be_int_cons. cbn [length].
    rewrite Nat2Z.inj_succ, Z.pow_succ_r by lia. f_equal.
    Z.div_mod_to_equations. nia.
Qed.

Lemma slice_to_hex n bs : Py.slice_to (2 * n) (hex bs) = hex (take n bs).
Proof.
  revert bs. induction n as [|n IH]; intros [|b bs]; try reflexivity.
  replace (2 * S n)%nat with (S (S (2 * n))) by lia.
  cbn [hex Py.slice_to take]. by rewrite IH.
Qed.

Lemma hex_length bs : String.length (hex bs) = (2 * length bs)%nat.
Proof. induction bs as [|b bs IH]; [done|]. cbn [hex String.length length]. rewrite IH. lia. Qed.

(** The digits of [hex_fixed w] only depend on the number modulo [16^w]. *)
Lemma hex_fixed_congr w a b :
  a mod 16 ^ Z.of_nat w = b mod 16 ^ Z.of_nat w -> hex_fixed w a = hex_fixed w b.
Proof.
  revert a b. induction w as [|w IH]; intros a b Hab; [done|].
  rewrite Nat2Z.inj_succ, Z.pow_succ_r in Hab by lia.
  assert (0 < 16 ^ Z.of_nat w) as Hpos by (apply Z.pow_pos_nonneg; lia).
  rewrite (Z.mul_comm 16), !Z.rem_mul_r in Hab by lia.
  pose proof (Z.mod_pos_bound a (16 ^ Z.of_nat w) Hpos).
  pose proof (Z.mod_pos_bound b (16 ^ Z.of_nat w) Hpos).
  pose proof (Z.mod_pos_bound (a / 16 ^ Z.of_nat w) 16 ltac:(lia)).
  pose proof (Z.mod_pos_bound (b / 16 ^ Z.of_nat w) 16 ltac:(lia)).
  assert ((a / 16 ^ Z.of_nat w) mod 16 = (b / 16 ^ Z.of_nat w) mod 16) as Hd by nia.
  assert (a mod 16 ^ Z.of_nat w = b mod 16 ^ Z.of_nat w) as Hr by nia.
  cbn [hex_fixed]. rewrite Hd. f_equal. by apply IH.
Qed.

Lemma hex_char_inj d d' :
  0 <= d < 16 -> 0 <= d' < 16 -> hex_char d = hex_char d' -> d = d'.
Proof.
  intros Hd Hd' Heq. apply (f_equal hex_digit) in Heq.
  rewrite !hex_digit_hex_char in Heq by done. by injection Heq.
Qed.

Lemma hex_fixed_inj w a b :
  0 <= a < 16 ^ Z.of_nat w -> 0 <= b < 16 ^ Z.of_nat w ->
  hex_fixed w a = hex_fixed w b -> a = b.
Proof.
  revert a b. induction w as [|w IH]; intros a b Ha Hb Heq.
  - simpl in Ha, Hb. lia.
  - rewrite Nat2Z.inj_succ, Z.pow_succ_r in Ha, Hb by lia.
    assert (0 < 16 ^ Z.of_nat w) as Hpos by (apply Z.pow_pos_nonneg; lia).
    cbn [hex_fixed] in Heq. injection Heq as Hd Hrest.
    apply hex_char_inj in Hd; [|apply Z.mod_pos_bound; lia..].
    rewrite <- (hex_fixed_congr w (a mod 16 ^ Z.of_nat w) a) in Hrest
      by (apply Z.mod_mod; lia).
    rewrite <- (hex_fixed_congr w (b mod 16 ^ Z.of_nat w) b) in Hrest
      by (apply Z.mod_mod; lia).
    apply IH in Hrest; [|apply Z.mod_pos_bound; lia..].
    rewrite !Z.mod_small in Hd
      by (split; [apply Z.div_pos; lia|apply Z.div_lt_upper_bound; lia]).
    rewrite (Z.div_mod a (16 ^ Z.of_nat w)), (Z.div_mod b (16 ^ Z.of_nat w)) by lia.
    congruence.
Qed.

Lemma unhyphen_str u : unhyphen (uuid.str u) = hex_fixed 32 u.
Proof. reflexivity. Qed.

(** Two UUIDs print alike only if they are the same 128-bit integer. *)
Lemma uuid_str_inj u u' :
  0 <= u < 2 ^ 128 -> 0 <= u' < 2 ^ 128 -> uuid.str u = uuid.str u' -> u = u'.
Proof.
  intros Hu Hu' Heq. apply (f_equal unhyphen) in Heq. rewrite !unhyphen_str in Heq.
  apply (hex_fixed_inj 32); [done..|exact Heq].
Qed.

Lemma digest128_range agent repo issue meeting_date :
  0 <= digest128 agent repo issue meeting_date < 2 ^ 128.
Proof.
  unfold digest128.
  destruct (sha256_bytes (encode (identifier agent repo issue meeting_date))) as [Hlen Hbytes].
  pose proof (be_int_range _ (Forall_take _ 16%nat _ Hbytes)) as Hr.
  rewrite length_take, Hlen in Hr. exact Hr.
Qed.

Lemma generate_deterministic_id_eq agent repo issue meeting_date :
  generate_deterministic_id agent repo issue meeting_date
  = Py.ret (uuid.str (digest128 agent repo issue meeting_date)).
Proof.
  unfold generate_deterministic_id, digest128, hexdigest.
  destruct (sha256_bytes (encode (identifier agent repo issue meeting_date))) as [Hlen Hbytes].
  set (digest := sha256 _) in *.
  change 32%nat with (2 * 16)%nat at 1. rewrite slice_to_hex.
  unfold UUID. rewrite hex_length, length_take, Hlen. cbn [Nat.min Nat.mul Nat.add Nat.eqb negb].
  rewrite int16_hex by (by apply Forall_take). 
  cbn [Py.bind Py.ret]. reflexivity.
Qed.

Lemma be_int_take_16 (digest : list Z) :
  length digest = 32%nat -> Forall is_byte digest ->
  be_int (take 16 digest) = be_int digest / 2 ^ 128.
Proof.
  intros Hlen Hbytes.
  rewrite <- (take_drop 16 digest) at 2. rewrite be_int_app.
  pose proof (be_int_range _ (Forall_drop _ 16%nat _ Hbytes)) as Hr.
  rewrite length_drop, Hlen in Hr |- *.
  change (256 ^ Z.of_nat (32 - 16)) with (2 ^ 128) in *.
  apply Z.div_unique with (be_int (drop 16 digest)); lia.
Qed.

Lemma digest128_unfold agent repo issue meeting_date :
  digest128 agent repo issue meeting_date
  = be_int (take 16 (sha256 (encode (identifier agent repo issue meeting_date)))).
Proof. reflexivity. Qed.

(** C6: the identifier of a tuple is the UUID whose 128-bit integer is the
    first 16 bytes (the first 128 bits) of the SHA-256 digest of the four
    fields joined with colons; the derivation always returns, and returns
    the same string whenever it is given the same tuple. *)
Theorem generate_deterministic_id_spec
    (agent repo : string) (issue : Z) (meeting_date : string) :
  identifier agent repo issue meeting_date
  = agent +:+ ":" +:+ repo +:+ ":" +:+ Py.str_int issue +:+ ":" +:+ meeting_date
  /\ length (sha256 (encode (identifier agent repo issue meeting_date))) = 32%nat
  /\ digest128 agent repo issue meeting_date
     = be_int (sha256 (encode (identifier agent repo issue meeting_date))) / 2 ^ 128
  /\ 0 <= digest128 agent repo issue meeting_date < 2 ^ 128
  /\ generate_deterministic_id agent repo issue meeting_date
     = Py.ret (uuid.str (digest128 agent repo issue meeting_date))
  /\ forall agent' repo' issue' meeting_date',
       (agent', repo', issue', meeting_date') = (agent, repo, issue, meeting_date) ->
       generate_deterministic_id agent' repo' issue' meeting_date'
       = generate_deterministic_id agent repo issue meeting_date.
Proof.
  destruct (sha256_bytes (encode (identifier agent repo issue meeting_date))) as [Hlen Hbytes].
  split; [reflexivity|]. split; [exact Hlen|].
  split; [rewrite digest128_unfold; by apply be_int_take_16|].
  split; [apply digest128_range|]. split; [apply generate_deterministic_id_eq|].
  intros agent' repo' issue' meeting_date' [= -> -> -> ->]. reflexivity.
Qed.

Lemma identifier_inj a1 r1 i1 d1 a2 r2 i2 d2 :
  no_colon a1 = true -> no_colon r1 = true ->
  no_colon a2 = true -> no_colon r2 = true ->
  identifier a1 r1 i1 d1 = identifier a2 r2 i2 d2 ->
  (a1, r1, i1, d1) = (a2, r2, i2, d2).
Proof.
  unfold identifier, no_colon. intros Ha1 Hr1 Ha2 Hr2 Heq.
  rewrite !append_cons, !append_nil_l in Heq.
  apply app_sep_split in Heq as [-> Heq]; [|done..].
  apply app_sep_split in Heq as [-> Heq]; [|done..].
  assert (forall z, Py.all_chars (fun c => negb (Ascii.eqb c ":")) (Py.str_int z) = true) as Hstr.
  { intros z. apply (all_chars_impl (fun c => Py.is_digit c || Ascii.eqb c "-"));
      [|apply str_int_chars].
    intros c Hc. destruct (Ascii.eqb_spec c ":") as [->|]; [discriminate Hc|done]. }
  apply app_sep_split in Heq as [Hi ->]; [|apply Hstr..].
  apply str_int_inj in Hi as ->. done.
Qed.

(** C7 (amended): two tuples whose agent and repository contain no colon
    and that differ in some field have different pre-hash strings, so
    their identifiers can only coincide if the first 128 bits of the
    SHA-256 digests of two different strings coincide. *)
Theorem distinct_tuples_distinct_ids
    (a1 r1 : string) (i1 : Z) (d1 : string) (a2 r2 : string) (i2 : Z) (d2 : string) :
  no_colon a1 = true -> no_colon r1 = true ->
  no_colon a2 = true -> no_colon r2 = true ->
  (a1, r1, i1, d1) <> (a2, r2, i2, d2) ->
  identifier a1 r1 i1 d1 <> identifier a2 r2 i2 d2
  /\ (generate_deterministic_id a1 r1 i1 d1 = generate_deterministic_id a2 r2 i2 d2 ->
      digest128 a1 r1 i1 d1 = digest128 a2 r2 i2 d2).
Proof.
  intros Ha1 Hr1 Ha2 Hr2 Hne. split.
  - intros Heq. apply Hne. by apply identifier_inj.
  - rewrite !generate_deterministic_id_eq. unfold Py.ret. intros Heq.
    apply (inj inr) in Heq.
    apply uuid_str_inj; [apply digest128_range..|exact Heq].
Qed.

Lemma distinct_tuples_distinct_ids_witness :
  identifier "A-01" "PR-CYBR-AGENT-01" 123 "2025-01-15"
  <> identifier "A-02" "PR-CYBR-AGENT-02" 123 "2025-01-15"
  /\ (generate_deterministic_id "A-01" "PR-CYBR-AGENT-01" 123 "2025-01-15"
      = generate_deterministic_id "A-02" "PR-CYBR-AGENT-02" 123 "2025-01-15" ->
      digest128 "A-01" "PR-CYBR-AGENT-01" 123 "2025-01-15"
      = digest128 "A-02" "PR-CYBR-AGENT-02" 123 "2025-01-15").
Proof.
  apply (distinct_tuples_distinct_ids
           "A-01" "PR-CYBR-AGENT-01" 123 "2025-01-15"
           "A-02" "PR-CYBR-AGENT-02" 123 "2025-01-15");
    [reflexivity | reflexivity | reflexivity | reflexivity | discriminate].
Defined.

(** C7, as stated, fails: a colon inside a field moves the boundary
    between agent and repository without changing the hashed string. *)
Lemma colon_in_field_collides :
  ("A:B", "C", 7, "2025-01-15") <> ("A", "B:C", 7, "2025-01-15")
  /\ identifier "A:B" "C" 7 "2025-01-15" = identifier "A" "B:C" 7 "2025-01-15"
  /\ generate_deterministic_id "A:B" "C" 7 "2025-01-15"
     = generate_deterministic_id "A" "B:C" 7 "2025-01-15".
Proof.
  split; [discriminate|].
  assert (identifier "A:B" "C" 7 "2025-01-15" = identifier "A" "B:C" 7 "2025-01-15") as Hid
    by (vm_compute; reflexivity).
  split; [exact Hid|]. unfold generate_deterministic_id. by rewrite Hid.
Qed.

(** A worked identifier. *)
Example generate_deterministic_id_example :
  generate_deterministic_id "A-01" "R" 12 "2025-01-15"
  = Py.ret "ce960471-c7e7-f114-ac4e-f9cd8acfd57b".
Proof. vm_compute. reflexivity. Qed.

End DeterministicId.

(** ** The upsert of notion_sync on the in-memory database *)

Section StoreFacts.

Import notion_sync.

(** A filter commutes with a map that does not change its verdicts. *)
Lemma filter_fmap_same {A} (p : A -> bool) (f : A -> A) (l : list A) :
  (forall x, x ∈ l -> p (f x) = p x) ->
  filter (fun x => p x = true) (f <$> l) = f <$> filter (fun x => p x = true) l.
Proof.
  induction l as [|x l IH]; intros Hsame; [done|].
  rewrite fmap_cons, !filter_cons, (Hsame x) by set_solver.
  rewrite IH by (intros; apply Hsame; set_solver).
  by destruct (decide (p x = true)).
Qed.

Lemma tick_no_faults s : faults s = [] -> tick s = (false, s).
Proof. unfold tick. by intros ->. Qed.

Lemma store_query_ok s db did :
  faults s = [] -> store_query db "Task ID" did s = (inr (records_for db did s), s).
Proof. intros Hf. unfold store_query. by rewrite (tick_no_faults s Hf). Qed.

Lemma store_query_fault s db did fs :
  faults s = true :: fs ->
  store_query db "Task ID" did s
  = (inl (Py.APIResponseError "service unavailable"), mkStore (pages s) (next_page s) fs).
Proof. intros Hf. unfold store_query, tick. by rewrite Hf. Qed.

Lemma store_create_ok s db props :
  faults s = [] ->
  store_create db props s
  = (inr (mkPage (fresh_id (next_page s)) db props),
     mkStore (pages s ++ [mkPage (fresh_id (next_page s)) db props]) (S (next_page s)) []).
Proof. intros Hf. unfold store_create. rewrite (tick_no_faults s Hf). by rewrite Hf. Qed.

Lemma store_update_ok s pid props p0 :
  faults s = [] ->
  List.find (fun p => String.eqb (id p) pid) (pages s) = Some p0 ->
  store_update pid props s
  = (inr (patch pid props p0),
     mkStore (map (patch pid props) (pages s)) (next_page s) []).
Proof.
  intros Hf Hfind. unfold store_update. rewrite (tick_no_faults s Hf), Hfind. by rewrite Hf.
Qed.

Lemma fresh_id_inj n m : fresh_id n = fresh_id m -> n = m.
Proof.
  unfold fresh_id. intros Heq. apply String.app_inj in Heq. by apply str_nat_inj.
Qed.

Lemma fresh_id_truthy n : Py.truthy (fresh_id n) = true.
Proof. reflexivity. Qed.

(** Every formatted property set carries the identifier. *)
Lemma format_properties_task_id clock did agent repo issue pr meeting_date summary :
  format_properties clock did agent repo issue pr meeting_date summary !! "Task ID"
  = Some (rich_text did).
Proof.
  unfold format_properties. destruct (pr_given pr); cbn [Py.truthy_opt Py.truthy];
    by simplify_map_eq.
Qed.

Lemma format_properties_summary clock did agent repo issue pr meeting_date summary :
  format_properties clock did agent repo issue pr meeting_date summary !! "Summary"
  = Some (rich_text (Py.slice_to 2000 summary))
  /\ format_properties clock did agent repo issue pr meeting_date summary !! "Title"
     = Some (title (Py.slice_to 100 summary)).
Proof.
  unfold format_properties. destruct (pr_given pr); cbn [Py.truthy_opt Py.truthy];
    by simplify_map_eq.
Qed.

Lemma matches_patched db did pid props p :
  props !! "Task ID" = Some (rich_text did) ->
  parent p = db -> id p = pid ->
  matches db "Task ID" did (patch pid props p) = true.
Proof.
  intros Hprops Hdb Hid. unfold matches, patch.
  rewrite <- Hid, String.eqb_refl. cbn [parent properties].
  rewrite Hdb, String.eqb_refl. cbn [andb].
  apply bool_decide_eq_true. by apply lookup_union_Some_l.
Qed.

Lemma patch_other pid props p : id p <> pid -> patch pid props p = p.
Proof. intros Hne. unfold patch. by destruct (String.eqb_spec (id p) pid). Qed.

Lemma patch_id pid props p : id (patch pid props p) = id p.
Proof. unfold patch. by destruct (String.eqb (id p) pid). Qed.

Lemma find_by_id (l : list Page) p0 :
  NoDup (map id l) -> p0 ∈ l ->
  List.find (fun p => String.eqb (id p) (id p0)) l = Some p0.
Proof.
  induction l as [|p l IH]; intros Hnd Hin; [by apply elem_of_nil in Hin|].
  cbn [map] in Hnd. apply NoDup_cons in Hnd as [Hnotin Hnd].
  cbn [List.find]. apply elem_of_cons in Hin as [->|Hin].
  - by rewrite String.eqb_refl.
  - destruct (String.eqb_spec (id p) (id p0)) as [Heq|_]; [|by apply IH].
    exfalso. apply Hnotin. rewrite Heq.
    change (map id l) with (id <$> l). by apply list_elem_of_fmap_2.
Qed.

Ltac run_upsert :=
  unfold upsert, search_existing_page, create_page, update_page,
    Eff.bind, Eff.lift, Eff.try_except, Eff.ret, Py.ret;
  cbn [databases_query pages_create pages_update store_client].

(** The create path: no record carries the identifier yet. *)
Lemma upsert_create_case db clock agent repo issue pr meeting_date summary s :
  let did := uuid.str (digest128 agent repo issue meeting_date) in
  let page := mkPage (fresh_id (next_page s)) db
                (format_properties clock did agent repo issue pr meeting_date summary) in
  let s' := mkStore (pages s ++ [page]) (S (next_page s)) [] in
  well_formed s -> faults s = [] -> records_for db did s = [] ->
  upsert db clock agent repo issue pr meeting_date summary s
  = (inr (mkResult "created" (fresh_id (next_page s)) did), s')
  /\ well_formed s' /\ records_for db did s' = [page].
Proof.
  intros did page s' [Hnd Hids] Hf Hnone. split; [|split].
  - unfold upsert. rewrite generate_deterministic_id_eq. fold did. run_upsert.
    cbv beta iota. rewrite store_query_ok by done. rewrite Hnone.
    cbv beta iota. cbn [Py.truthy_opt]. cbv beta iota.
    rewrite store_create_ok by done. reflexivity.
  - split.
    + cbn [pages s']. rewrite map_app. cbn [map id page].
      apply NoDup_app. split; [done|]. split; [|apply NoDup_singleton].
      intros x Hx Hk%list_elem_of_singleton. subst x.
      change (map id (pages s)) with (id <$> pages s) in Hx.
      apply list_elem_of_fmap in Hx as (p & Hp & Hin).
      rewrite Forall_forall in Hids. destruct (Hids p Hin) as (m & Hm & Hpm).
      rewrite Hpm in Hp. apply fresh_id_inj in Hp. lia.
    + cbn [pages next_page s']. apply Forall_app. split.
      * eapply Forall_impl; [exact Hids|]. intros p (m & Hm & Hp). exists m. split; [lia|done].
      * constructor; [|constructor]. exists (next_page s). split; [lia|done].
  - unfold records_for in *. cbn [pages s']. rewrite filter_app, Hnone.
    rewrite filter_cons, filter_nil. rewrite decide_True; [done|].
    unfold matches, page. cbn [parent properties]. rewrite String.eqb_refl.
    rewrite format_properties_task_id. by rewrite bool_decide_eq_true_2.
Qed.

(** The update path: exactly one record carries the identifier. *)
Lemma upsert_update_case db clock agent repo issue pr meeting_date summary s p0 :
  let did := uuid.str (digest128 agent repo issue meeting_date) in
  let props := format_properties clock did agent repo issue pr meeting_date summary in
  let s' := mkStore (map (patch (id p0) props) (pages s)) (next_page s) [] in
  well_formed s -> faults s = [] -> records_for db did s = [p0] ->
  upsert db clock agent repo issue pr meeting_date summary s
  = (inr (mkResult "updated" (id p0) did), s')
  /\ well_formed s'
  /\ records_for db did s' = [mkPage (id p0) (parent p0) (props ∪ properties p0)].
Proof.
  intros did props s' [Hnd Hids] Hf Hone.
  assert (p0 ∈ pages s /\ matches db "Task ID" did p0 = true) as [Hin Hmatch].
  { assert (p0 ∈ records_for db did s) as Hp by (rewrite Hone; set_solver).
    unfold records_for in Hp. by apply list_elem_of_filter in Hp as [? ?]. }
  assert (Py.truthy (id p0) = true) as Htruthy.
  { rewrite Forall_forall in Hids. destruct (Hids p0 Hin) as (m & _ & ->). reflexivity. }
  assert (parent p0 = db) as Hparent.
  { unfold matches in Hmatch. apply andb_true_iff in Hmatch as [Hp _].
    by apply String.eqb_eq in Hp. }
  assert (map id (map (patch (id p0) props) (pages s)) = map id (pages s)) as Hidmap.
  { rewrite map_map. apply map_ext. intros p. apply patch_id. }
  split; [|split].
  - unfold upsert. rewrite generate_deterministic_id_eq. fold did. run_upsert.
    cbv beta iota. rewrite store_query_ok by done. rewrite Hone.
    cbv beta iota. cbn [Py.truthy_opt default from_option Datatypes.id]. rewrite Htruthy. cbv beta iota.
    fold props. rewrite (store_update_ok s (id p0) props p0) by (done || by apply find_by_id).
    reflexivity.
  - split.
    + cbn [pages s']. by rewrite Hidmap.
    + cbn [pages next_page s']. rewrite Forall_forall in Hids |- *.
      intros p Hp. change (map ?f ?l) with (f <$> l) in Hp.
      apply list_elem_of_fmap in Hp as (q & -> & Hq).
      rewrite patch_id. by apply Hids.
  - unfold records_for in *. cbn [pages s'].
    change (map ?f ?l) with (f <$> l).
    assert (forall p, p ∈ pages s ->
              matches db "Task ID" did (patch (id p0) props p) = matches db "Task ID" did p)
      as Hsame.
    { intros p Hp. destruct (decide (id p = id p0)) as [Heq|Hne].
      - assert (p = p0) as ->.
        { apply list_elem_of_lookup in Hp as [i Hi]. apply list_elem_of_lookup in Hin as [j Hj].
          assert (i = j) as ->; [|congruence].
          apply (NoDup_lookup (map id (pages s)) i j (id p0)); [done|..];
            change (map id (pages s)) with (id <$> pages s);
            rewrite list_lookup_fmap; [by rewrite Hi; cbn; f_equal|by rewrite Hj]. }
        rewrite Hmatch. apply matches_patched; [apply format_properties_task_id|done..].
      - by rewrite patch_other. }
    rewrite (filter_fmap_same (fun p => matches db "Task ID" did p)) by exact Hsame.
    rewrite Hone. cbn [fmap list_fmap]. unfold patch. by rewrite String.eqb_refl.
Qed.

(** C2 (amended): on a database whose calls succeed and that holds at
    most one record for the tuple, two upserts with the same stable fields
    leave exactly one record for it; the second takes the update path on
    the page the first resolved; the record then carries every property
    formatted from the second payload (the title is the first 100 and the
    summary the first 2000 characters of its summary); each run reports
    "created" or "updated", the page and the identifier. *)
Theorem upsert_twice_converges
    (db : string) (clock1 clock2 : Clock) (agent repo : string) (issue : Z)
    (meeting_date : string) (pr1 pr2 : option Z) (summary1 summary2 : string)
    (s : Store) :
  let did := uuid.str (digest128 agent repo issue meeting_date) in
  well_formed s ->
  faults s = [] ->
  length (records_for db did s) <= 1 ->
  exists r1 s1 r2 s2 page,
    upsert db clock1 agent repo issue pr1 meeting_date summary1 s = (inr r1, s1)
    /\ upsert db clock2 agent repo issue pr2 meeting_date summary2 s1 = (inr r2, s2)
    /\ status r1 = (if bool_decide (records_for db did s = []) then "created" else "updated")
    /\ status r2 = "updated"
    /\ page_id r2 = page_id r1
    /\ deterministic_id r1 = did /\ deterministic_id r2 = did
    /\ records_for db did s2 = [page]
    /\ id page = page_id r1
    /\ (forall k v,
          format_properties clock2 did agent repo issue pr2 meeting_date summary2 !! k = Some v ->
          properties page !! k = Some v)
    /\ properties page !! "Summary" = Some (rich_text (Py.slice_to 2000 summary2))
    /\ properties page !! "Title" = Some (title (Py.slice_to 100 summary2)).
Proof.
  intros did Hwf Hf Hlen.
  set (props2 := format_properties clock2 did agent repo issue pr2 meeting_date summary2).
  assert (forall p1 s1 r1,
            well_formed s1 -> faults s1 = [] -> records_for db did s1 = [p1] ->
            page_id r1 = id p1 ->
            exists r2 s2 page,
              upsert db clock2 agent repo issue pr2 meeting_date summary2 s1 = (inr r2, s2)
              /\ status r2 = "updated" /\ page_id r2 = page_id r1
              /\ deterministic_id r2 = did
              /\ records_for db did s2 = [page] /\ id page = page_id r1
              /\ (forall k v, props2 !! k = Some v -> properties page !! k = Some v)
              /\ properties page !! "Summary" = Some (rich_text (Py.slice_to 2000 summary2))
              /\ properties page !! "Title" = Some (title (Py.slice_to 100 summary2)))
    as Hsecond.
  { intros p1 s1 r1 Hwf1 Hf1 Hrec1 Hr1.
    destruct (upsert_update_case db clock2 agent repo issue pr2 meeting_date summary2 s1 p1
                Hwf1 Hf1 Hrec1) as (Hrun & _ & Hrec2).
    eexists _, _, _. split; [exact Hrun|]. cbn [status page_id deterministic_id].
    split; [done|]. split; [done|]. split; [done|]. split; [exact Hrec2|].
    cbn [id properties]. split; [done|].
    assert (forall k v, props2 !! k = Some v -> (props2 ∪ properties p1) !! k = Some v) as Hprops
      by (intros k v Hk; by apply lookup_union_Some_l).
    split; [exact Hprops|].
    destruct (format_properties_summary clock2 did agent repo issue pr2 meeting_date summary2)
      as [Hsum Htitle].
    split; apply Hprops; assumption. }
  destruct (records_for db did s) as [|p0 [|q rest]] eqn:Hrec; [..|cbn in Hlen; lia].
  - destruct (upsert_create_case db clock1 agent repo issue pr1 meeting_date summary1 s
                Hwf Hf Hrec) as (Hrun & Hwf1 & Hrec1).
    edestruct (Hsecond _ _ (mkResult "created" (fresh_id (next_page s)) did) Hwf1 eq_refl Hrec1)
      as (r2 & s2 & page & Hrun2 & Hrest); [done|].
    eexists _, _, r2, s2, page. split; [exact Hrun|]. split; [exact Hrun2|].
    cbn [status page_id deterministic_id] in Hrest |- *.
    destruct Hrest as (? & ? & ? & ? & ? & ? & ? & ?). repeat (split; [done|]). done.
  - destruct (upsert_update_case db clock1 agent repo issue pr1 meeting_date summary1 s p0
                Hwf Hf Hrec) as (Hrun & Hwf1 & Hrec1).
    edestruct (Hsecond _ _ (mkResult "updated" (id p0) did) Hwf1 eq_refl Hrec1)
      as (r2 & s2 & page & Hrun2 & Hrest); [done|].
    eexists _, _, r2, s2, page. split; [exact Hrun|]. split; [exact Hrun2|].
    cbn [status page_id deterministic_id] in Hrest |- *.
    destruct Hrest as (? & ? & ? & ? & ? & ? & ? & ?). repeat (split; [done|]). done.
Qed.

Lemma upsert_twice_converges_witness :
  let did := uuid.str (digest128 "A-01" "PR-CYBR-AGENT-01" 123 "2025-01-15") in
  exists r1 s1 r2 s2 page,
    upsert "db1" demo_clock "A-01" "PR-CYBR-AGENT-01" 123 None "2025-01-15"
      "Draft summary" demo_store = (inr r1, s1)
    /\ upsert "db1" demo_clock "A-01" "PR-CYBR-AGENT-01" 123 (Some 456%Z) "2025-01-15"
         "Final summary" s1 = (inr r2, s2)
    /\ status r1 = (if bool_decide (records_for "db1" did demo_store = [])
                    then "created" else "updated")
    /\ status r2 = "updated"
    /\ page_id r2 = page_id r1
    /\ deterministic_id r1 = did /\ deterministic_id r2 = did
    /\ records_for "db1" did s2 = [page]
    /\ id page = page_id r1
    /\ (forall k v,
          format_properties demo_clock did "A-01" "PR-CYBR-AGENT-01" 123 (Some 456%Z)
            "2025-01-15" "Final summary" !! k = Some v ->
          properties page !! k = Some v)
    /\ properties page !! "Summary" = Some (rich_text (Py.slice_to 2000 "Final summary"))
    /\ properties page !! "Title" = Some (title (Py.slice_to 100 "Final summary")).
Proof.
  apply (upsert_twice_converges "db1" demo_clock demo_clock "A-01" "PR-CYBR-AGENT-01" 123
           "2025-01-15" None (Some 456%Z) "Draft summary" "Final summary" demo_store).
  - split; [apply NoDup_singleton|].
    constructor; [exists 0; split; [simpl; lia|reflexivity]|constructor].
  - reflexivity.
  - vm_compute. lia.
Defined.

(** C2, as stated, fails: a summary of 2001 characters is stored cut to
    2000, so the record does not equal the second call's payload. *)
Lemma long_summary_is_truncated :
  let long := Py.repeat_char "x" 2001 in
  exists r1 s1 r2 s2 page,
    upsert "db1" demo_clock "A-01" "PR-CYBR-AGENT-01" 123 None "2025-01-15"
      "Draft summary" (mkStore [] 0 []) = (inr r1, s1)
    /\ upsert "db1" demo_clock "A-01" "PR-CYBR-AGENT-01" 123 None "2025-01-15" long s1
       = (inr r2, s2)
    /\ records_for "db1" (deterministic_id r2) s2 = [page]
    /\ properties page !! "Summary" = Some (rich_text (Py.repeat_char "x" 2000))
    /\ properties page !! "Summary" <> Some (rich_text long).
Proof.
  intros long.
  destruct (upsert_create_case "db1" demo_clock "A-01" "PR-CYBR-AGENT-01" 123 None
              "2025-01-15" "Draft summary" (mkStore [] 0 []))
    as (Hrun1 & Hwf1 & Hrec1); [split; constructor|done|done|].
  destruct (upsert_update_case "db1" demo_clock "A-01" "PR-CYBR-AGENT-01" 123 None
              "2025-01-15" long _ _ Hwf1 eq_refl Hrec1) as (Hrun2 & _ & Hrec2).
  eexists _, _, _, _, _. split; [exact Hrun1|]. split; [exact Hrun2|].
  split; [exact Hrec2|]. cbn [properties].
  assert (forall did pr (old : gmap string PropValue),
            (format_properties demo_clock did "A-01" "PR-CYBR-AGENT-01" 123 pr "2025-01-15" long
             ∪ old) !! "Summary" = Some (rich_text (Py.slice_to 2000 long))) as Hsum.
  { intros did pr old. apply lookup_union_Some_l. apply format_properties_summary. }
  rewrite Hsum. split.
  - vm_compute. reflexivity.
  - intros Heq.
    apply (f_equal (fun o => match o with
                             | Some (rich_text c) => String.length c
                             | _ => 0
                             end)) in Heq.
    vm_compute in Heq. discriminate Heq.
Qed.

End StoreFacts.

(** ** A failing lookup *)

Section LookupFailure.

Import notion_sync.

(** In notion_sync, whatever the query raises is logged and answered with
    [None]; the upsert goes on to create a page. *)
Lemma upsert_lookup_failure {W : Type} `{!Client W}
    (db : string) (clock : Clock) (agent_id repo_name : string) (issue : Z)
    (pr : option Z) (meeting_date summary : string) (w w' : W) (e : Py.exn) :
  let did := uuid.str (digest128 agent_id repo_name issue meeting_date) in
  databases_query db "Task ID" did w = (inl e, w') ->
  search_existing_page db did w = (inr None, w')
  /\ upsert db clock agent_id repo_name issue pr meeting_date summary w
     = (page_id <- create_page db clock did agent_id repo_name issue pr meeting_date summary ;;
        Eff.ret (mkResult "created" page_id did)) w'.
Proof.
  intros did Hq. split.
  - unfold search_existing_page, Eff.try_except, Eff.bind. rewrite Hq. reflexivity.
  - unfold upsert. rewrite generate_deterministic_id_eq. fold did.
    unfold Eff.lift, Py.ret. unfold Eff.bind at 1. cbv beta iota.
    unfold Eff.bind at 1.
    unfold search_existing_page, Eff.try_except. unfold Eff.bind at 1. rewrite Hq.
    cbv beta iota. unfold Eff.any_exception. cbv beta iota. unfold Eff.ret at 1.
    cbv beta iota. cbn [Py.truthy_opt]. cbv beta iota. reflexivity.
Qed.

(** In create_issues, a [RequestException] of the search is answered with
    [None] as well, and the task goes to the create path. *)
Lemma process_task_search_failure {G : Type} `{!create_issues.Session G}
    (org : string) (mapping : gmap string string) (now : string)
    (task : create_issues.Task) (repo_name msg : string) (g g' : G) :
  create_issues.get_repository_name mapping
    (create_issues.agent task) (create_issues.repo task) = Py.ret repo_name ->
  create_issues.search_issues
    ("repo:" +:+ org +:+ "/" +:+ repo_name +:+ " " +:+ create_issues.task_id task +:+ " in:title")
    10 g = (inl (Py.RequestException msg), g') ->
  create_issues.search_issue_by_task_id org repo_name (create_issues.task_id task) g
  = (inr None, g')
  /\ create_issues.process_task org mapping now task g
     = match create_issues.create_issue org repo_name task g' with
       | (inr n, g'') =>
           (create_issues.mkTaskResult (create_issues.task_id task) "created"
              (Some n) (Some repo_name) None, g'')
       | (inl err, g'') =>
           (create_issues.mkTaskResult (create_issues.task_id task) "error"
              None None (Some (Py.str_exn err)), g'')
       end.
Proof.
  intros Hrepo Hsearch.
  assert (create_issues.search_issue_by_task_id org repo_name (create_issues.task_id task) g
          = (inr None, g')) as Hnone.
  { unfold create_issues.search_issue_by_task_id, Eff.try_except, Eff.bind.
    rewrite Hsearch. reflexivity. }
  split; [exact Hnone|].
  unfold create_issues.process_task. rewrite Hrepo.
  unfold Eff.lift, Py.ret. unfold Eff.bind at 1. cbv beta iota.
  unfold Eff.bind at 1. rewrite Hnone. cbv beta iota.
  cbn [create_issues.truthy_int]. cbv beta iota.
  unfold Eff.bind, Eff.ret.
  destruct (create_issues.create_issue org repo_name task g') as [[err|n] g'']; reflexivity.
Qed.

(** C1 (amended): when the lookup raises, the failure is not propagated:
    the search answers [None] and the upsert continues on the create path
    from the state the failed call left, so an error is reported only if
    the create call fails too.  This holds for the query of notion_sync
    (any exception) and for the title search of create_issues (any
    [RequestException]). *)
Theorem lookup_failure_takes_create_path
    {W : Type} `{!Client W} {G : Type} `{!create_issues.Session G}
    (db : string) (clock : Clock) (agent_id repo_name : string) (issue : Z)
    (pr : option Z) (meeting_date summary : string) (w w' : W) (e : Py.exn)
    (org : string) (mapping : gmap string string) (now : string)
    (task : create_issues.Task) (task_repo msg : string) (g g' : G) :
  databases_query db "Task ID"
    (uuid.str (digest128 agent_id repo_name issue meeting_date)) w = (inl e, w') ->
  create_issues.get_repository_name mapping
    (create_issues.agent task) (create_issues.repo task) = Py.ret task_repo ->
  create_issues.search_issues
    ("repo:" +:+ org +:+ "/" +:+ task_repo +:+ " " +:+ create_issues.task_id task +:+ " in:title")
    10 g = (inl (Py.RequestException msg), g') ->
  (search_existing_page db (uuid.str (digest128 agent_id repo_name issue meeting_date)) w
   = (inr None, w')
   /\ upsert db clock agent_id repo_name issue pr meeting_date summary w
      = (page_id <- create_page db clock
                      (uuid.str (digest128 agent_id repo_name issue meeting_date))
                      agent_id repo_name issue pr meeting_date summary ;;
         Eff.ret (mkResult "created" page_id
                    (uuid.str (digest128 agent_id repo_name issue meeting_date)))) w')
  /\ (create_issues.search_issue_by_task_id org task_repo (create_issues.task_id task) g
      = (inr None, g')
      /\ create_issues.process_task org mapping now task g
         = match create_issues.create_issue org task_repo task g' with
           | (inr n, g'') =>
               (create_issues.mkTaskResult (create_issues.task_id task) "created"
                  (Some n) (Some task_repo) None, g'')
           | (inl err, g'') =>
               (create_issues.mkTaskResult (create_issues.task_id task) "error"
                  None None (Some (Py.str_exn err)), g'')
           end).
Proof.
  intros Hquery Hrepo Hsearch. split.
  - exact (upsert_lookup_failure db clock agent_id repo_name issue pr meeting_date summary
             w w' e Hquery).
  - exact (process_task_search_failure org mapping now task task_repo msg g g' Hrepo Hsearch).
Qed.

Lemma lookup_failure_takes_create_path_witness :
  (search_existing_page "db1"
     (uuid.str (digest128 "A-01" "PR-CYBR-AGENT-01" 123 "2025-01-15"))
     (mkStore (pages demo_store) 1 [true])
   = (inr None, mkStore (pages demo_store) 1 [])
   /\ upsert "db1" demo_clock "A-01" "PR-CYBR-AGENT-01" 123 None "2025-01-15"
        "Draft summary" (mkStore (pages demo_store) 1 [true])
      = (page_id <- create_page "db1" demo_clock
                      (uuid.str (digest128 "A-01" "PR-CYBR-AGENT-01" 123 "2025-01-15"))
                      "A-01" "PR-CYBR-AGENT-01" 123 None "2025-01-15" "Draft summary" ;;
         Eff.ret (mkResult "created" page_id
                    (uuid.str (digest128 "A-01" "PR-CYBR-AGENT-01" 123 "2025-01-15"))))
          (mkStore (pages demo_store) 1 []))
  /\ (create_issues.search_issue_by_task_id "PR-CYBR" "PR-CYBR-AGENT-01"
        (create_issues.task_id create_issues.demo_task)
        (create_issues.mkTracker [] [Some (Py.RequestException "timeout")])
      = (inr None, create_issues.mkTracker [] [])
      /\ create_issues.process_task "PR-CYBR" create_issues.demo_mapping "2025-01-16 09:00:00 UTC"
           create_issues.demo_task
           (create_issues.mkTracker [] [Some (Py.RequestException "timeout")])
         = match create_issues.create_issue "PR-CYBR" "PR-CYBR-AGENT-01"
                   create_issues.demo_task (create_issues.mkTracker [] []) with
           | (inr n, g'') =>
               (create_issues.mkTaskResult (create_issues.task_id create_issues.demo_task)
                  "created" (Some n) (Some "PR-CYBR-AGENT-01") None, g'')
           | (inl err, g'') =>
               (create_issues.mkTaskResult (create_issues.task_id create_issues.demo_task)
                  "error" None None (Some (Py.str_exn err)), g'')
           end).
Proof.
  apply (lookup_failure_takes_create_path
           "db1" demo_clock "A-01" "PR-CYBR-AGENT-01" 123 None "2025-01-15" "Draft summary"
           (mkStore (pages demo_store) 1 [true]) (mkStore (pages demo_store) 1 [])
           (Py.APIResponseError "service unavailable")
           "PR-CYBR" create_issues.demo_mapping "2025-01-16 09:00:00 UTC"
           create_issues.demo_task "PR-CYBR-AGENT-01" "timeout"
           (create_issues.mkTracker [] [Some (Py.RequestException "timeout")])
           (create_issues.mkTracker [] []));
    reflexivity.
Defined.

(** C1, as stated, fails: with a record for the tuple already stored, a
    lookup that raises is followed by a create; the upsert reports
    "created", not an error, and the database then holds two records for
    the one identifier. *)
Lemma lookup_failure_creates_duplicate :
  let did := uuid.str (digest128 "A-01" "PR-CYBR-AGENT-01" 123 "2025-01-15") in
  exists r1 s1 r2 s2,
    upsert "db1" demo_clock "A-01" "PR-CYBR-AGENT-01" 123 None "2025-01-15"
      "Draft summary" (mkStore [] 0 []) = (inr r1, s1)
    /\ databases_query "db1" "Task ID" did (mkStore (pages s1) (next_page s1) [true])
       = (inl (Py.APIResponseError "service unavailable"), s1)
    /\ upsert "db1" demo_clock "A-01" "PR-CYBR-AGENT-01" 123 None "2025-01-15"
         "Final summary" (mkStore (pages s1) (next_page s1) [true]) = (inr r2, s2)
    /\ status r2 = "created"
    /\ page_id r1 = "page-0" /\ page_id r2 = "page-1"
    /\ map id (records_for "db1" did s2) = ["page-0"; "page-1"].
Proof.
  intros did.
  destruct (upsert_create_case "db1" demo_clock "A-01" "PR-CYBR-AGENT-01" 123 None
              "2025-01-15" "Draft summary" (mkStore [] 0 []))
    as (Hrun1 & _ & Hrec1); [split; constructor|done|done|].
  fold did in Hrun1, Hrec1. cbn [pages next_page app] in Hrun1, Hrec1.
  set (page0 := mkPage (fresh_id 0) "db1"
                  (format_properties demo_clock did "A-01" "PR-CYBR-AGENT-01" 123 None
                     "2025-01-15" "Draft summary")) in *.
  set (page1 := mkPage (fresh_id 1) "db1"
                  (format_properties demo_clock did "A-01" "PR-CYBR-AGENT-01" 123 None
                     "2025-01-15" "Final summary")).
  exists (mkResult "created" (fresh_id 0) did), (mkStore [page0] 1 []),
         (mkResult "created" (fresh_id 1) did), (mkStore [page0; page1] 2 []).
  split; [exact Hrun1|]. split; [reflexivity|]. split.
  - assert (databases_query "db1" "Task ID" did (mkStore [page0] 1 [true])
            = (inl (Py.APIResponseError "service unavailable"), mkStore [page0] 1 []))
      as Hquery by reflexivity.
    destruct (upsert_lookup_failure "db1" demo_clock "A-01" "PR-CYBR-AGENT-01" 123 None
                "2025-01-15" "Final summary"
                (mkStore [page0] 1 [true]) (mkStore [page0] 1 [])
                (Py.APIResponseError "service unavailable") Hquery) as [_ Hrun2].
    cbn [pages next_page]. rewrite Hrun2. fold did.
    unfold create_page, Eff.bind, Eff.ret. cbn [pages_create store_client].
    rewrite store_create_ok by done. reflexivity.
  - split; [reflexivity|]. split; [reflexivity|]. split; [reflexivity|].
    unfold records_for. cbn [pages].
    rewrite !filter_cons, filter_nil.
    rewrite !decide_True; [reflexivity|..];
      unfold matches, page0, page1; cbn [parent properties];
      rewrite format_properties_task_id; reflexivity.
Qed.

End LookupFailure.

(** ** Exit codes *)

Section ExitCodes.










Import sync_notion.

Section Downloads.

Variable slugify : string -> string.
Variable md5_hex8 : string -> string.
Variable now : string.





End Downloads.




(** In create_issues a task whose create request fails is recorded as an
    error, the next task is still processed, and the exit code is 1. *)
Example failed_task_exits_one :
  let tracker := create_issues.mkTracker [] [None; Some (Py.RequestException "timeout")] in
  let cfg := create_issues.mkConfig create_issues.demo_mapping None in
  map create_issues.r_status
    (create_issues.process_all "PR-CYBR" create_issues.demo_mapping "2025-01-16 09:00:00 UTC"
       [create_issues.demo_task; create_issues.demo_task] [] tracker).1
  = ["error"; "created"]
  /\ (create_issues.main "2025-01-16 09:00:00 UTC" (Some "ghp_token") false (inr cfg)
        (inr [create_issues.demo_task; create_issues.demo_task]) tracker).1 = 1%Z.
Proof. vm_compute. done. Qed.

End ExitCodes.

(** ** The enrichment pipeline *)

Section Retrofit.

Import sync_notion_enhanced.

Lemma grows_refl ep w : grows ep w w.
Proof.
  unfold grows. repeat split; try (exists []; by rewrite app_nil_r).
Qed.

Lemma grows_trans ep w1 w2 w3 : grows ep w1 w2 -> grows ep w2 w3 -> grows ep w1 w3.
Proof.
  intros ((u1 & Hu1 & Hau1) & (d1 & Hd1 & Had1) & (s1 & Hs1 & Hns1) & (o1 & Ho1 & Hno1) & Hp1)
         ((u2 & Hu2 & Hau2) & (d2 & Hd2 & Had2) & (s2 & Hs2 & Hns2) & (o2 & Ho2 & Hno2) & Hp2).
  unfold grows. split; [|split; [|split; [|split]]].
  - exists (u1 ++ u2). rewrite Hu2, Hu1, app_assoc. split; [done|]. by apply Forall_app.
  - exists (d1 ++ d2). rewrite Hd2, Hd1, app_assoc. split; [done|]. by apply Forall_app.
  - exists (s1 ++ s2). rewrite Hs2, Hs1, app_assoc. split; [done|].
    intros Ht. by rewrite (Hns1 Ht), (Hns2 Ht).
  - exists (o1 ++ o2). rewrite Ho2, Ho1, app_assoc. split; [done|].
    intros Ht. by rewrite (Hno1 Ht), (Hno2 Ht).
  - congruence.
Qed.

Lemma preserves_ret {A} ep (a : A) : preserves ep (Eff.ret a).
Proof. intros w. apply grows_refl. Qed.

Lemma preserves_lift {A} ep (r : Py.result A) : preserves ep (Eff.lift r).
Proof. intros w. apply grows_refl. Qed.

Lemma preserves_bind {A B} ep (m : Eff.M World A) (k : A -> Eff.M World B) :
  preserves ep m -> (forall a, preserves ep (k a)) -> preserves ep (x <- m ;; k x).
Proof.
  intros Hm Hk w. unfold Eff.bind. specialize (Hm w).
  destruct (m w) as [[e|a] w1]; [exact Hm|].
  eapply grows_trans; [exact Hm|]. apply Hk.
Qed.

Lemma preserves_try {A} ep (body : Eff.M World A) catches handler :
  preserves ep body -> (forall e, preserves ep (handler e)) ->
  preserves ep (Eff.try_except body catches handler).
Proof.
  intros Hb Hh w. unfold Eff.try_except. specialize (Hb w).
  destruct (body w) as [[e|a] w1]; [|exact Hb].
  destruct (catches e); [|exact Hb].
  eapply grows_trans; [exact Hb|]. apply Hh.
Qed.

Lemma preserves_pages_update ep u : allowed_update ep u -> preserves ep (pages_update u).
Proof.
  intros Hu w. unfold pages_update.
  destruct (faults w) as [|[|] fs]; unfold grows; cbn;
    repeat split; try (exists []; by rewrite app_nil_r); exists [u]; split; auto.
Qed.

Lemma preserves_update_notion_property ep property_name value property_type :
  (forall properties, allowed_update ep (mkUpdate (notion_id ep) property_name properties)) ->
  preserves ep (update_notion_property (notion_id ep) property_name value property_type).
Proof.
  intros Hu. unfold update_notion_property.
  apply preserves_try; [|intros; apply preserves_ret].
  destruct (payload value property_type) as [properties|]; [|apply preserves_ret].
  apply preserves_bind; [by apply preserves_pages_update|intros; apply preserves_ret].
Qed.

Section WithSync.

Variable py_hash : string -> Z.
Variable google_drive : bool.
Variable notebook_lm : bool.

Lemma preserves_create_google_doc ep title content :
  allowed_doc ep (title, content) -> preserves ep (create_google_doc py_hash title content).
Proof.
  intros Hd w. unfold create_google_doc, grows. cbn.
  repeat split; try (exists []; by rewrite app_nil_r). exists [(title, content)]. split; auto.
Qed.

Lemma preserves_add_source ep notebook_id document_id :
  Py.truthy_opt (track_cloud ep) = false ->
  preserves ep (add_source_to_notebook notebook_id document_id).
Proof.
  intros Ht w. unfold add_source_to_notebook, grows. cbn.
  repeat split; try (exists []; by rewrite app_nil_r).
  exists [(notebook_id, document_id)]. split; [done|]. congruence.
Qed.

Lemma preserves_generate_audio_overview ep notebook_id :
  Py.truthy_opt (track_cloud ep) = false ->
  preserves ep (generate_audio_overview py_hash notebook_id).
Proof.
  intros Ht w. unfold generate_audio_overview, grows. cbn.
  repeat split; try (exists []; by rewrite app_nil_r).
  exists [notebook_id]. split; [done|]. congruence.
Qed.

Lemma preserves_read_prompt_file ep name : preserves ep (read_prompt_file name).
Proof. intros w. apply grows_refl. Qed.

Ltac step :=
  first
    [ apply preserves_ret
    | apply preserves_lift
    | apply preserves_read_prompt_file
    | apply preserves_bind; [|intros ?] ].

Lemma preserves_process_prompt_input ep :
  Py.truthy_opt (script_doc_link ep) = false ->
  preserves ep (process_prompt_input py_hash google_drive ep).
Proof.
  intros Habsent. unfold process_prompt_input.
  destruct (negb google_drive); [step|]. step.
  - destruct (negb (Py.truthy (prompt_input ep))); repeat step.
  - destruct a as [text|]; [|step]. step; [|step; [|step]].
    + apply preserves_create_google_doc. left. done.
    + apply preserves_update_notion_property. intros properties. split; [done|]. left. done.
Qed.

Lemma preserves_process_notebooklm_integration ep :
  Py.truthy_opt (track_cloud ep) = false ->
  preserves ep (process_notebooklm_integration py_hash notebook_lm ep).
Proof.
  intros Habsent. unfold process_notebooklm_integration.
  destruct (negb notebook_lm || negb (Py.truthy_opt (script_doc_link ep))); [step|].
  step; [step|]. step; [by apply preserves_add_source|].
  step; [by apply preserves_generate_audio_overview|]. step; [|step].
  apply preserves_update_notion_property. intros properties. split; [done|]. right. left. done.
Qed.

Lemma preserves_process_audio_metadata ep :
  Py.truthy (duration ep) = false -> preserves ep (process_audio_metadata ep).
Proof.
  intros Habsent. unfold process_audio_metadata.
  destruct (negb (Py.truthy_opt (track_cloud ep))); [step|]. step; [|step].
  apply preserves_update_notion_property. intros properties. split; [done|]. right. right. left. done.
Qed.

Lemma preserves_generate_and_upload_show_notes ep :
  Py.truthy_opt (show_notes_link ep) = false ->
  preserves ep (generate_and_upload_show_notes py_hash google_drive ep).
Proof.
  intros Habsent. unfold generate_and_upload_show_notes.
  destruct (negb google_drive); [step|]. step; [|step; [|step]].
  - apply preserves_create_google_doc. right. done.
  - apply preserves_update_notion_property. intros properties. split; [done|]. right. right. right. done.
Qed.

Lemma preserves_when ep cond (step : Eff.M World bool) :
  (cond = true -> preserves ep step) -> preserves ep (when cond step).
Proof.
  intros Hstep. unfold when. destruct cond; [|apply preserves_ret].
  apply preserves_bind; [by apply Hstep|intros; apply preserves_ret].
Qed.

End WithSync.

(** C9: whatever the episode and the state of the services, a run of the
    pipeline only adds what the episode lacks: a property update is for an
    output field that is absent, a document is the script or the show
    notes of an episode without the link to it, audio sources are
    registered only when there is no audio link; so a step whose output
    field is populated is skipped.  On an episode with all four output
    fields populated the run returns [True] and changes nothing. *)
Theorem retrofit_only_fills_missing
    (py_hash : string -> Z) (google_drive notebook_lm : bool) (ep : Episode) (w : World) :
  grows ep w (retrofit_episode py_hash google_drive notebook_lm ep w).2
  /\ (Py.truthy_opt (script_doc_link ep) = true ->
      Py.truthy_opt (track_cloud ep) = true ->
      Py.truthy (duration ep) = true ->
      Py.truthy_opt (show_notes_link ep) = true ->
      retrofit_episode py_hash google_drive notebook_lm ep w = (true, w)).
Proof.
  split.
  - unfold retrofit_episode.
    match goal with
    | |- grows _ _ (match ?body w with _ => _ end).2 =>
        assert (preserves ep body) as Hbody; [|specialize (Hbody w); by destruct (body w) as [[?|?] ?]]
    end.
    repeat (apply preserves_bind; [|intros ?]); apply preserves_when;
      intros [_ Habsent%negb_true_iff]%andb_true_iff.
    + by apply preserves_process_prompt_input.
    + by apply preserves_process_notebooklm_integration.
    + by apply preserves_process_audio_metadata.
    + by apply preserves_generate_and_upload_show_notes.
  - intros Hscript Htrack Hduration Hnotes. unfold retrofit_episode.
    rewrite Hscript, Htrack, Hduration, Hnotes. cbn [negb].
    rewrite !andb_false_r. reflexivity.
Qed.

Lemma retrofit_only_fills_missing_witness :
  retrofit_episode (fun _ => 4242%Z) true true demo_episode demo_world = (true, demo_world).
Proof.
  apply (retrofit_only_fills_missing (fun _ => 4242%Z) true true demo_episode demo_world);
    reflexivity.
Defined.

(** A first run on a bare episode performs the one step whose input is
    there; the rerun on the enriched record skips it. *)
Example retrofit_first_run :
  let bare := mkEpisode "page-7" "Zero Trust" (Some 1%Z) (Some 7%Z) "Not started"
                "P0D-S01-E007-AXIS-BARRIER" "Explain zero trust." None None "" None in
  let run := retrofit_episode (fun _ => 4242%Z) true true bare demo_world in
  run.1 = true
  /\ updates run.2
     = [mkUpdate "page-7" "Script-Doc-Link"
          (url "https://docs.google.com/document/d/doc_4242/edit")]
  /\ docs run.2 = [("P0D-S01-E007-AXIS-BARRIER - Script", "Explain zero trust.")].
Proof. vm_compute. done. Qed.

End Retrofit.
(** ** The release schedule from any start date *)

Section ReleaseScheduleAnyStart.

Import populate_release_schedule.
Local Open Scope Z_scope.

Lemma weekday_cases d :
  weekday d = 0 \/ weekday d = 1 \/ weekday d = 2 \/ weekday d = 3
  \/ weekday d = 4 \/ weekday d = 5 \/ weekday d = 6.
Proof. pose proof (weekday_range d). lia. Qed.

(** [get_next_release_day] with its failure: the target day is computed
    from the weekday alone, and the addition overflows past 9999-12-31. *)
Lemma get_next_release_day_cases d :
  1 <= ordinal d ->
  get_next_release_day d =
  let o := ordinal d + match weekday d with
                       | 0 => 2 | 1 => 1 | 2 => 2 | 3 => 1 | 4 => 3 | 5 => 2 | _ => 1
                       end in
  if o <=? MAXORDINAL then Py.ret (mkDatetime o 6 0 0 0) else Py.raise Py.OverflowError.
Proof.
  intros Hlo.
  unfold get_next_release_day, add_days, RELEASE_DAYS.
  destruct (weekday_cases d) as [E|[E|[E|[E|[E|[E|E]]]]]]; rewrite E; simpl;
    match goal with
    | |- context [add_days] => idtac
    | |- context [(1 <=? ordinal d + ?g) && _] =>
        let v := eval vm_compute in g in change g with v
    end;
    match goal with
    | |- context [(1 <=? ?o) && _] =>
        replace (1 <=? o) with true by (symmetry; apply Z.leb_le; lia)
    end; cbn [andb];
    match goal with
    | |- context [?o <=? MAXORDINAL] => destruct (o <=? MAXORDINAL)
    end; reflexivity.
Qed.

(** X1: for a date before 9999-12-31, [get_next_release_day] returns the
    first Monday, Wednesday or Friday strictly after it, at 06:00: the
    result is one to three days later and no release day lies in
    between.  For 9999-12-31 itself, a Friday, the next release day does
    not exist and the call raises [OverflowError]. *)
Theorem get_next_release_day_is_next (d : datetime) :
  1 <= ordinal d <= MAXORDINAL ->
  (ordinal d < MAXORDINAL ->
   exists d',
     get_next_release_day d = Py.ret d'
     /\ at_0600 d'
     /\ ordinal d < ordinal d' <= ordinal d + 3
     /\ (weekday d' = 0 \/ weekday d' = 2 \/ weekday d' = 4)
     /\ forall x : datetime,
          ordinal d < ordinal x < ordinal d' ->
          ~ (weekday x = 0 \/ weekday x = 2 \/ weekday x = 4))
  /\ (ordinal d = MAXORDINAL -> get_next_release_day d = Py.raise Py.OverflowError).
Proof.
  intros [Hlo Hhi]. rewrite get_next_release_day_cases by exact Hlo.
  cbv zeta. unfold MAXORDINAL in *. split.
  - intros Hlt.
    destruct (weekday_cases d) as [E|[E|[E|[E|[E|[E|E]]]]]]; rewrite E;
      unfold weekday in E;
      match goal with
      | |- context [?o <=? 3652059] =>
          replace (o <=? 3652059) with true
            by (symmetry; apply Z.leb_le; Z.div_mod_to_equations; lia)
      end;
      (eexists; split; [reflexivity|]; split; [by repeat split|];
       cbn [ordinal]; split; [lia|]; unfold weekday; cbn [ordinal]; split;
       [Z.div_mod_to_equations; lia | intros x Hx; Z.div_mod_to_equations; lia]).
  - intros Heq.
    assert (weekday d = 4) as E by (unfold weekday; rewrite Heq; reflexivity).
    rewrite E, Heq. reflexivity.
Qed.

Lemma get_next_release_day_is_next_witness :
  let d := START_DATE in
  (ordinal d < MAXORDINAL ->
   exists d',
     get_next_release_day d = Py.ret d'
     /\ at_0600 d'
     /\ ordinal d < ordinal d' <= ordinal d + 3
     /\ (weekday d' = 0 \/ weekday d' = 2 \/ weekday d' = 4)
     /\ forall x : datetime,
          ordinal d < ordinal x < ordinal d' ->
          ~ (weekday x = 0 \/ weekday x = 2 \/ weekday x = 4))
  /\ (ordinal d = MAXORDINAL -> get_next_release_day d = Py.raise Py.OverflowError).
Proof.
  intros d. apply (get_next_release_day_is_next d). vm_compute. split; discriminate.
Defined.

(** From any weekday the loop lands on a release day at 06:00. *)
Lemma advance_any_day d :
  at_0600 (advance d)
  /\ (weekday (advance d) = 0 \/ weekday (advance d) = 2 \/ weekday (advance d) = 4).
Proof.
  split; [by repeat split|].
  unfold advance. cbn [ordinal].
  destruct (weekday_cases d) as [E|[E|[E|[E|[E|[E|E]]]]]]; rewrite E;
    unfold weekday in *; cbn [ordinal days_to_next]; Z.div_mod_to_equations; lia.
Qed.

Lemma dates_from_lookup n d k x :
  dates_from n d !! k = Some x -> (k < n)%nat /\ x = Nat.iter k advance d.
Proof.
  revert n d. induction k as [|k IH]; intros [|n] d Hk; simpl in Hk; try discriminate.
  - injection Hk as <-. split; [lia|reflexivity].
  - apply IH in Hk as [Hlt ->]. split; [lia|].
    clear. induction k as [|k IH]; [reflexivity|]. simpl. by rewrite IH.
Qed.

Lemma dates_from_lookup_iter n d k :
  (k < n)%nat -> dates_from n d !! k = Some (Nat.iter k advance d).
Proof.
  revert n d. induction k as [|k IH]; intros [|n] d Hk; try lia; [reflexivity|].
  simpl. rewrite IH by lia. f_equal.
  clear. induction k as [|k IH]; [reflexivity|]. simpl. by rewrite IH.
Qed.

Lemma iter_advance_ordinal k d :
  ordinal d + 2 * Z.of_nat k <= ordinal (Nat.iter k advance d) <= ordinal d + 4 * Z.of_nat k.
Proof.
  induction k as [|k IH]; [simpl; lia|].
  rewrite Nat.iter_succ. pose proof (advance_ordinal (Nat.iter k advance d)). lia.
Qed.

Lemma schedule_rows_lookup (season e0 : Z) n start (k : nat) s e d :
  imap (fun i x => (season, e0 + Z.of_nat i, x)) (dates_from n start) !! k = Some (s, e, d) ->
  s = season /\ e = e0 + Z.of_nat k /\ (k < n)%nat /\ d = Nat.iter k advance start.
Proof.
  intros Hk. rewrite list_lookup_imap in Hk.
  destruct (dates_from n start !! k) as [x|] eqn:Hx; simpl in Hk; [|discriminate].
  injection Hk as <- <- <-. apply dates_from_lookup in Hx as [? ->]. done.
Qed.

(** X2: for any start date (on a release day or not) the season schedule
    has one row per episode, numbered from 1, all with the given season;
    the first row is the start date as given, the second row is two to
    four days later, every row after the first is at 06:00 on a Monday,
    Wednesday or Friday and is followed by the next day of the cycle
    Monday, Wednesday, Friday, next week's Monday.  A count of zero or
    less gives the empty schedule. *)
Theorem season_schedule_rows (season episodes : Z) (start : datetime) :
  1 <= ordinal start <= MAXORDINAL ->
  ordinal start + 4 * episodes <= MAXORDINAL ->
  exists sched,
    generate_season_schedule season episodes start = Py.ret sched
    /\ length sched = Z.to_nat episodes
    /\ (forall (k : nat) (s e : Z) (d : datetime),
          sched !! k = Some (s, e, d) ->
          s = season /\ e = Z.of_nat k + 1
          /\ (k = 0%nat -> d = start)
          /\ (k = 1%nat -> ordinal start + 2 <= ordinal d <= ordinal start + 4)
          /\ (k <> 0%nat ->
              at_0600 d /\ (weekday d = 0 \/ weekday d = 2 \/ weekday d = 4)))
    /\ (forall (k : nat) (r r' : entry),
          sched !! S k = Some r -> sched !! S (S k) = Some r' ->
          next_in_cycle r.2 r'.2).
Proof.
  intros [Hlo Hmax] Hhi. unfold generate_season_schedule.
  rewrite schedule_loop_eq by lia.
  eexists. split; [reflexivity|]. cbn [app].
  split; [by rewrite length_imap, dates_from_length|]. split.
  - intros k s e d Hk. apply schedule_rows_lookup in Hk as (-> & -> & Hlt & ->).
    split; [done|]. split; [lia|]. split; [by intros ->|]. split.
    + intros ->. rewrite Nat.iter_succ. apply advance_ordinal.
    + destruct k as [|k]; [done|]. intros _. rewrite Nat.iter_succ. apply advance_any_day.
  - intros k [[s e] d] [[s' e'] d'] Hk Hk'.
    apply schedule_rows_lookup in Hk as (_ & _ & _ & ->).
    apply schedule_rows_lookup in Hk' as (_ & _ & _ & ->).
    cbn [snd]. rewrite (Nat.iter_succ (S k)).
    apply advance_next_in_cycle. rewrite Nat.iter_succ. apply advance_any_day.
Qed.

Lemma season_schedule_rows_witness :
  let start := mk_datetime 2024 1 4 9 30 in
  exists sched,
    generate_season_schedule 3 52 start = Py.ret sched
    /\ length sched = Z.to_nat 52
    /\ (forall (k : nat) (s e : Z) (d : datetime),
          sched !! k = Some (s, e, d) ->
          s = 3 /\ e = Z.of_nat k + 1
          /\ (k = 0%nat -> d = start)
          /\ (k = 1%nat -> ordinal start + 2 <= ordinal d <= ordinal start + 4)
          /\ (k <> 0%nat ->
              at_0600 d /\ (weekday d = 0 \/ weekday d = 2 \/ weekday d = 4)))
    /\ (forall (k : nat) (r r' : entry),
          sched !! S k = Some r -> sched !! S (S k) = Some r' ->
          next_in_cycle r.2 r'.2).
Proof.
  intros start. apply (season_schedule_rows 3 52 start).
  - vm_compute. split; discriminate.
  - vm_compute. discriminate.
Defined.

Lemma dates_from_app a b d :
  dates_from (a + b) d = (dates_from a d ++ dates_from b (Nat.iter a advance d))%list.
Proof.
  revert d. induction a as [|a IH]; intros d; [reflexivity|].
  cbn [Nat.add dates_from app]. rewrite IH. by rewrite Nat.iter_succ_r.
Qed.

Lemma dates_from_snoc n d :
  dates_from (S n) d = (dates_from n d ++ [Nat.iter n advance d])%list.
Proof. replace (S n) with (n + 1)%nat by lia. by rewrite dates_from_app. Qed.

Lemma schedule_rows_dates (season e0 : Z) (l : list datetime) :
  map snd (imap (fun i x => (season, e0 + Z.of_nat i, x)) l) = l.
Proof.
  change (map snd ?x) with (snd <$> x). apply list_eq. intros i.
  rewrite list_lookup_fmap, list_lookup_imap. by destruct (l !! i).
Qed.

(** The loop over the seasons: the rows of each season, numbered from 1,
    on the dates that follow the previous season's last one. *)
Lemma full_loop_eq n season eps cur acc :
  1 <= ordinal cur ->
  ordinal cur + 4 * Z.of_nat (n * Z.to_nat eps) <= MAXORDINAL ->
  exists rows,
    full_loop n season eps cur acc = Py.ret (acc ++ rows)%list
    /\ map snd rows = dates_from (n * Z.to_nat eps) cur
    /\ forall (i : nat) (s e : Z) (d : datetime),
         rows !! i = Some (s, e, d) ->
         s = season + Z.of_nat i / eps /\ e = 1 + Z.of_nat i mod eps.
Proof.
  revert season cur acc. induction n as [|n IH]; intros season cur acc Hlo Hhi.
  { exists []. simpl. rewrite app_nil_r. split; [done|]. split; [done|].
    intros i s e d Hi. discriminate. }
  cbn [full_loop]. unfold generate_season_schedule.
  destruct (Z.to_nat eps) as [|m] eqn:Hm.
  - cbn [season_loop Py.bind Py.ret map List.last].
    rewrite app_nil_r.
    destruct (IH (season + 1) cur acc Hlo) as (rows & Hrun & Hdates & _).
    { lia. }
    rewrite Nat.mul_0_r in *. destruct rows; [|discriminate].
    exists []. rewrite Hrun. split; [done|]. split; [done|].
    intros i s e d Hi. discriminate.
  - rewrite schedule_loop_eq by lia. cbn [Py.bind Py.ret app].
    match goal with
    | |- context [List.last ?l None] =>
        assert (List.last l None
                = Some (season, 1 + Z.of_nat (length (dates_from m cur) + 0),
                        Nat.iter m advance cur)) as ->
    end.
    { rewrite dates_from_snoc, imap_app, map_app. cbn [imap map]. apply last_last. }
    pose proof (iter_advance_ordinal m cur) as Hl.
    rewrite loop_step by nia.
    pose proof (iter_advance_ordinal (S m) cur) as Hl'. rewrite Nat.iter_succ in Hl'.
    unfold Py.ret at 1. cbn [Py.bind].
    match goal with
    | |- context [full_loop n _ _ ?c (acc ++ ?r)%list] =>
        set (rows1 := r); set (cur1 := c)
    end.
    destruct (IH (season + 1) cur1 (acc ++ rows1)%list) as (rows & Hrun & Hdates & Hrows).
    { unfold cur1. lia. }
    { unfold cur1. nia. }
    exists (rows1 ++ rows)%list.
    split; [by rewrite Hrun, <- app_assoc|]. split.
    { unfold rows1. rewrite map_app, schedule_rows_dates, Hdates.
      replace (S n * S m)%nat with (S m + n * S m)%nat by lia.
      by rewrite dates_from_app, Nat.iter_succ. }
    intros i s e d Hi.
    assert (eps = Z.of_nat (S m)) as -> by lia.
    destruct (decide (i < S m)%nat) as [Hlt|Hge].
    + unfold rows1 in Hi.
      rewrite lookup_app_l in Hi by (by rewrite length_imap, dates_from_length).
      apply schedule_rows_lookup in Hi as (-> & -> & _ & _).
      rewrite Z.div_small, Z.mod_small by lia. lia.
    + unfold rows1 in Hi.
      rewrite lookup_app_r in Hi by (rewrite length_imap, dates_from_length; lia).
      rewrite length_imap, dates_from_length in Hi.
      apply Hrows in Hi as [-> ->].
      replace (Z.of_nat i) with (Z.of_nat (i - S m) + 1 * Z.of_nat (S m)) by lia.
      rewrite Z.div_add, Z.mod_add by lia. lia.
Qed.

(** X3: the full schedule runs through the season boundaries without a
    gap or a repeat: its dates are those of one season of
    seasons x episodes rows from the same start, and row [i] (from 0)
    carries season [1 + i / episodes] and episode [1 + i mod episodes]. *)
Theorem full_schedule_is_continuous (start : datetime) (seasons episodes : Z) :
  1 <= ordinal start <= MAXORDINAL ->
  0 <= seasons -> 0 <= episodes ->
  ordinal start + 4 * (seasons * episodes) <= MAXORDINAL ->
  exists full one,
    generate_full_schedule start seasons episodes = Py.ret full
    /\ generate_season_schedule 1 (seasons * episodes) start = Py.ret one
    /\ map snd full = map snd one
    /\ length full = Z.to_nat (seasons * episodes)
    /\ forall (i : nat) (s e : Z) (d : datetime),
         full !! i = Some (s, e, d) ->
         s = 1 + Z.of_nat i / episodes /\ e = 1 + Z.of_nat i mod episodes.
Proof.
  intros [Hlo Hmax] Hs He Hhi. unfold generate_full_schedule.
  assert (Z.of_nat (Z.to_nat seasons * Z.to_nat episodes) = seasons * episodes) as Hn by nia.
  destruct (full_loop_eq (Z.to_nat seasons) 1 episodes start [] Hlo) as (rows & Hrun & Hdates & Hrows);
    [lia|].
  exists rows. eexists. split; [exact Hrun|].
  unfold generate_season_schedule. rewrite schedule_loop_eq by lia.
  split; [reflexivity|]. cbn [app]. rewrite schedule_rows_dates.
  replace (Z.to_nat (seasons * episodes)) with (Z.to_nat seasons * Z.to_nat episodes)%nat by lia.
  split; [exact Hdates|]. split; [|exact Hrows].
  transitivity (length (map snd rows)); [symmetry; apply length_map|].
  rewrite Hdates. apply dates_from_length.
Qed.

Lemma full_schedule_is_continuous_witness :
  exists full one,
    generate_full_schedule START_DATE TOTAL_SEASONS EPISODES_PER_SEASON = Py.ret full
    /\ generate_season_schedule 1 (TOTAL_SEASONS * EPISODES_PER_SEASON) START_DATE = Py.ret one
    /\ map snd full = map snd one
    /\ length full = Z.to_nat (TOTAL_SEASONS * EPISODES_PER_SEASON)
    /\ forall (i : nat) (s e : Z) (d : datetime),
         full !! i = Some (s, e, d) ->
         s = 1 + Z.of_nat i / EPISODES_PER_SEASON /\ e = 1 + Z.of_nat i mod EPISODES_PER_SEASON.
Proof.
  apply (full_schedule_is_continuous START_DATE TOTAL_SEASONS EPISODES_PER_SEASON).
  - vm_compute. split; discriminate.
  - vm_compute. discriminate.
  - vm_compute. discriminate.
  - vm_compute. discriminate.
Defined.

End ReleaseScheduleAnyStart.
(** ** Symbol pools and code names of any size *)

Section CodeNamesAnySize.

Import generate_code_names.

Lemma map_nth_seq_self {A} (l : list A) (d : A) :
  map (fun i => nth i l d) (seq 0 (length l)) = l.
Proof.
  change (map ?f ?x) with (f <$> x). apply list_eq. intros i.
  rewrite list_lookup_fmap.
  destruct (decide (i < length l)) as [Hlt|Hge].
  - rewrite lookup_seq_lt by done. simpl.
    destruct (lookup_lt_is_Some_2 l i Hlt) as [x Hx].
    by rewrite Hx, (nth_lookup_Some _ _ _ _ Hx).
  - rewrite lookup_seq_ge by lia. simpl. symmetry. apply lookup_ge_None_2. lia.
Qed.

Lemma append_inj_l (p a b : string) : p +:+ a = p +:+ b -> a = b.
Proof.
  induction p as [|c p IH]; [by rewrite !append_nil_l|].
  rewrite !append_cons. intros [= H]. by apply IH.
Qed.

Lemma fmt_0d_digits w n : Py.all_chars Py.is_digit (Py.fmt_0d w n) = true.
Proof.
  unfold Py.fmt_0d. rewrite all_chars_app. apply andb_true_iff. split.
  - generalize (w - String.length (Py.str_nat n)). intros k.
    induction k as [|k IH]; [done|]. simpl. exact IH.
  - apply str_nat_digits.
Qed.

Lemma fmt_0d_no_hyphen w n :
  Py.all_chars (fun c => negb (Ascii.eqb c "-")) (Py.fmt_0d w n) = true.
Proof.
  apply (all_chars_impl Py.is_digit); [|apply fmt_0d_digits].
  intros c Hc. destruct (Ascii.eqb_spec c "-") as [->|]; [discriminate Hc|done].
Qed.

(** A code name can be read back: the symbol is what follows the two
    numbers and the theme. *)
Lemma generate_code_name_inj s e sym s' e' sym' :
  generate_code_name s e sym = generate_code_name s' e' sym' ->
  Py.fmt_0d 2 s = Py.fmt_0d 2 s' /\ Py.fmt_0d 3 e = Py.fmt_0d 3 e' /\ sym = sym'.
Proof.
  unfold generate_code_name. intros Heq.
  apply append_inj_l, append_inj_l in Heq.
  apply (app_sep_split "-") in Heq as [Hs Heq]; [|apply fmt_0d_no_hyphen..].
  apply (append_inj_l "E") in Heq.
  apply (app_sep_split "-") in Heq as [He Heq]; [|apply fmt_0d_no_hyphen..].
  apply (append_inj_l CODE_THEME), (append_inj_l "-") in Heq. done.
Qed.

Lemma NoDup_map_via {A B C} (f : A -> B) (g : A -> C) (l : list A) :
  (forall x y, x ∈ l -> y ∈ l -> g x = g y -> f x = f y) ->
  NoDup (map f l) -> NoDup (map g l).
Proof.
  induction l as [|x l IH]; intros Hfg Hnd; [constructor|].
  cbn [map] in *. apply NoDup_cons in Hnd as [Hx Hnd]. apply NoDup_cons. split.
  - change (map g l) with (g <$> l). intros (y & Hxy & Hy)%list_elem_of_fmap.
    apply Hx. change (map f l) with (f <$> l). apply list_elem_of_fmap.
    exists y. split; [|done]. apply Hfg; [set_solver..|done].
  - apply IH; [|done]. intros y z Hy Hz. apply Hfg; set_solver.
Qed.

Lemma season_loop_no_episodes symbols n season st :
  season_loop symbols 0 n season st = Py.ret st.
Proof. revert season. induction n as [|n IH]; intros season; [done|]. simpl. apply IH. Qed.

(** The pool of any size. *)
Lemma generate_symbol_pool_spec (seasons episodes_per_season : nat) :
  exists pool,
    generate_symbol_pool seasons episodes_per_season = Py.ret pool
    /\ length pool = seasons * episodes_per_season
    /\ NoDup pool.
Proof.
  destruct (decide (length all_symbols < seasons * episodes_per_season)) as [Hlt|Hge].
  - rewrite generate_symbol_pool_eq by done. eexists. split; [reflexivity|].
    split; [by rewrite length_map, length_seq|].
    apply NoDup_fmap_2_strong; [|apply NoDup_seq].
    intros i j _ _. apply symbol_at_inj.
  - unfold generate_symbol_pool.
    destruct (Nat.ltb_spec (length all_symbols) (seasons * episodes_per_season)) as [|_]; [lia|].
    eexists. split; [reflexivity|].
    split; [rewrite length_take; lia|].
    eapply sublist_NoDup; [apply all_symbols_NoDup|apply sublist_take].
Qed.

(** X4: for any number of seasons and episodes the symbol pool has exactly
    one symbol per episode and no symbol twice; when the 96 base symbols
    suffice the pool is the first symbols of the sorted list, without any
    numeric suffix. *)
Theorem symbol_pool_distinct (seasons episodes_per_season : nat) :
  exists pool,
    generate_symbol_pool seasons episodes_per_season = Py.ret pool
    /\ length pool = seasons * episodes_per_season
    /\ NoDup pool
    /\ (seasons * episodes_per_season <= 96 ->
        pool = take (seasons * episodes_per_season) all_symbols
        /\ Forall (fun s => Py.all_chars (fun c => negb (Py.is_digit c)) s = true) pool).
Proof.
  destruct (generate_symbol_pool_spec seasons episodes_per_season)
    as (pool & Hpool & Hlen & Hnd).
  exists pool. split; [done|]. split; [done|]. split; [done|].
  intros Hle. unfold generate_symbol_pool in Hpool.
  destruct (Nat.ltb_spec (length all_symbols) (seasons * episodes_per_season)) as [Hlt|_].
  { rewrite all_symbols_length in Hlt. lia. }
  unfold Py.ret in Hpool. apply (inj inr) in Hpool. subst pool.
  split; [done|]. apply Forall_take, all_symbols_no_digit.
Qed.

(** X5: whatever permutation the shuffle applies (and whether it is
    applied at all), the table has one row per episode, in season and
    episode order, each row's code name is built from its own season,
    episode and symbol, and the symbols of the rows are the pool in the
    shuffled order: every pool symbol is used exactly once, and no two
    rows share a code name. *)
Theorem code_names_any_shuffle (seasons episodes_per_season : nat) (randomize : bool)
    (shuffle : list string -> list string) :
  (forall l, shuffle l ≡ₚ l) ->
  exists pool names,
    generate_symbol_pool seasons episodes_per_season = Py.ret pool
    /\ generate_all_code_names seasons episodes_per_season randomize shuffle = Py.ret names
    /\ length names = seasons * episodes_per_season
    /\ map symbol names = (if randomize then shuffle pool else pool)
    /\ map symbol names ≡ₚ pool
    /\ NoDup (map symbol names)
    /\ NoDup (map code_name names)
    /\ forall i row, names !! i = Some row ->
         cn_season row = 1 + i / episodes_per_season
         /\ cn_episode row = 1 + i mod episodes_per_season
         /\ code_name row = generate_code_name (cn_season row) (cn_episode row) (symbol row).
Proof.
  intros Hperm.
  destruct (generate_symbol_pool_spec seasons episodes_per_season)
    as (pool & Hpool & Hlen & Hnd).
  exists pool. unfold generate_all_code_names. rewrite Hpool. cbn [Py.bind Py.ret].
  set (symbols := if randomize then shuffle pool else pool).
  assert (symbols ≡ₚ pool) as Hsym by (unfold symbols; by destruct randomize).
  assert (length symbols = seasons * episodes_per_season) as Hslen by (by rewrite Hsym).
  destruct episodes_per_season as [|m].
  - rewrite season_loop_no_episodes. exists []. cbn [Py.bind Py.ret fst].
    split; [done|].
    rewrite Nat.mul_0_r in *. destruct symbols; [|discriminate Hslen].
    repeat split; try done; constructor.
  - set (eps := S m) in *.
    pose proof (code_season_loop_eq symbols eps seasons 0 [] ltac:(unfold eps; lia)
                  ltac:(rewrite Hslen; lia)) as Hloop.
    change (0 * eps) with 0 in Hloop. rewrite Hloop. unfold Py.ret. cbn [Py.bind app fst Nat.add].
    eexists. split; [reflexivity|].
    assert (map symbol (map (row_at eps symbols) (seq 0 (seasons * eps))) = symbols) as Hsyms.
    { rewrite map_map. cbn [row_at symbol]. rewrite <- Hslen. apply map_nth_seq_self. }
    split; [reflexivity|].
    split; [by rewrite length_map, length_seq|].
    split; [exact Hsyms|]. rewrite Hsyms.
    split; [exact Hsym|]. split; [by rewrite Hsym|].
    split.
    { apply (NoDup_map_via symbol); [|by rewrite Hsyms, Hsym].
      intros x y Hx Hy Hcode.
      change (map ?f ?l) with (f <$> l) in Hx, Hy.
      apply list_elem_of_fmap in Hx as (i & -> & _). apply list_elem_of_fmap in Hy as (j & -> & _).
      cbn [row_at code_name symbol] in Hcode |- *.
      by apply generate_code_name_inj in Hcode as (_ & _ & ?). }
    intros i row Hrow.
    change (map ?f ?x) with (f <$> x) in Hrow. rewrite list_lookup_fmap in Hrow.
    destruct (seq 0 (seasons * eps) !! i) as [i'|] eqn:Hi; [|discriminate].
    apply lookup_seq in Hi as [-> Hi]. injection Hrow as <-. done.
Qed.

(** The pool of any size in closed form: position [i] holds the same
    symbol whatever the size of the pool. *)
Lemma generate_symbol_pool_closed (seasons episodes_per_season : nat) :
  generate_symbol_pool seasons episodes_per_season
  = Py.ret (map (symbol_at all_symbols) (seq 0 (seasons * episodes_per_season))).
Proof.
  destruct (decide (length all_symbols < seasons * episodes_per_season)) as [Hlt|Hge].
  { by apply generate_symbol_pool_eq. }
  unfold generate_symbol_pool.
  destruct (Nat.ltb_spec (length all_symbols) (seasons * episodes_per_season)) as [|_]; [lia|].
  unfold Py.ret. f_equal. rewrite all_symbols_length in Hge.
  change (map ?f ?l) with (f <$> l). apply list_eq. intros i.
  rewrite list_lookup_fmap.
  destruct (decide (i < seasons * episodes_per_season)) as [Hi|Hi].
  - rewrite lookup_take_lt, lookup_seq_lt by done. cbn [fmap option_fmap option_map Nat.add].
    assert (i < length all_symbols) as Hlen by (rewrite all_symbols_length; lia).
    destruct (lookup_lt_is_Some_2 all_symbols i Hlen) as [base Hbase]. rewrite Hbase.
    unfold symbol_at. rewrite all_symbols_length.
    rewrite Nat.mod_small, Nat.div_small by lia. cbn [Nat.ltb Nat.leb].
    by rewrite (nth_lookup_Some _ _ _ _ Hbase).
  - rewrite lookup_take_ge, lookup_seq_ge by lia. done.
Qed.

(** The table without shuffling, in closed form. *)
Lemma generate_all_code_names_closed (seasons episodes_per_season : nat)
    (shuffle : list string -> list string) :
  generate_all_code_names seasons episodes_per_season false shuffle
  = Py.ret (map (fun i =>
                   let season := 1 + i / episodes_per_season in
                   let episode := 1 + i mod episodes_per_season in
                   let sym := symbol_at all_symbols i in
                   mkCodeName season episode (generate_code_name season episode sym) sym)
              (seq 0 (seasons * episodes_per_season))).
Proof.
  unfold generate_all_code_names. rewrite generate_symbol_pool_closed.
  cbn [Py.bind Py.ret].
  set (pool := map (symbol_at all_symbols) (seq 0 (seasons * episodes_per_season))).
  assert (length pool = seasons * episodes_per_season) as Hlen
    by (unfold pool; by rewrite length_map, length_seq).
  destruct episodes_per_season as [|m].
  - rewrite season_loop_no_episodes. by rewrite Nat.mul_0_r.
  - pose proof (code_season_loop_eq pool (S m) seasons 0 [] ltac:(lia)
                  ltac:(rewrite Hlen; lia)) as Hloop.
    change (0 * S m) with 0 in Hloop. rewrite Hloop. unfold Py.ret. cbn [Py.bind app fst Nat.add].
    f_equal. apply map_ext_in. intros i Hi%in_seq. unfold row_at.
    unfold pool. rewrite nth_map_seq by lia. done.
Qed.

(** X6: the code names already assigned do not change when seasons are
    added: without shuffling, the table for more seasons of the same
    length begins with the table for fewer. *)
Theorem code_names_stable_under_new_seasons (seasons more episodes_per_season : nat)
    (shuffle : list string -> list string) :
  exists names added,
    generate_all_code_names seasons episodes_per_season false shuffle = Py.ret names
    /\ generate_all_code_names (seasons + more) episodes_per_season false shuffle
       = Py.ret (names ++ added)
    /\ length names = seasons * episodes_per_season
    /\ length added = more * episodes_per_season.
Proof.
  rewrite !generate_all_code_names_closed.
  replace ((seasons + more) * episodes_per_season)
    with (seasons * episodes_per_season + more * episodes_per_season) by lia.
  rewrite seq_app, map_app. eexists _, _.
  split; [reflexivity|]. split; [reflexivity|].
  by rewrite !length_map, !length_seq.
Qed.

Lemma code_names_any_shuffle_witness :
  exists pool names,
    generate_symbol_pool 2 3 = Py.ret pool
    /\ generate_all_code_names 2 3 true reverse = Py.ret names
    /\ length names = 2 * 3
    /\ map symbol names = (if true then reverse pool else pool)
    /\ map symbol names ≡ₚ pool
    /\ NoDup (map symbol names)
    /\ NoDup (map code_name names)
    /\ forall i row, names !! i = Some row ->
         cn_season row = 1 + i / 3
         /\ cn_episode row = 1 + i mod 3
         /\ code_name row = generate_code_name (cn_season row) (cn_episode row) (symbol row).
Proof.
  apply (code_names_any_shuffle 2 3 true reverse).
  intros l. apply reverse_Permutation.
Defined.

End CodeNamesAnySize.
(** ** The tasks of the stub extractor *)

Section ExtractTasksShape.

Import extract_tasks.

Lemma slice_to_length n s : String.length (Py.slice_to n s) <= n.
Proof.
  revert s. induction n as [|n IH]; intros [|c s]; simpl; try lia.
  specialize (IH s). lia.
Qed.

Lemma slice_to_startswith n s : Py.startswith (Py.slice_to n s) s = true.
Proof.
  revert s. induction n as [|n IH]; intros [|c s]; simpl; try done.
  by rewrite Ascii.eqb_refl, IH.
Qed.

Lemma upper_char_space c : Py.is_space (Py.upper_char c) = Py.is_space c.
Proof. by destruct c as [[] [] [] [] [] [] [] []]. Qed.

Lemma upper_all_space s :
  Py.all_chars Py.is_space (Py.upper s) = Py.all_chars Py.is_space s.
Proof. induction s as [|c s IH]; [done|]. simpl. by rewrite upper_char_space, IH. Qed.

(** A string that holds a word starting with a non-blank character is
    not all blanks. *)
Lemma contains_not_blank k kw hay :
  Py.is_space k = false ->
  Py.contains (String k kw) hay = true ->
  Py.all_chars Py.is_space hay = false.
Proof.
  intros Hk. induction hay as [|c hay IH]; [done|].
  cbn [Py.contains Py.startswith Py.all_chars].
  intros [Hhd|Htl]%orb_true_iff.
  - apply andb_true_iff in Hhd as [->%Ascii.eqb_eq _]. by rewrite Hk.
  - rewrite IH by done. apply andb_false_r.
Qed.

Lemma rstrip_not_blank c s :
  Py.is_space c = false -> Py.rstrip (String c s) <> "".
Proof. intros Hc. cbn [Py.rstrip]. destruct (Py.rstrip s); [by rewrite Hc|done]. Qed.

Lemma strip_not_blank s :
  Py.all_chars Py.is_space s = false -> Py.strip s <> "".
Proof.
  unfold Py.strip. induction s as [|c s IH]; [done|].
  cbn [Py.all_chars Py.lstrip]. destruct (Py.is_space c) eqn:Hc.
  - simpl. exact IH.
  - intros _. by apply rstrip_not_blank.
Qed.

Lemma action_line_not_blank line :
  has_action_keyword line = true -> Py.strip line <> "".
Proof.
  unfold has_action_keyword. intros Hk. apply strip_not_blank.
  rewrite <- upper_all_space.
  apply existsb_exists in Hk as (kw & Hin & Hkw).
  unfold action_keywords in Hin. simpl in Hin.
  destruct Hin as [<-|[<-|[<-|[<-|[<-|[<-|[<-|[<-|[<-|[<-|[]]]]]]]]]]];
    by eapply contains_not_blank; [|exact Hkw].
Qed.

Lemma stub_tasks_lookup td i t :
  extract_tasks_stub td !! i = Some t ->
  i < 10
  /\ exists line,
       take 10 (matching_lines td) !! i = Some line
       /\ t = make_task (default "unknown" (meeting_id td)) (S i) line.
Proof.
  unfold extract_tasks_stub. rewrite stub_loop_spec by lia.
  cbn [app]. change (11 - 1) with 10. rewrite list_lookup_imap.
  fold (matching_lines td). unfold matching_lines at 1, transcript_lines.
  fold (transcript_lines td). fold (matching_lines td).
  destruct (take 10 (matching_lines td) !! i) as [line|] eqn:Hline; [|discriminate].
  simpl. intros [= <-]. split.
  - apply lookup_lt_Some in Hline. rewrite length_take in Hline. lia.
  - by exists line.
Qed.

(** X7: the tasks of one transcript have pairwise different task ids. *)
Theorem stub_task_ids_distinct (td : extract_tasks.TranscriptData) :
  NoDup (map task_id (extract_tasks_stub td)).
Proof.
  change (map ?f ?l) with (f <$> l). apply NoDup_alt. intros i j tid Hi Hj.
  rewrite list_lookup_fmap in Hi, Hj.
  destruct (extract_tasks_stub td !! i) as [ti|] eqn:Hti; [|discriminate].
  destruct (extract_tasks_stub td !! j) as [tj|] eqn:Htj; [|discriminate].
  apply stub_tasks_lookup in Hti as (Hi10 & li & _ & ->).
  apply stub_tasks_lookup in Htj as (Hj10 & lj & _ & ->).
  simpl in Hi, Hj. injection Hi as <-. injection Hj as Heq.
  apply append_inj_l, append_inj_l in Heq.
  assert (NoDup (Py.fmt_0d 3 <$> seq 1 10)) as Hnd
    by (apply (bool_decide_unpack _); vm_compute; exact I).
  symmetry. eapply (NoDup_lookup _ j i _ Hnd).
  - rewrite list_lookup_fmap, lookup_seq_lt by lia. simpl. by rewrite Heq.
  - rewrite list_lookup_fmap, lookup_seq_lt by lia. done.
Qed.

(** X8: every task of the stub extractor has a title that is not empty,
    is at most 100 characters long and is the beginning of its
    description, and carries the fixed agent, repository, priority and
    type together with the label of its meeting. *)
Theorem stub_tasks_shape (td : extract_tasks.TranscriptData) :
  Forall (fun t =>
            title t <> ""
            /\ String.length (title t) <= 100
            /\ Py.startswith (title t) (description t) = true
            /\ agent t = "A-01" /\ repo t = "PR-CYBR-AGENT-01"
            /\ priority t = "medium" /\ type_ t = "enhancement"
            /\ labels t = ["automation/codex";
                           "meeting/" +:+ default "unknown" (meeting_id td)]
            /\ explicit t = false)
    (extract_tasks_stub td).
Proof.
  apply Forall_lookup. intros i t Ht.
  apply stub_tasks_lookup in Ht as (_ & line & Hline & ->).
  cbn [make_task title description agent repo priority type_ labels explicit].
  split; [|split; [apply slice_to_length|split; [apply slice_to_startswith|done]]].
  apply lookup_take_Some in Hline as [Hline _].
  apply list_elem_of_lookup_2 in Hline.
  unfold matching_lines in Hline. apply list_elem_of_filter in Hline as [Hk _].
  pose proof (action_line_not_blank line Hk) as Hne.
  destruct (Py.strip line); [done|]. discriminate.
Qed.

End ExtractTasksShape.
(** ** The upsert of notion_sync under failing calls *)

Section StoreFaults.

Import notion_sync.

Lemma slice_to_short n s : String.length s <= n -> Py.slice_to n s = s.
Proof.
  revert s. induction n as [|n IH]; intros [|c s] Hlen; simpl in *; try done; [lia|].
  rewrite IH by lia. done.
Qed.

(** X9: the properties sent for a record never exceed the limits of the
    workspace: the title is the summary cut to 100 characters and the
    summary text is cut to 2000 (a summary within the limit is sent
    whole); the PR number and PR URL are present exactly when a non-zero
    PR number is given, a PR number of 0 counting as absent. *)
Theorem format_properties_limits (clock : Clock) (did agent repo : string)
    (issue : Z) (pr : option Z) (meeting_date summary : string) :
  let props := format_properties clock did agent repo issue pr meeting_date summary in
  (exists t, props !! "Title" = Some (title t)
             /\ String.length t <= 100 /\ Py.startswith t summary = true
             /\ (String.length summary <= 100 -> t = summary))
  /\ (exists s, props !! "Summary" = Some (rich_text s)
                /\ String.length s <= 2000 /\ Py.startswith s summary = true
                /\ (String.length summary <= 2000 -> s = summary))
  /\ (forall n, pr = Some n -> n <> 0%Z ->
        props !! "PR" = Some (number n)
        /\ props !! "PR URL"
           = Some (url ("https://github.com/PR-CYBR/" +:+ repo +:+ "/pull/" +:+ Py.str_int n)))
  /\ (pr = None \/ pr = Some 0%Z -> props !! "PR" = None /\ props !! "PR URL" = None).
Proof.
  intros props.
  destruct (format_properties_summary clock did agent repo issue pr meeting_date summary)
    as [Hsum Htitle]. fold props in Hsum, Htitle.
  split; [|split; [|split]].
  - eexists. split; [exact Htitle|].
    split; [apply slice_to_length|]. split; [apply slice_to_startswith|apply slice_to_short].
  - eexists. split; [exact Hsum|].
    split; [apply slice_to_length|]. split; [apply slice_to_startswith|apply slice_to_short].
  - intros n -> Hn. unfold props, format_properties, pr_given.
    destruct (Z.eqb_spec n 0) as [|_]; [done|].
    cbn [negb Py.truthy_opt Py.truthy default from_option Datatypes.id].
    by simplify_map_eq.
  - intros Hpr. unfold props, format_properties.
    assert (pr_given pr = false) as -> by (by destruct Hpr as [->| ->]).
    cbn [Py.truthy_opt]. by simplify_map_eq.
Qed.

(** The three calls on the in-memory database, with any fault schedule. *)
Lemma search_existing_page_store (db did : string) (s : Store) :
  exists r fs,
    search_existing_page db did s = (inr r, mkStore (pages s) (next_page s) fs)
    /\ (r = None
        \/ exists p0, r = Some (id p0) /\ p0 ∈ pages s
                      /\ matches db "Task ID" did p0 = true).
Proof.
  unfold search_existing_page, Eff.try_except, Eff.bind, Eff.ret, Eff.any_exception.
  cbn [databases_query store_client]. unfold store_query, tick.
  destruct s as [pg np [|[] fs]]; cbn [faults pages next_page].
  2: { eexists None, fs. split; [reflexivity|by left]. }
  all: destruct (filter _ pg) as [|p0 rest] eqn:Hrec;
    [eexists None, _; split; [reflexivity|by left]|].
  all: eexists (Some (id p0)), _; split; [reflexivity|]; right; exists p0;
    split; [done|];
    assert (p0 ∈ filter (fun p => matches db "Task ID" did p = true) pg) as Hin
      by (rewrite Hrec; set_solver);
    by apply list_elem_of_filter in Hin as [? ?].
Qed.

Lemma create_page_store db clock did agent repo issue pr meeting_date summary (s : Store) :
  let page := mkPage (fresh_id (next_page s)) db
                (format_properties clock did agent repo issue pr meeting_date summary) in
  (exists e fs,
     create_page db clock did agent repo issue pr meeting_date summary s
     = (inl e, mkStore (pages s) (next_page s) fs))
  \/ (exists fs,
        create_page db clock did agent repo issue pr meeting_date summary s
        = (inr (fresh_id (next_page s)),
           mkStore (pages s ++ [page]) (S (next_page s)) fs)).
Proof.
  intros page. unfold create_page, Eff.bind, Eff.ret.
  cbn [pages_create store_client]. unfold store_create, tick.
  destruct s as [pg np [|[] fs]]; cbn [faults pages next_page].
  - right. by eexists.
  - left. by eexists _, _.
  - right. by eexists.
Qed.

Lemma update_page_store clock pid did agent repo issue pr meeting_date summary (s : Store) :
  let props := format_properties clock did agent repo issue pr meeting_date summary in
  (exists e fs,
     update_page (W := Store) clock pid did agent repo issue pr meeting_date summary s
     = (inl e, mkStore (pages s) (next_page s) fs))
  \/ (exists fs,
        update_page (W := Store) clock pid did agent repo issue pr meeting_date summary s
        = (inr tt, mkStore (map (patch pid props) (pages s)) (next_page s) fs)).
Proof.
  intros props. unfold update_page, Eff.bind, Eff.ret.
  cbn [pages_update store_client]. unfold store_update, tick.
  destruct s as [pg np [|[] fs]]; cbn [faults pages next_page].
  2: { left. by eexists _, _. }
  all: destruct (List.find _ pg); [right; by eexists|left; by eexists _, _].
Qed.

Lemma well_formed_faults pg np fs fs' :
  well_formed (mkStore pg np fs) -> well_formed (mkStore pg np fs').
Proof. done. Qed.

Lemma well_formed_create pg np fs fs' db props :
  well_formed (mkStore pg np fs) ->
  well_formed (mkStore (pg ++ [mkPage (fresh_id np) db props]) (S np) fs').
Proof.
  intros [Hnd Hids]. cbn [pages next_page] in *. split; cbn [pages next_page].
  - rewrite map_app. cbn [map id].
    apply NoDup_app. split; [done|]. split; [|apply NoDup_singleton].
    intros x Hx Hk%list_elem_of_singleton. subst x.
    change (map id pg) with (id <$> pg) in Hx.
    apply list_elem_of_fmap in Hx as (p & Hp & Hin).
    rewrite Forall_forall in Hids. destruct (Hids p Hin) as (m & Hm & Hpm).
    rewrite Hpm in Hp. apply fresh_id_inj in Hp. lia.
  - apply Forall_app. split.
    + eapply Forall_impl; [exact Hids|]. intros p (m & Hm & Hp). exists m. split; [lia|done].
    + constructor; [|constructor]. exists np. split; [lia|done].
Qed.

Lemma well_formed_patch pg np fs fs' pid props :
  well_formed (mkStore pg np fs) ->
  well_formed (mkStore (map (patch pid props) pg) np fs').
Proof.
  intros [Hnd Hids]. cbn [pages next_page] in *.
  assert (map id (map (patch pid props) pg) = map id pg) as Hidmap.
  { rewrite map_map. apply map_ext. intros p. apply patch_id. }
  split; cbn [pages next_page]; [by rewrite Hidmap|].
  rewrite Forall_forall in Hids |- *.
  intros p Hp. change (map ?f ?l) with (f <$> l) in Hp.
  apply list_elem_of_fmap in Hp as (q & -> & Hq).
  rewrite patch_id. by apply Hids.
Qed.

(** The three ways an upsert can end on a well-formed database. *)
Lemma upsert_store_cases
    (db : string) (clock : Clock) (agent repo : string) (issue : Z) (pr : option Z)
    (meeting_date summary : string) (s : Store) :
  well_formed s ->
  let did := uuid.str (digest128 agent repo issue meeting_date) in
  let props := format_properties clock did agent repo issue pr meeting_date summary in
  let out := upsert db clock agent repo issue pr meeting_date summary s in
  (exists e fs, out = (inl e, mkStore (pages s) (next_page s) fs))
  \/ (exists fs,
        out = (inr (mkResult "created" (fresh_id (next_page s)) did),
               mkStore (pages s ++ [mkPage (fresh_id (next_page s)) db props])
                 (S (next_page s)) fs))
  \/ (exists fs p0,
        p0 ∈ pages s /\ matches db "Task ID" did p0 = true
        /\ out = (inr (mkResult "updated" (id p0) did),
                  mkStore (map (patch (id p0) props) (pages s)) (next_page s) fs)).
Proof.
  intros Hwf did props out.
  assert (out = upsert db clock agent repo issue pr meeting_date summary s) as Hout
    by reflexivity.
  clearbody out. unfold upsert in Hout.
  rewrite generate_deterministic_id_eq in Hout. fold did in Hout. fold props in Hout.
  clearbody did.
  unfold Eff.bind at 1, Eff.lift, Py.ret in Hout. unfold Eff.bind at 1 in Hout.
  destruct (search_existing_page_store db did s) as (r & fs1 & Hs & Hr).
  rewrite Hs in Hout.
  destruct Hr as [->|(p0 & -> & Hin & Hmatch)].
  - cbn [Py.truthy_opt] in Hout. unfold Eff.bind, Eff.ret in Hout.
    destruct (create_page_store db clock did agent repo issue pr meeting_date summary
                (mkStore (pages s) (next_page s) fs1)) as [(e & fs2 & Hc)|(fs2 & Hc)];
      rewrite Hc in Hout; cbn [pages next_page] in Hout.
    + left. eexists _, _. exact Hout.
    + right. left. eexists. exact Hout.
  - assert (Py.truthy (id p0) = true) as Htruthy.
    { destruct Hwf as [_ Hids]. rewrite Forall_forall in Hids.
      destruct (Hids p0 Hin) as (m & _ & ->). reflexivity. }
    cbn [Py.truthy_opt default from_option Datatypes.id] in Hout. rewrite Htruthy in Hout.
    unfold Eff.bind, Eff.ret in Hout.
    destruct (update_page_store clock (id p0) did agent repo issue pr meeting_date summary
                (mkStore (pages s) (next_page s) fs1)) as [(e & fs2 & Hu)|(fs2 & Hu)];
      rewrite Hu in Hout; cbn [pages next_page] in Hout.
    + left. eexists _, _. exact Hout.
    + right. right. eexists _, p0. split; [done|]. split; [done|]. exact Hout.
Qed.

(** X10: whatever calls fail, an upsert leaves the database well formed,
    removes no record and leaves every record of another task, and every
    page other than the one it reports, exactly as it was; the page ids
    in storage order are kept, with at most one new
    page after them, and when the upsert raises it has changed no record
    at all. *)
Theorem upsert_touches_only_its_record
    (db : string) (clock : Clock) (agent repo : string) (issue : Z) (pr : option Z)
    (meeting_date summary : string) (s : Store) :
  well_formed s ->
  let did := uuid.str (digest128 agent repo issue meeting_date) in
  let out := upsert db clock agent repo issue pr meeting_date summary s in
  well_formed out.2
  /\ (forall p, p ∈ pages s -> matches db "Task ID" did p = false -> p ∈ pages out.2)
  /\ (forall p r, p ∈ pages s -> out.1 = inr r -> id p <> page_id r -> p ∈ pages out.2)
  /\ length (pages s) <= length (pages out.2) <= S (length (pages s))
  /\ map id (pages s) `prefix_of` map id (pages out.2)
  /\ (forall e, out.1 = inl e -> pages out.2 = pages s).
Proof.
  intros Hwf did out.
  destruct (upsert_store_cases db clock agent repo issue pr meeting_date summary s Hwf)
    as [(e & fs & Hout)|[(fs & Hout)|(fs & p0 & Hin & Hmatch & Hout)]];
    fold did in Hout; fold did in Hmatch || idtac; fold out in Hout; rewrite Hout;
    destruct s as [pg np fs0]; cbn [fst snd pages next_page] in *.
  - split; [by eapply well_formed_faults|].
    split; [done|]. split; [done|]. split; [lia|]. split; [done|]. done.
  - split; [by eapply well_formed_create|]. split; [|split; [|split; [|split]]].
    + intros p Hp _. apply elem_of_app. by left.
    + intros p r Hp _ _. apply elem_of_app. by left.
    + rewrite length_app. simpl. lia.
    + rewrite map_app. by apply prefix_app_r.
    + intros e [=].
  - split; [by eapply well_formed_patch|]. split; [|split; [|split; [|split]]].
    2: { intros p r Hp [= <-] Hne. cbn [page_id] in Hne.
         change (map ?f ?l) with (f <$> l).
         apply list_elem_of_fmap. exists p. split; [|done].
         symmetry. by apply patch_other. }
    + intros p Hp Hno. change (map ?f ?l) with (f <$> l).
      apply list_elem_of_fmap. exists p. split; [|done].
      symmetry. apply patch_other. intros Heq.
      assert (p = p0) as ->; [|congruence].
      destruct Hwf as [Hnd _]. cbn [pages] in Hnd.
      apply list_elem_of_lookup in Hp as [i Hi]. apply list_elem_of_lookup in Hin as [j Hj].
      assert (i = j) as ->; [|congruence].
      apply (NoDup_lookup (map id pg) i j (id p0)); [done|..];
        change (map id pg) with (id <$> pg);
        rewrite list_lookup_fmap; [by rewrite Hi; cbn; f_equal|by rewrite Hj].
    + rewrite length_map. lia.
    + assert (map id (map (patch (id p0)
                 (format_properties clock did agent repo issue pr meeting_date summary)) pg)
              = map id pg) as ->; [|done].
      rewrite map_map. apply map_ext. intros p. apply patch_id.
    + intros e [=].
Qed.

(** X11: an upsert either raises or returns; when it returns, whatever
    calls failed on the way, the page it reports is in the database, under the configured
    database, and carries every property formatted from the payload, the
    identifier among them; the result names the identifier and says
    "created" or "updated". *)
Theorem upsert_result_is_stored
    (db : string) (clock : Clock) (agent repo : string) (issue : Z) (pr : option Z)
    (meeting_date summary : string) (s : Store) :
  well_formed s ->
  let did := uuid.str (digest128 agent repo issue meeting_date) in
  let props := format_properties clock did agent repo issue pr meeting_date summary in
  let out := upsert db clock agent repo issue pr meeting_date summary s in
  (exists e, out.1 = inl e)
  \/ (exists r p,
        out.1 = inr r
        /\ deterministic_id r = did
        /\ (status r = "created" \/ status r = "updated")
        /\ p ∈ pages out.2 /\ id p = page_id r /\ parent p = db
        /\ matches db "Task ID" did p = true
        /\ forall k v, props !! k = Some v -> properties p !! k = Some v).
Proof.
  intros Hwf did props out.
  destruct (upsert_store_cases db clock agent repo issue pr meeting_date summary s Hwf)
    as [(e & fs & Hout)|[(fs & Hout)|(fs & p0 & Hin & Hmatch & Hout)]];
    fold did in Hout; fold did in Hmatch || idtac; fold props in Hout; fold out in Hout;
    rewrite Hout; cbn [fst snd pages].
  - left. by exists e.
  - right. eexists _, (mkPage (fresh_id (next_page s)) db props).
    split; [reflexivity|]. cbn [deterministic_id status page_id id parent properties].
    split; [done|]. split; [by left|].
    split; [apply elem_of_app; right; by apply list_elem_of_singleton|].
    split; [done|]. split; [done|]. split; [|done].
    unfold matches. cbn [parent properties]. rewrite String.eqb_refl.
    unfold props. rewrite format_properties_task_id. by rewrite bool_decide_eq_true_2.
  - right. eexists _, (patch (id p0) props p0).
    split; [reflexivity|]. cbn [deterministic_id status page_id].
    split; [done|]. split; [by right|].
    assert (parent p0 = db) as Hparent.
    { unfold matches in Hmatch. apply andb_true_iff in Hmatch as [Hp _].
      by apply String.eqb_eq in Hp. }
    split; [change (map ?f ?l) with (f <$> l); by apply list_elem_of_fmap_2|].
    split; [apply patch_id|].
    unfold patch at 1 3. rewrite String.eqb_refl. cbn [parent properties].
    split; [done|]. split.
    + apply matches_patched; [apply format_properties_task_id|done..].
    + intros k v Hk. by apply lookup_union_Some_l.
Qed.

Lemma upsert_touches_only_its_record_witness :
  let s := mkStore [mkPage (fresh_id 0) "db1" {[ "Task ID" := rich_text "another-task" ]}]
             1 [true; false] in
  let did := uuid.str (digest128 "A-01" "PR-CYBR-AGENT-01" 123 "2025-01-15") in
  let out := upsert "db1" demo_clock "A-01" "PR-CYBR-AGENT-01" 123 None "2025-01-15"
               "Summary" s in
  well_formed out.2
  /\ (forall p, p ∈ pages s -> matches "db1" "Task ID" did p = false -> p ∈ pages out.2)
  /\ (forall p r, p ∈ pages s -> out.1 = inr r -> id p <> page_id r -> p ∈ pages out.2)
  /\ length (pages s) <= length (pages out.2) <= S (length (pages s))
  /\ map id (pages s) `prefix_of` map id (pages out.2)
  /\ (forall e, out.1 = inl e -> pages out.2 = pages s).
Proof.
  intros s.
  apply (upsert_touches_only_its_record "db1" demo_clock "A-01" "PR-CYBR-AGENT-01" 123 None
           "2025-01-15" "Summary" s).
  split; [apply NoDup_singleton|].
  constructor; [exists 0; split; [simpl; lia|reflexivity]|constructor].
Defined.

Lemma upsert_result_is_stored_witness :
  let s := mkStore [mkPage (fresh_id 0) "db1" {[ "Task ID" := rich_text "another-task" ]}]
             1 [true; false] in
  let did := uuid.str (digest128 "A-01" "PR-CYBR-AGENT-01" 123 "2025-01-15") in
  let props := format_properties demo_clock did "A-01" "PR-CYBR-AGENT-01" 123 None
                 "2025-01-15" "Summary" in
  let out := upsert "db1" demo_clock "A-01" "PR-CYBR-AGENT-01" 123 None "2025-01-15"
               "Summary" s in
  (exists e, out.1 = inl e)
  \/ (exists r p,
        out.1 = inr r
        /\ deterministic_id r = did
        /\ (status r = "created" \/ status r = "updated")
        /\ p ∈ pages out.2 /\ id p = page_id r /\ parent p = "db1"
        /\ matches "db1" "Task ID" did p = true
        /\ forall k v, props !! k = Some v -> properties p !! k = Some v).
Proof.
  intros s.
  apply (upsert_result_is_stored "db1" demo_clock "A-01" "PR-CYBR-AGENT-01" 123 None
           "2025-01-15" "Summary" s).
  split; [apply NoDup_singleton|].
  constructor; [exists 0; split; [simpl; lia|reflexivity]|constructor].
Defined.

End StoreFaults.
(** ** Issue creation: results, requests and reruns *)

Section IssueResults.

Import create_issues.

Context {G : Type} `{!Session G}.

Variable org : string.
Variable mapping : gmap string string.
Variable now : string.

(** What one task's result looks like, by the outcome of the repository
    lookup. *)
Lemma process_task_shape (task : Task) (g : G) :
  let r := (process_task org mapping now task g).1 in
  r_task_id r = task_id task
  /\ match get_repository_name mapping (agent task) (repo task) with
     | inl e =>
         process_task org mapping now task g
         = (mkTaskResult (task_id task) "error" None None (Some (Py.str_exn e)), g)
     | inr rp =>
         (r_status r = "created" /\ is_Some (r_issue_number r)
          /\ r_repo r = Some rp /\ r_error r = None)
         \/ (r_status r = "updated" /\ truthy_int (r_issue_number r) = true
             /\ r_repo r = Some rp /\ r_error r = None)
         \/ (r_status r = "error" /\ r_issue_number r = None
             /\ r_repo r = None /\ is_Some (r_error r))
     end.
Proof.
  cbv zeta. destruct (process_task org mapping now task g) as [r g'] eqn:Hrun.
  cbn [fst]. unfold process_task in Hrun.
  destruct (get_repository_name mapping (agent task) (repo task)) as [e|rp] eqn:Hrepo.
  { unfold Eff.lift, Eff.bind in Hrun. by injection Hrun as <- <-. }
  unfold Eff.lift in Hrun. unfold Eff.bind at 1 in Hrun. unfold Eff.bind at 1 in Hrun.
  destruct (search_issue_by_task_id org rp (task_id task) g) as [[e|existing] g1].
  { injection Hrun as <- <-. split; [done|]. right. right. done. }
  destruct (truthy_int existing) eqn:Hexisting.
  - unfold Eff.bind, Eff.ret in Hrun.
    destruct (update_issue org now rp (default 0%Z existing) task g1) as [[e|[]] g2];
      injection Hrun as <- <-; (split; [done|]).
    + right. right. done.
    + right. left. done.
  - unfold Eff.bind, Eff.ret in Hrun.
    destruct (create_issue org rp task g1) as [[e|n] g2];
      injection Hrun as <- <-; (split; [done|]).
    + right. right. done.
    + left. done.
Qed.

Lemma process_all_app (tasks : list Task) (acc : list TaskResult) (g : G) :
  (process_all org mapping now tasks acc g).1
  = acc ++ (process_all org mapping now tasks [] g).1.
Proof.
  revert acc g. induction tasks as [|task rest IH]; intros acc g; cbn [process_all].
  - simpl. by rewrite app_nil_r.
  - destruct (process_task org mapping now task g) as [r g'].
    rewrite (IH (acc ++ [r])), (IH ([] ++ [r])). by rewrite <- app_assoc.
Qed.

(** X12: the run gives one result per task, in task order and under the
    task's id.  A task whose agent resolves to no repository gets the
    status "error" with the message of the lookup and neither issue
    number nor repository; any other task is "created" or "updated" with
    an issue number and the resolved repository, or "error" with a
    message and nothing else. *)
Theorem process_all_results (tasks : list Task) (g : G) :
  Forall2
    (fun task r =>
       r_task_id r = task_id task
       /\ match get_repository_name mapping (agent task) (repo task) with
          | inl e =>
              r_status r = "error" /\ r_error r = Some (Py.str_exn e)
              /\ r_issue_number r = None /\ r_repo r = None
          | inr rp =>
              (r_status r = "created" /\ is_Some (r_issue_number r)
               /\ r_repo r = Some rp /\ r_error r = None)
              \/ (r_status r = "updated" /\ truthy_int (r_issue_number r) = true
                  /\ r_repo r = Some rp /\ r_error r = None)
              \/ (r_status r = "error" /\ r_issue_number r = None
                  /\ r_repo r = None /\ is_Some (r_error r))
          end)
    tasks (process_all org mapping now tasks [] g).1.
Proof.
  revert g. induction tasks as [|task rest IH]; intros g; cbn [process_all].
  - constructor.
  - pose proof (process_task_shape task g) as Hshape.
    destruct (process_task org mapping now task g) as [r g'] eqn:Hrun.
    rewrite process_all_app. cbn [app fst] in *. constructor; [|apply IH].
    destruct Hshape as [Hid Hshape]. split; [exact Hid|].
    destruct (get_repository_name mapping (agent task) (repo task)); [|exact Hshape].
    injection Hshape as -> _. done.
Qed.

(** X13: a task whose agent is not in the mapping and that names no
    repository of its own is answered with an error result without any
    request being made. *)
Theorem unknown_agent_makes_no_request (task : Task) (g : G) :
  mapping !! agent task = None ->
  Py.truthy_opt (repo task) = false ->
  process_task org mapping now task g
  = (mkTaskResult (task_id task) "error" None None
       (Some ("Unknown agent ID: " +:+ agent task)), g).
Proof.
  intros Hmap Hrepo.
  pose proof (process_task_shape task g) as [_ Hshape].
  unfold get_repository_name in Hshape. rewrite Hmap, Hrepo in Hshape. exact Hshape.
Qed.

End IssueResults.

Lemma unknown_agent_makes_no_request_witness :
  let task := create_issues.mkTask "standup_TASK_002" "A-99" None "Patch the router"
                "TODO: patch the router" "medium" "enhancement" [] false in
  create_issues.process_task "PR-CYBR" create_issues.demo_mapping "2025-01-16 09:00:00 UTC"
    task (create_issues.mkTracker [] [])
  = (create_issues.mkTaskResult "standup_TASK_002" "error" None None
       (Some ("Unknown agent ID: " +:+ "A-99")), create_issues.mkTracker [] []).
Proof.
  intros task.
  apply (unknown_agent_makes_no_request "PR-CYBR" create_issues.demo_mapping
           "2025-01-16 09:00:00 UTC" task (create_issues.mkTracker [] []));
    reflexivity.
Defined.
(** ** Splitting, joining and searching strings *)

Section SplitFacts.

Lemma split_nonempty sep s : Py.split sep s <> [].
Proof.
  induction s as [|c s IH]; simpl; [done|].
  destruct (Ascii.eqb c sep); [done|]. by destruct (Py.split sep s).
Qed.

Lemma split_no_sep sep s :
  Py.all_chars (fun c => negb (Ascii.eqb c sep)) s = true -> Py.split sep s = [s].
Proof.
  induction s as [|c s IH]; simpl; [done|].
  intros [Hc Hs]%andb_true_iff. apply negb_true_iff in Hc. rewrite Hc, IH by done. done.
Qed.

(** The fields of [a], the separator, the fields of [b]. *)
Lemma split_app sep a b :
  Py.split sep (a +:+ String sep b) = Py.split sep a ++ Py.split sep b.
Proof.
  induction a as [|c a IH].
  - rewrite append_nil_l. simpl. by rewrite Ascii.eqb_refl.
  - rewrite append_cons. simpl. destruct (Ascii.eqb c sep); rewrite IH; [done|].
    pose proof (split_nonempty sep a). by destruct (Py.split sep a).
Qed.

Lemma join_split sep s : Py.join (String sep "") (Py.split sep s) = s.
Proof.
  induction s as [|c s IH]; [done|]. simpl.
  pose proof (split_nonempty sep s) as Hne.
  destruct (Ascii.eqb_spec c sep) as [->|Hc].
  - destruct (Py.split sep s) as [|w ws]; [done|].
    change (Py.join (String sep "") ("" :: w :: ws))
      with ("" +:+ String sep "" +:+ Py.join (String sep "") (w :: ws)).
    by rewrite IH.
  - destruct (Py.split sep s) as [|w [|w2 ws]]; [done|..].
    + simpl in *. by rewrite IH.
    + change (Py.join (String sep "") (String c w :: w2 :: ws))
        with (String c w +:+ String sep "" +:+ Py.join (String sep "") (w2 :: ws)).
      rewrite append_cons. f_equal. exact IH.
Qed.

Lemma startswith_app p s : Py.startswith p (p +:+ s) = true.
Proof.
  induction p as [|c p IH]; [done|]. rewrite append_cons. simpl.
  by rewrite Ascii.eqb_refl, IH.
Qed.

Lemma contains_app_l needle s : Py.contains needle (needle +:+ s) = true.
Proof.
  destruct (needle +:+ s) eqn:Heq; simpl.
  - destruct needle; [done|discriminate].
  - rewrite <- Heq at 1. by rewrite startswith_app.
Qed.

Lemma contains_app_r needle a hay :
  Py.contains needle hay = true -> Py.contains needle (a +:+ hay) = true.
Proof.
  intros Hc. induction a as [|c a IH]; [done|].
  rewrite append_cons. simpl. rewrite IH. apply orb_true_r.
Qed.

End SplitFacts.
(** ** Issue creation on the in-memory tracker *)

Section TrackerReruns.

Import create_issues.

Lemma query_shape (org rp tid : string) :
  "repo:" +:+ org +:+ "/" +:+ rp +:+ " " +:+ tid +:+ " in:title"
  = ("repo:" +:+ org +:+ "/" +:+ rp) +:+ String " " (tid +:+ String " " "in:title").
Proof. rewrite !append_assoc. reflexivity. Qed.

Lemma query_head_no_space (org rp : string) :
  Py.all_chars (fun c => negb (Ascii.eqb c " ")) org = true ->
  Py.all_chars (fun c => negb (Ascii.eqb c " ")) rp = true ->
  Py.all_chars (fun c => negb (Ascii.eqb c " ")) ("repo:" +:+ org +:+ "/" +:+ rp) = true.
Proof. intros Horg Hrp. rewrite !all_chars_app, Horg, Hrp. reflexivity. Qed.

(** The tracker reads the repository and the text back from the query the
    script sends. *)
Lemma query_repo_eq (org rp tid : string) :
  Py.all_chars (fun c => negb (Ascii.eqb c " ")) org = true ->
  Py.all_chars (fun c => negb (Ascii.eqb c " ")) rp = true ->
  Py.all_chars (fun c => negb (Ascii.eqb c "/")) rp = true ->
  query_repo ("repo:" +:+ org +:+ "/" +:+ rp +:+ " " +:+ tid +:+ " in:title") = rp.
Proof.
  intros Horg Hrp Hslash. unfold query_repo.
  rewrite query_shape, split_app, (split_no_sep " ") by by apply query_head_no_space.
  cbn [app hd].
  assert ("repo:" +:+ org +:+ "/" +:+ rp = ("repo:" +:+ org) +:+ String "/" rp) as ->
    by (rewrite !append_assoc; reflexivity).
  rewrite split_app, (split_no_sep "/" rp) by done. apply last_last.
Qed.

Lemma query_text_eq (org rp tid : string) :
  Py.all_chars (fun c => negb (Ascii.eqb c " ")) org = true ->
  Py.all_chars (fun c => negb (Ascii.eqb c " ")) rp = true ->
  query_text ("repo:" +:+ org +:+ "/" +:+ rp +:+ " " +:+ tid +:+ " in:title") = tid.
Proof.
  intros Horg Hrp. unfold query_text.
  rewrite query_shape, split_app, (split_no_sep " ") by by apply query_head_no_space.
  cbn [app tl]. rewrite split_app. change (Py.split " " "in:title") with ["in:title"].
  rewrite removelast_last. apply (join_split " ").
Qed.

Lemma filter_none {A} (P : A -> Prop) `{!forall x, Decision (P x)} (l : list A) :
  Forall (fun x => ~ P x) l -> filter P l = [].
Proof.
  induction 1 as [|x l Hx _ IH]; [done|]. rewrite filter_cons, decide_False by done. exact IH.
Qed.

Lemma filter_fmap_iff {A} (P : A -> Prop) `{!forall x, Decision (P x)} (f : A -> A)
    (l : list A) :
  (forall x, P (f x) <-> P x) -> filter P (f <$> l) = f <$> filter P l.
Proof.
  intros Hiff. induction l as [|x l IH]; [done|].
  rewrite fmap_cons, !filter_cons, IH.
  destruct (decide (P x)) as [Hx|Hx].
  - rewrite decide_True by (by apply Hiff). done.
  - rewrite decide_False by (by rewrite Hiff). done.
Qed.

Variable org : string.
Variable mapping : gmap string string.

Hypothesis org_no_space : Py.all_chars (fun c => negb (Ascii.eqb c " ")) org = true.

(** The search on a tracker whose requests succeed: the number of the
    first issue of the repository with the task id in its title. *)
Lemma search_issue_tracker (rp tid : string) (t : Tracker) :
  faults t = [] ->
  Py.all_chars (fun c => negb (Ascii.eqb c " ")) rp = true ->
  Py.all_chars (fun c => negb (Ascii.eqb c "/")) rp = true ->
  search_issue_by_task_id org rp tid t
  = (inr (head (map i_number
                  (filter (fun i => i_repo i = rp /\ Py.contains tid (i_title i) = true)
                     (issues t)))), t).
Proof.
  intros Hf Hrp Hslash.
  unfold search_issue_by_task_id, Eff.try_except, Eff.bind, Eff.ret.
  cbn [search_issues tracker_session]. unfold tracker_search, tick. rewrite Hf.
  rewrite query_repo_eq, query_text_eq by done.
  by destruct (filter _ (issues t)).
Qed.

(** X14: on a tracker whose requests succeed and that has no issue for
    the task yet, processing a task twice files one issue: the first run
    creates it under the next number of the repository, with the task id
    in brackets at the head of the title; the second run finds that issue
    and updates it, and afterwards it is the only issue of the repository
    with the task id in its title. *)
Theorem process_task_twice (now1 now2 : string) (task : Task) (rp : string) (t : Tracker) :
  faults t = [] ->
  get_repository_name mapping (agent task) (repo task) = Py.ret rp ->
  Py.all_chars (fun c => negb (Ascii.eqb c " ")) rp = true ->
  Py.all_chars (fun c => negb (Ascii.eqb c "/")) rp = true ->
  Forall (fun i => ~ (i_repo i = rp /\ Py.contains (task_id task) (i_title i) = true))
    (issues t) ->
  let run1 := process_task org mapping now1 task t in
  let run2 := process_task org mapping now2 task run1.2 in
  let n := next_number rp t in
  run1.1 = mkTaskResult (task_id task) "created" (Some n) (Some rp) None
  /\ run2.1 = mkTaskResult (task_id task) "updated" (Some n) (Some rp) None
  /\ length (issues run2.2) = S (length (issues t))
  /\ exists issue,
       filter (fun i => i_repo i = rp /\ Py.contains (task_id task) (i_title i) = true)
         (issues run2.2) = [issue]
       /\ i_number issue = n
       /\ i_title issue = "[" +:+ task_id task +:+ "] " +:+ title task
       /\ i_labels issue = labels task.
Proof.
  intros Hf Hrepo Hrp Hslash Hnone run1 run2 n.
  set (P := fun i => i_repo i = rp /\ Py.contains (task_id task) (i_title i) = true) in *.
  pose proof (filter_none P (issues t) Hnone) as Hfilter.
  set (title1 := "[" +:+ task_id task +:+ "] " +:+ title task).
  assert (exists body1,
            run1 = (mkTaskResult (task_id task) "created" (Some n) (Some rp) None,
                    mkTracker (issues t ++ [mkIssue rp n title1 body1 (labels task)]) []))
    as [body1 Hrun1].
  { unfold run1, process_task. rewrite Hrepo.
    unfold Eff.lift, Py.ret. unfold Eff.bind at 1. unfold Eff.bind at 1.
    rewrite search_issue_tracker by done. fold P. rewrite Hfilter.
    cbn [map head truthy_int]. unfold Eff.bind, Eff.ret, create_issue.
    cbn [post_issue tracker_session]. unfold tracker_post, tick. rewrite Hf.
    cbn [p_title p_body p_labels default from_option Datatypes.id faults issues].
    rewrite Hf. eexists. reflexivity. }
  set (new := mkIssue rp n title1 body1 (labels task)) in *.
  assert (P new) as Hnew.
  { split; [done|]. cbn [i_title]. unfold title1.
    apply (contains_app_r _ "["), contains_app_l. }
  assert (0 <= Z.of_nat (length (filter (fun i => i_repo i = rp) (issues t))))%Z as Hn by lia.
  assert (truthy_int (Some n) = true) as Htruthy.
  { cbn [truthy_int]. unfold n, next_number. apply negb_true_iff, Z.eqb_neq. lia. }
  set (patchf body2 := fun i : Issue =>
         if bool_decide (i_repo i = rp /\ i_number i = n)
         then mkIssue rp n (i_title i) body2 (labels task) else i).
  assert (exists body2,
            run2 = (mkTaskResult (task_id task) "updated" (Some n) (Some rp) None,
                    mkTracker (patchf body2 <$> (issues t ++ [new])) []))
    as [body2 Hrun2].
  { unfold run2. rewrite Hrun1. cbn [snd]. unfold process_task. rewrite Hrepo.
    unfold Eff.lift, Py.ret. unfold Eff.bind at 1. unfold Eff.bind at 1.
    rewrite search_issue_tracker by done. fold P. cbn [issues].
    rewrite filter_app, Hfilter, filter_cons, decide_True, filter_nil by exact Hnew.
    cbn [app map head i_number new]. rewrite Htruthy.
    unfold Eff.bind, Eff.ret, update_issue.
    cbn [patch_issue tracker_session default from_option Datatypes.id].
    unfold tracker_patch, tick.
    cbn [p_title p_body p_labels faults issues]. eexists. reflexivity. }
  rewrite Hrun1, Hrun2. cbn [fst snd issues].
  split; [done|]. split; [done|]. split.
  { rewrite length_fmap, length_app. simpl. lia. }
  assert (forall i, P (patchf body2 i) <-> P i) as Hiff.
  { intros i. unfold patchf. case_bool_decide as Hi; [|done].
    unfold P. cbn [i_repo i_title]. destruct Hi as [-> _]. done. }
  exists (mkIssue rp n title1 body2 (labels task)).
  rewrite (filter_fmap_iff P) by exact Hiff.
  rewrite filter_app, Hfilter, filter_cons, decide_True, filter_nil by exact Hnew.
  cbn [app fmap list_fmap]. unfold patchf at 1. cbn [new i_repo i_number i_title].
  rewrite bool_decide_eq_true_2 by done. done.
Qed.

End TrackerReruns.

Lemma process_task_twice_witness :
  let t := create_issues.mkTracker
             [create_issues.mkIssue "PR-CYBR-AGENT-01" 1 "[standup_TASK_000] Older task"
                "body" []] [] in
  let run1 := create_issues.process_task "PR-CYBR" create_issues.demo_mapping
                "2025-01-16 09:00:00 UTC" create_issues.demo_task t in
  let run2 := create_issues.process_task "PR-CYBR" create_issues.demo_mapping
                "2025-01-17 09:00:00 UTC" create_issues.demo_task run1.2 in
  let n := create_issues.next_number "PR-CYBR-AGENT-01" t in
  run1.1 = create_issues.mkTaskResult "standup_TASK_001" "created" (Some n)
             (Some "PR-CYBR-AGENT-01") None
  /\ run2.1 = create_issues.mkTaskResult "standup_TASK_001" "updated" (Some n)
                (Some "PR-CYBR-AGENT-01") None
  /\ length (create_issues.issues run2.2) = S (length (create_issues.issues t))
  /\ exists issue,
       filter (fun i => create_issues.i_repo i = "PR-CYBR-AGENT-01"
                        /\ Py.contains "standup_TASK_001" (create_issues.i_title i) = true)
         (create_issues.issues run2.2) = [issue]
       /\ create_issues.i_number issue = n
       /\ create_issues.i_title issue = "[" +:+ "standup_TASK_001" +:+ "] " +:+ "Rotate the keys"
       /\ create_issues.i_labels issue = ["automation/codex"; "meeting/standup"].
Proof.
  intros t.
  apply (process_task_twice "PR-CYBR" create_issues.demo_mapping eq_refl
           "2025-01-16 09:00:00 UTC" "2025-01-17 09:00:00 UTC" create_issues.demo_task
           "PR-CYBR-AGENT-01" t).
  - reflexivity.
  - reflexivity.
  - reflexivity.
  - reflexivity.
  - constructor; [|constructor]. intros [_ Hc]. vm_compute in Hc. discriminate Hc.
Defined.
(** ** Episode downloads *)

Section EpisodeDownloads.

Import sync_notion.

Variable slugify : string -> string.
Variable md5_hex8 : string -> string.
Variable now : string.

(** Every episode handed to the downloader has a title and a file URL. *)
Lemma _parse_episode_valid page ep :
  _parse_episode page = Some ep ->
  Py.truthy (title ep) = true /\ Py.truthy (file_url ep) = true
  /\ notion_id ep = rp_id page /\ rp_release_date page <> NullDate
  /\ episode_number ep = rp_episode_number page.
Proof.
  unfold _parse_episode. intros Hparse.
  destruct (rp_release_date page) as [| |[start|]]; [|discriminate|..];
    (destruct (Py.truthy (concat_text (rp_title page))) eqn:Ht; [|discriminate]);
    (destruct (rp_file_url page) as [u|]; [|discriminate]);
    cbn [Py.truthy_opt negb orb] in Hparse;
    (destruct (Py.truthy u) eqn:Hu; [|discriminate]);
    injection Hparse as <-; cbn [title file_url notion_id episode_number default from_option];
    done.
Qed.

(** X15: the list of live episodes holds only pages with a title and a
    file URL (and without a null release date), in the order of the query
    result; a failed query is raised again, so that the sync stops before
    any download and the script exits with code 1. *)
Theorem get_live_episodes_valid (token database_id : string) (w : World) :
  Py.truthy token = true -> Py.truthy database_id = true ->
  match live_query w with
  | inl e =>
      get_live_episodes w = (inl e, w)
      /\ sync slugify md5_hex8 now w = (inl e, w)
      /\ main slugify md5_hex8 now (Some token) (Some database_id) w = (1%Z, w)
  | inr pages =>
      exists episodes,
        get_live_episodes w = (inr episodes, w)
        /\ map notion_id episodes `sublist_of` map rp_id pages
        /\ Forall (fun ep => Py.truthy (title ep) = true /\ Py.truthy (file_url ep) = true)
             episodes
  end.
Proof.
  intros Htoken Hdb.
  unfold main, sync, Eff.bind, get_live_episodes, Eff.try_except, Eff.bind, databases_query.
  cbn [Py.truthy_opt]. rewrite Htoken, Hdb. cbn [negb].
  destruct (live_query w) as [e|pages]; [done|].
  eexists. split; [reflexivity|]. split.
  - clear. induction pages as [|page pages IH]; [done|]. cbn [omap list_omap map].
    destruct (_parse_episode page) as [ep|] eqn:Hparse.
    + apply _parse_episode_valid in Hparse as (_ & _ & <- & _).
      cbn [map]. by apply sublist_skip.
    + by apply sublist_cons.
  - apply Forall_forall. intros ep Hep.
    apply list_elem_of_omap in Hep as (page & _ & Hparse).
    apply _parse_episode_valid in Hparse as (? & ? & _). done.
Qed.

(** A failed write removes no file. *)
Lemma after_fault_dom name fault (fs : gmap string FileContent) :
  dom fs ⊆ dom (after_fault name fault fs).
Proof.
  unfold after_fault. destruct (wf_left fault); [apply dom_insert_subseteq|done].
Qed.

Lemma after_fault_lookup_ne name other fault (fs : gmap string FileContent) :
  other <> name -> after_fault name fault fs !! other = fs !! other.
Proof.
  intros Hne. unfold after_fault. destruct (wf_left fault); [|done].
  by rewrite lookup_insert_ne.
Qed.

(** The retry loop: what it consumes, how long it sleeps and what it
    writes.  [attempt + n] is at most [MAX_RETRIES]. *)
Lemma attempts_spec ep base n attempt w :
  attempt + n <= MAX_RETRIES ->
  exists r w' used,
    attempts now ep base n attempt w = (r, w')
    /\ live_query w' = live_query w
    /\ http w = used ++ http w'
    /\ length used <= n
    /\ slept w <= slept w' <= slept w + RETRY_DELAY * (MAX_RETRIES - 1 - attempt)
    /\ (http w = [] -> r = inr false)
    /\ match r with
       | inr true =>
           exists failed response,
             used = failed ++ [inr response]
             /\ status_ok response = true
             /\ slept w' = slept w + RETRY_DELAY * length failed
             /\ Forall (fun outcome => outcome = None) (take 2 (writes w))
             /\ writes w' = drop 2 (writes w)
             /\ files w'
                = <[base +:+ "-metadata.json" := Metadata ep now (length (content response))]>
                    (<[base +:+ ".mp3" := Mp3 (content response)]> (files w))
       | inr false => files w' = files w /\ writes w' = writes w
       | inl e =>
           Py.is_request_exception e = false
           /\ ((files w' = files w /\ writes w' = writes w)
               \/ (exists fault rest,
                     writes w = Some fault :: rest /\ writes w' = rest
                     /\ e = Py.OSError (wf_msg fault)
                     /\ files w' = after_fault (base +:+ ".mp3") fault (files w))
               \/ (exists response fault rest,
                     inr response ∈ used /\ status_ok response = true
                     /\ writes w = None :: Some fault :: rest /\ writes w' = rest
                     /\ e = Py.OSError (wf_msg fault)
                     /\ files w'
                        = after_fault (base +:+ "-metadata.json") fault
                            (<[base +:+ ".mp3" := Mp3 (content response)]> (files w))))
       end.
Proof.
  unfold MAX_RETRIES, RETRY_DELAY.
  revert attempt w. induction n as [|n IH]; intros attempt w Hle.
  { exists (inr false), w, []. cbn [attempts Eff.ret app length].
    repeat split; try done; lia. }
  cbn [attempts]. unfold Eff.try_except.
  (* the handler, from a world [w1] that differs from [w] by the response
     the failed attempt consumed *)
  assert (forall w1 first,
            live_query w1 = live_query w -> http w = first ++ http w1 ->
            length first <= 1 -> (first = [] -> http w1 = []) ->
            files w1 = files w -> slept w1 = slept w -> writes w1 = writes w ->
            exists r w' used,
              (if Nat.ltb attempt (3 - 1)
               then _ <- sleep 5 ;; attempts now ep base n (S attempt)
               else Eff.ret false) w1 = (r, w')
              /\ live_query w' = live_query w
              /\ http w = used ++ http w'
              /\ length used <= S n
              /\ slept w <= slept w' <= slept w + 5 * (3 - 1 - attempt)
              /\ (http w = [] -> r = inr false)
              /\ match r with
              | inr true =>
                  exists failed response,
                    used = failed ++ [inr response]
                    /\ status_ok response = true
                    /\ slept w' = slept w + 5 * length failed
                    /\ Forall (fun outcome => outcome = None) (take 2 (writes w))
                    /\ writes w' = drop 2 (writes w)
                    /\ files w'
                       = <[base +:+ "-metadata.json" := Metadata ep now (length (content response))]>
                           (<[base +:+ ".mp3" := Mp3 (content response)]> (files w))
              | inr false => files w' = files w /\ writes w' = writes w
              | inl e =>
                  Py.is_request_exception e = false
                  /\ ((files w' = files w /\ writes w' = writes w)
                      \/ (exists fault rest,
                            writes w = Some fault :: rest /\ writes w' = rest
                            /\ e = Py.OSError (wf_msg fault)
                            /\ files w' = after_fault (base +:+ ".mp3") fault (files w))
                      \/ (exists response fault rest,
                            inr response ∈ used /\ status_ok response = true
                            /\ writes w = None :: Some fault :: rest /\ writes w' = rest
                            /\ e = Py.OSError (wf_msg fault)
                            /\ files w'
                               = after_fault (base +:+ "-metadata.json") fault
                                   (<[base +:+ ".mp3" := Mp3 (content response)]> (files w))))
              end) as Hhandler.
  { intros w1 first Hq Hhttp Hfirst Hempty Hfiles Hslept Hwrites.
    destruct (Nat.ltb_spec attempt (3 - 1)) as [Hlt|Hge].
    - unfold Eff.bind at 1, sleep.
      destruct (IH (S attempt)
                  (mkWorld (live_query w1) (http w1) (files w1) (slept w1 + 5) (writes w1))
                  ltac:(lia))
        as (r & w' & used & Hrun & Hq' & Hhttp' & Hused & Hslept' & Hnone & Hr).
      cbn [live_query http files slept writes] in *.
      exists r, w', (first ++ used). rewrite Hrun.
      split; [done|]. split; [congruence|].
      split; [by rewrite <- app_assoc, <- Hhttp'|].
      split; [rewrite length_app; lia|]. split; [lia|].
      split.
      { intros Hw. rewrite Hw in Hhttp. symmetry in Hhttp.
        apply app_eq_nil in Hhttp as [_ Hw1]. by apply Hnone. }
      rewrite Hfiles, Hwrites in Hr.
      destruct r as [e|[]].
      + destruct Hr as [He Hr]. split; [done|].
        destruct Hr as [Hr|[Hr|(response & fault & rest & Hin & Hr)]];
          [by left|by right; left|].
        right. right. exists response, fault, rest. split; [|done].
        apply elem_of_app. by right.
      + destruct Hr as (failed & response & -> & Hok & Hs & Hf).
        destruct first as [|x [|y first]]; [|clear Hempty|simpl in Hfirst; lia].
        { specialize (Hnone (Hempty eq_refl)). discriminate Hnone. }
        exists ([x] ++ failed), response.
        split; [by rewrite app_assoc|]. split; [done|].
        split; [rewrite length_app; cbn [length]; unfold Py.result in *; lia|].
        done.
      + done.
    - exists (inr false), w1, first. unfold Eff.ret.
      split; [done|]. split; [done|]. split; [done|].
      split; [lia|]. split; [lia|]. done. }
  unfold Eff.bind at 1, requests_get.
  destruct (http w) as [|resp rest] eqn:Hw.
  { cbn [Py.is_request_exception]. apply (Hhandler w []); try done. simpl. lia. }
  set (w1 := mkWorld (live_query w) rest (files w) (slept w) (writes w)).
  destruct resp as [e|response].
  - destruct (Py.is_request_exception e) eqn:He.
    + apply (Hhandler w1 [inl e]); try done.
    + exists (inl e), w1, [inl e]. split; [done|]. split; [done|]. split; [done|].
      split; [simpl; lia|]. split; [simpl; lia|]. split; [done|]. split; [done|].
      by left.
  - unfold Eff.bind at 1, raise_for_status.
    destruct (status_ok response) eqn:Hok.
    + unfold Eff.bind, Eff.ret, write_file. cbn [live_query http files slept writes w1].
      destruct (writes w) as [|[fault|] later] eqn:Hwr;
        cbn [live_query http files slept writes Py.is_request_exception].
      * eexists (inr true), _, [inr response]. split; [reflexivity|].
        cbn [live_query http files slept writes]. split; [done|]. split; [done|].
        split; [simpl; lia|]. split; [lia|]. split; [done|].
        exists [], response. split; [done|]. split; [done|]. split; [simpl; lia|].
        split; [constructor|]. done.
      * eexists (inl _), _, [inr response]. split; [reflexivity|].
        cbn [live_query http files slept writes]. split; [done|]. split; [done|].
        split; [simpl; lia|]. split; [lia|]. split; [done|]. split; [done|].
        right. left. by exists fault, later.
      * destruct later as [|[fault|] later];
          cbn [live_query http files slept writes Py.is_request_exception].
        -- eexists (inr true), _, [inr response]. split; [reflexivity|].
           cbn [live_query http files slept writes]. split; [done|]. split; [done|].
           split; [simpl; lia|]. split; [lia|]. split; [done|].
           exists [], response. split; [done|]. split; [done|]. split; [simpl; lia|].
           split; [by repeat constructor|]. done.
        -- eexists (inl _), _, [inr response]. split; [reflexivity|].
           cbn [live_query http files slept writes]. split; [done|]. split; [done|].
           split; [simpl; lia|]. split; [lia|]. split; [done|]. split; [done|].
           right. right. exists response, fault, later.
           split; [apply list_elem_of_singleton; done|]. done.
        -- eexists (inr true), _, [inr response]. split; [reflexivity|].
           cbn [live_query http files slept writes]. split; [done|]. split; [done|].
           split; [simpl; lia|]. split; [lia|]. split; [done|].
           exists [], response. split; [done|]. split; [done|]. split; [simpl; lia|].
           split; [by repeat constructor|]. done.
    + unfold Eff.raise. cbn [Py.is_request_exception].
      apply (Hhandler w1 [inr response]); try done.
Qed.

(** The download of one episode. *)
Lemma download_episode_spec ep w :
  let base := _get_episode_filename slugify md5_hex8 ep in
  exists r w' used,
    download_episode slugify md5_hex8 now ep w = (r, w')
    /\ live_query w' = live_query w
    /\ http w = used ++ http w'
    /\ length used <= MAX_RETRIES
    /\ slept w <= slept w' <= slept w + RETRY_DELAY * (MAX_RETRIES - 1)
    /\ (is_Some (files w !! (base +:+ ".mp3")) -> r = inr false /\ w' = w)
    /\ (r <> inr false -> files w !! (base +:+ ".mp3") = None)
    /\ match r with
       | inr true =>
           exists failed response,
             used = failed ++ [inr response]
             /\ status_ok response = true
             /\ slept w' = slept w + RETRY_DELAY * length failed
             /\ Forall (fun outcome => outcome = None) (take 2 (writes w))
             /\ writes w' = drop 2 (writes w)
             /\ files w'
                = <[base +:+ "-metadata.json" := Metadata ep now (length (content response))]>
                    (<[base +:+ ".mp3" := Mp3 (content response)]> (files w))
       | inr false => files w' = files w /\ writes w' = writes w
       | inl e =>
           Py.is_request_exception e = false
           /\ ((files w' = files w /\ writes w' = writes w)
               \/ (exists fault rest,
                     writes w = Some fault :: rest /\ writes w' = rest
                     /\ e = Py.OSError (wf_msg fault)
                     /\ files w' = after_fault (base +:+ ".mp3") fault (files w))
               \/ (exists response fault rest,
                     inr response ∈ used /\ status_ok response = true
                     /\ writes w = None :: Some fault :: rest /\ writes w' = rest
                     /\ e = Py.OSError (wf_msg fault)
                     /\ files w'
                        = after_fault (base +:+ "-metadata.json") fault
                            (<[base +:+ ".mp3" := Mp3 (content response)]> (files w))))
       end.
Proof.
  intros base. unfold download_episode, Eff.bind at 1, _file_exists. fold base.
  case_bool_decide as Hex.
  - exists (inr false), w, []. unfold Eff.ret, MAX_RETRIES.
    repeat split; try done; simpl; lia.
  - destruct (attempts_spec ep base MAX_RETRIES 0 w ltac:(lia))
      as (r & w' & used & Hrun & Hq & Hhttp & Hused & Hslept & _ & Hr).
    exists r, w', used. rewrite Nat.sub_0_r in Hslept.
    split; [done|]. split; [done|]. split; [done|]. split; [done|]. split; [done|].
    split; [done|]. split; [|done]. intros _. by apply eq_None_not_Some.
Qed.

(** What a download does to the episodes directory, whatever its outcome:
    no file is removed, and only the episode's two files can change. *)
Lemma download_episode_frame ep w :
  let base := _get_episode_filename slugify md5_hex8 ep in
  let out := download_episode slugify md5_hex8 now ep w in
  dom (files w) ⊆ dom (files out.2)
  /\ forall name, name <> base +:+ ".mp3" -> name <> base +:+ "-metadata.json" ->
       files out.2 !! name = files w !! name.
Proof.
  intros base out.
  destruct (download_episode_spec ep w)
    as (r & w' & used & Hrun & _ & _ & _ & _ & _ & _ & Hr).
  fold base in Hr. fold out in Hrun. rewrite Hrun. cbn [snd].
  destruct r as [e|[]].
  - destruct Hr as [_ [[-> _]|[(fault & rest & _ & _ & _ & ->)
                             |(response & fault & rest & _ & _ & _ & _ & _ & ->)]]].
    + done.
    + split; [apply after_fault_dom|]. intros name Hmp3 _. by apply after_fault_lookup_ne.
    + split.
      * etrans; [|apply after_fault_dom]. apply dom_insert_subseteq.
      * intros name Hmp3 Hmeta. rewrite after_fault_lookup_ne by done.
        by rewrite lookup_insert_ne.
  - destruct Hr as (failed & response & _ & _ & _ & _ & _ & ->). split.
    + etrans; [|apply dom_insert_subseteq]. apply dom_insert_subseteq.
    + intros name Hmp3 Hmeta. by rewrite !lookup_insert_ne.
  - destruct Hr as [-> _]. done.
Qed.

(** X16: a download makes at most three requests and sleeps at most ten
    seconds, five after each failed attempt that is followed by another.
    It removes no file and touches only the episode's MP3 file and its
    metadata file.  When the MP3 file is there already it answers [False]
    at once; when it answers [False] the episodes directory is as it was.
    It answers [True] only after a response with a good status, with both
    writes done: the MP3 file and its metadata file are written and
    nothing else.  It raises only what is not a request exception: an
    unexpected error of the request, with the directory as it was, or the
    [OSError] of a write; when the write of the MP3 file fails the
    directory holds at most what that write left, and when the write of
    the metadata fails the MP3 file stays on disk without its metadata.
    When every write succeeds, every outcome but [True] leaves the
    directory as it was. *)
Theorem download_episode_outcome (ep : Episode) (w : World) :
  let base := _get_episode_filename slugify md5_hex8 ep in
  let out := download_episode slugify md5_hex8 now ep w in
  (exists used, http w = used ++ http out.2 /\ length used <= 3)
  /\ slept w <= slept out.2 <= slept w + 10
  /\ dom (files w) ⊆ dom (files out.2)
  /\ (forall name, name <> base +:+ ".mp3" -> name <> base +:+ "-metadata.json" ->
        files out.2 !! name = files w !! name)
  /\ (is_Some (files w !! (base +:+ ".mp3")) -> out = (inr false, w))
  /\ (out.1 = inr false -> files out.2 = files w /\ writes out.2 = writes w)
  /\ (out.1 = inr true ->
      files w !! (base +:+ ".mp3") = None
      /\ Forall (fun outcome => outcome = None) (take 2 (writes w))
      /\ writes out.2 = drop 2 (writes w)
      /\ exists failed response,
           http w = failed ++ inr response :: http out.2
           /\ status_ok response = true
           /\ slept out.2 = slept w + 5 * length failed
           /\ files out.2
              = <[base +:+ "-metadata.json" := Metadata ep now (length (content response))]>
                  (<[base +:+ ".mp3" := Mp3 (content response)]> (files w)))
  /\ (forall e, out.1 = inl e ->
        Py.is_request_exception e = false
        /\ files w !! (base +:+ ".mp3") = None
        /\ ((files out.2 = files w /\ writes out.2 = writes w)
            \/ (exists fault rest,
                  writes w = Some fault :: rest /\ writes out.2 = rest
                  /\ e = Py.OSError (wf_msg fault)
                  /\ files out.2 = after_fault (base +:+ ".mp3") fault (files w))
            \/ (exists response fault rest,
                  inr response ∈ http w /\ status_ok response = true
                  /\ writes w = None :: Some fault :: rest /\ writes out.2 = rest
                  /\ e = Py.OSError (wf_msg fault)
                  /\ files out.2
                     = after_fault (base +:+ "-metadata.json") fault
                         (<[base +:+ ".mp3" := Mp3 (content response)]> (files w)))))
  /\ (writes_succeed w -> out.1 <> inr true -> files out.2 = files w).
Proof.
  intros base out.
  destruct (download_episode_frame ep w) as [Hdom Hframe].
  fold base in Hframe. fold out in Hdom, Hframe.
  destruct (download_episode_spec ep w)
    as (r & w' & used & Hrun & Hq & Hhttp & Hused & Hslept & Hskip & Hnone & Hr).
  fold base in Hskip, Hnone, Hr. fold out in Hrun.
  clearbody out. subst out. cbn [fst snd] in *.
  unfold MAX_RETRIES, RETRY_DELAY in *.
  split; [by exists used|]. split; [simpl in Hslept; lia|].
  split; [done|]. split; [done|].
  split; [by intros [-> ->]%Hskip|].
  split; [by intros ->|]. split; [|split].
  - intros ->. destruct Hr as (failed & response & -> & Hok & Hs & Hall & Hwr & Hf).
    split; [by apply Hnone|]. split; [done|]. split; [done|]. exists failed, response.
    split; [by rewrite Hhttp, <- app_assoc|]. done.
  - intros e ->. destruct Hr as [He Hr]. split; [done|]. split; [by apply Hnone|].
    destruct Hr as [Hr|[Hr|(response & fault & rest & Hin & Hr)]];
      [by left|by right; left|].
    right. right. exists response, fault, rest. split; [|done].
    rewrite Hhttp. apply elem_of_app. by left.
  - intros Hsucceed Hne. unfold writes_succeed in Hsucceed.
    destruct r as [e|[]]; [|done|by destruct Hr].
    destruct Hr as [_ [[Hf _]|[(fault & rest & Hwr & _)
                              |(response & fault & rest & _ & _ & Hwr & _)]]];
      [done| |]; rewrite Hwr in Hsucceed.
    + apply Forall_cons in Hsucceed as [Hbad _]. discriminate Hbad.
    + apply Forall_cons in Hsucceed as [_ Hsucceed].
      apply Forall_cons in Hsucceed as [Hbad _]. discriminate Hbad.
Qed.

(** X17: after a successful download the same episode is skipped: a
    second call answers [False] without a request and changes nothing. *)
Theorem download_twice_skips (ep : Episode) (w w' : World) :
  download_episode slugify md5_hex8 now ep w = (inr true, w') ->
  download_episode slugify md5_hex8 now ep w' = (inr false, w').
Proof.
  intros Hrun.
  destruct (download_episode_spec ep w)
    as (r & w1 & used & Hrun1 & _ & _ & _ & _ & _ & _ & Hr).
  rewrite Hrun in Hrun1. injection Hrun1 as <- <-.
  destruct Hr as (failed & response & _ & _ & _ & _ & _ & Hfiles).
  destruct (download_episode_spec ep w')
    as (r2 & w2 & used2 & Hrun2 & _ & _ & _ & _ & Hskip & _).
  rewrite Hrun2. destruct Hskip as [-> ->]; [|done].
  rewrite Hfiles.
  destruct (decide (_get_episode_filename slugify md5_hex8 ep +:+ "-metadata.json"
                    = _get_episode_filename slugify md5_hex8 ep +:+ ".mp3")) as [Heq|Hne].
  - rewrite Heq, lookup_insert_eq. by eexists.
  - rewrite lookup_insert_ne, lookup_insert_eq by done. by eexists.
Qed.

(** The loop over the episodes. *)
Lemma download_all_spec episodes count w :
  exists r w',
    download_all slugify md5_hex8 now episodes count w = (r, w')
    /\ dom (files w) ⊆ dom (files w')
    /\ slept w' <= slept w + 10 * length episodes
    /\ length (http w') <= length (http w) <= length (http w') + 3 * length episodes
    /\ forall total, r = inr total ->
         count <= total <= count + length episodes
         /\ total - count <= length (http w) - length (http w').
Proof.
  revert count w. induction episodes as [|ep rest IH]; intros count w.
  { exists (inr count), w. cbn [download_all Eff.ret length]. split; [done|].
    split; [done|]. split; [lia|]. split; [lia|]. intros total [= <-]. lia. }
  cbn [download_all]. unfold Eff.bind at 1.
  destruct (download_episode_spec ep w)
    as (r & w1 & used & Hrun & _ & Hhttp & Hused & Hslept & _ & _ & Hr).
  assert (dom (files w) ⊆ dom (files w1)) as Hdom.
  { pose proof (download_episode_frame ep w) as [Hdom _]. by rewrite Hrun in Hdom. }
  rewrite Hrun. unfold MAX_RETRIES, RETRY_DELAY in *. simpl in Hslept.
  assert (length (http w) = length used + length (http w1)) as Hlen
    by (by rewrite Hhttp, length_app).
  destruct r as [e|ok].
  { exists (inl e), w1. split; [done|]. split; [done|].
    cbn [length]. split; [lia|]. split; [lia|]. intros total [=]. }
  destruct (IH (if ok then count + 1 else count) w1)
    as (r2 & w2 & Hrun2 & Hdom2 & Hslept2 & Hhttp2 & Htotal).
  exists r2, w2. split; [done|]. split; [by etrans|].
  cbn [length]. split; [lia|]. split; [lia|].
  intros total Hr2. destruct (Htotal total Hr2) as [Hcount Hreq].
  destruct ok; [|lia].
  destruct Hr as (failed & response & Hu & _).
  rewrite Hu, length_app in Hlen. simpl in Hlen. unfold Py.result in *. lia.
Qed.

(** X18: a sync removes no file from the episodes directory; the count it
    returns is at most the number of live pages and at most the number of
    responses it consumed; it makes at most three requests and sleeps at
    most ten seconds per page. *)
Theorem sync_bounds (w : World) (pages : list RawPage) :
  live_query w = inr pages ->
  let out := sync slugify md5_hex8 now w in
  dom (files w) ⊆ dom (files out.2)
  /\ slept out.2 <= slept w + 10 * length pages
  /\ length (http out.2) <= length (http w) <= length (http out.2) + 3 * length pages
  /\ forall total, out.1 = inr total ->
       total <= length pages
       /\ total <= length (http w) - length (http out.2).
Proof.
  intros Hquery out. unfold out, sync, Eff.bind at 1.
  unfold get_live_episodes, Eff.try_except, Eff.bind, databases_query, Eff.ret.
  rewrite Hquery.
  destruct (download_all_spec (omap (_parse_episode) pages) 0 w)
    as (r & w' & Hrun & Hdom & Hslept & Hhttp & Htotal).
  rewrite Hrun. cbn [fst snd].
  assert (length (omap _parse_episode pages) <= length pages) as Hlen.
  { clear. induction pages as [|page pages IH]; [done|]. cbn [omap list_omap].
    destruct (_parse_episode page); simpl in *; lia. }
  split; [done|]. split; [lia|]. split; [lia|].
  intros total ->. destruct (Htotal total eq_refl). lia.
Qed.

End EpisodeDownloads.

(** A metadata write that fails after a good response: [OSError] escapes
    the retry loop, the MP3 file stays on disk without its metadata, and
    the script exits with code 1. *)
Example failed_metadata_write_leaves_mp3 :
  let ep := sync_notion.mkEpisode "page-7" "Zero Trust" "https://cdn.example/zero-trust.mp3"
              "2025-01-15" (Some 7%Z) "Pilot episode" in
  let w := sync_notion.mkWorld (inr [sync_notion.demo_page])
             [inr (sync_notion.mkResponse true "audio/mpeg" [73; 68; 51]%Z)] ∅ 0
             [None; Some (sync_notion.mkWriteFault "No space left on device" None)] in
  let out := sync_notion.download_episode (fun t => t) (fun t => "0a1b2c3d")
               "2025-01-16T09:00:00" ep w in
  out.1 = inl (Py.OSError "No space left on device")
  /\ sync_notion.files out.2 !! "episode-007-Zero Trust.mp3"
     = Some (sync_notion.Mp3 [73; 68; 51]%Z)
  /\ sync_notion.files out.2 !! "episode-007-Zero Trust-metadata.json" = None
  /\ (sync_notion.main (fun t => t) (fun t => "0a1b2c3d") "2025-01-16T09:00:00"
        (Some "secret_token") (Some "db1") w).1 = 1%Z.
Proof. vm_compute. done. Qed.

Lemma get_live_episodes_valid_witness :
  match sync_notion.live_query sync_notion.demo_world with
  | inl e =>
      sync_notion.get_live_episodes sync_notion.demo_world = (inl e, sync_notion.demo_world)
      /\ sync_notion.sync (fun t => t) (fun t => "0a1b2c3d") "2025-01-16T09:00:00" sync_notion.demo_world
         = (inl e, sync_notion.demo_world)
      /\ sync_notion.main (fun t => t) (fun t => "0a1b2c3d") "2025-01-16T09:00:00"
           (Some "secret_token") (Some "db1") sync_notion.demo_world = (1%Z, sync_notion.demo_world)
  | inr pages =>
      exists episodes,
        sync_notion.get_live_episodes sync_notion.demo_world = (inr episodes, sync_notion.demo_world)
        /\ map sync_notion.notion_id episodes `sublist_of` map sync_notion.rp_id pages
        /\ Forall (fun ep => Py.truthy (sync_notion.title ep) = true /\ Py.truthy (sync_notion.file_url ep) = true)
             episodes
  end.
Proof.
  apply (get_live_episodes_valid (fun t => t) (fun t => "0a1b2c3d") "2025-01-16T09:00:00"
           "secret_token" "db1" sync_notion.demo_world); reflexivity.
Defined.

Lemma download_twice_skips_witness :
  let ep := sync_notion.mkEpisode "page-7" "Zero Trust" "https://cdn.example/zero-trust.mp3"
              "2025-01-15" (Some 7%Z) "Pilot episode" in
  let w := sync_notion.mkWorld (inr [])
             [inl (Py.RequestException "timeout");
              inr (sync_notion.mkResponse true "audio/mpeg" [73; 68; 51]%Z)] ∅ 0 [] in
  let w' := (sync_notion.download_episode (fun t => t) (fun t => "0a1b2c3d")
               "2025-01-16T09:00:00" ep w).2 in
  sync_notion.download_episode (fun t => t) (fun t => "0a1b2c3d") "2025-01-16T09:00:00" ep w'
  = (inr false, w').
Proof.
  intros ep w w'.
  apply (download_twice_skips (fun t => t) (fun t => "0a1b2c3d") "2025-01-16T09:00:00" ep w w').
  vm_compute. reflexivity.
Defined.

Lemma sync_bounds_witness :
  let out := sync_notion.sync (fun t => t) (fun t => "0a1b2c3d") "2025-01-16T09:00:00"
               sync_notion.demo_world in
  dom (sync_notion.files sync_notion.demo_world) ⊆ dom (sync_notion.files out.2)
  /\ sync_notion.slept out.2
     <= sync_notion.slept sync_notion.demo_world + 10 * length [sync_notion.demo_page]
  /\ length (sync_notion.http out.2) <= length (sync_notion.http sync_notion.demo_world)
     <= length (sync_notion.http out.2) + 3 * length [sync_notion.demo_page]
  /\ forall total, out.1 = inr total ->
       total <= length [sync_notion.demo_page]
       /\ total <= length (sync_notion.http sync_notion.demo_world)
                   - length (sync_notion.http out.2).
Proof.
  apply (sync_bounds (fun t => t) (fun t => "0a1b2c3d") "2025-01-16T09:00:00"
           sync_notion.demo_world [sync_notion.demo_page]).
  reflexivity.
Defined.
(** ** The enrichment steps one by one *)

Section RetrofitSteps.

Import sync_notion_enhanced.

(** The payload of each property type. *)
Lemma payload_cases (value : Value) (property_type : string) :
  (property_type = "rich_text" /\ payload value property_type = Some (rich_text (str_of value)))
  \/ (property_type = "url" /\ payload value property_type = Some (url (str_of value)))
  \/ (property_type = "number" /\ payload value property_type = Some (number value))
  \/ (property_type <> "rich_text" /\ property_type <> "url" /\ property_type <> "number"
      /\ payload value property_type = None).
Proof.
  unfold payload.
  destruct (String.eqb_spec property_type "rich_text") as [->|Hrich]; [by left|].
  destruct (String.eqb_spec property_type "url") as [->|Hurl]; [by right; left|].
  destruct (String.eqb_spec property_type "number") as [->|Hnumber]; [by right; right; left|].
  by right; right; right.
Qed.

(** The one call [update_notion_property] makes, if it makes one, and its
    answer. *)
Lemma update_notion_property_eq (page_id property_name : string)
    (value : Value) (property_type : string) (w : World) :
  update_notion_property page_id property_name value property_type w
  = match payload value property_type with
    | Some properties =>
        let ok := match faults w with true :: _ => false | _ => true end in
        (inr ok,
         mkWorld (updates w ++ (if ok then [mkUpdate page_id property_name properties] else []))
           (tl (faults w)) (docs w) (sources w) (overviews w) (prompt_files w))
    | None => (inr false, w)
    end.
Proof.
  unfold update_notion_property, Eff.try_except.
  destruct (payload value property_type) as [properties|]; [|reflexivity].
  unfold Eff.bind, Eff.ret, pages_update.
  destruct (faults w) as [|[] fs]; cbn [Eff.any_exception tl]; by rewrite ?app_nil_r.
Qed.

(** The calls of the pipeline: a string sent as a URL. *)
Lemma update_notion_property_url (page_id property_name u : string) (w : World) :
  let ok := match faults w with true :: _ => false | _ => true end in
  update_notion_property page_id property_name (str_value u) "url" w
  = (inr ok,
     mkWorld (updates w ++ (if ok then [mkUpdate page_id property_name (url u)] else []))
       (tl (faults w)) (docs w) (sources w) (overviews w) (prompt_files w)).
Proof. by rewrite update_notion_property_eq. Qed.

(** X19: [update_notion_property] never raises.  For the property types
    "rich_text", "url" and "number" it makes one update call, with the
    text of the value as rich text or as URL, or with the value itself as
    number: it answers [True] when the call was accepted, and then exactly
    that update has been appended to the accepted ones; it answers [False]
    when the call failed, and then the accepted updates are as before.
    For every other property type it answers [False] without making a
    call, and nothing changes.  In no case does it touch documents,
    notebooks or prompt files. *)
Theorem update_notion_property_outcome (page_id property_name : string)
    (value : Value) (property_type : string) (w : World) :
  exists ok w',
    update_notion_property page_id property_name value property_type w = (inr ok, w')
    /\ docs w' = docs w /\ sources w' = sources w /\ overviews w' = overviews w
    /\ prompt_files w' = prompt_files w
    /\ ((exists properties,
           (property_type = "rich_text" /\ properties = rich_text (str_of value)
            \/ property_type = "url" /\ properties = url (str_of value)
            \/ property_type = "number" /\ properties = number value)
           /\ updates w'
              = updates w ++ (if ok then [mkUpdate page_id property_name properties] else [])
           /\ faults w' = tl (faults w)
           /\ (ok = false <-> exists fs, faults w = true :: fs))
        \/ (property_type <> "rich_text" /\ property_type <> "url"
            /\ property_type <> "number" /\ ok = false /\ w' = w)).
Proof.
  rewrite update_notion_property_eq.
  assert ((match faults w with true :: _ => false | _ => true end) = false
          <-> exists fs, faults w = true :: fs) as Hfault.
  { destruct (faults w) as [|[] fs]; split; try done; try (by eexists);
      by intros [? [=]]. }
  destruct (payload_cases value property_type)
    as [[Htype ->]|[[Htype ->]|[[Htype ->]|(Hrich & Hurl & Hnumber & ->)]]].
  - eexists _, _. split; [reflexivity|].
    cbn [updates faults docs sources overviews prompt_files]. do 4 (split; [done|]).
    left. exists (rich_text (str_of value)). split; [by left|]. split; [done|].
    split; [done|]. exact Hfault.
  - eexists _, _. split; [reflexivity|].
    cbn [updates faults docs sources overviews prompt_files]. do 4 (split; [done|]).
    left. exists (url (str_of value)). split; [by right; left|]. split; [done|].
    split; [done|]. exact Hfault.
  - eexists _, _. split; [reflexivity|].
    cbn [updates faults docs sources overviews prompt_files]. do 4 (split; [done|]).
    left. exists (number value). split; [by right; right|]. split; [done|].
    split; [done|]. exact Hfault.
  - exists false, w. split; [reflexivity|]. do 4 (split; [done|]). by right.
Qed.

Lemma returns_ret {A} (a : A) : returns (Eff.ret a).
Proof. intros w. by eexists _, _. Qed.

Lemma returns_bind {A B} (m : Eff.M World A) (k : A -> Eff.M World B) :
  returns m -> (forall a, returns (k a)) -> returns (x <- m ;; k x).
Proof.
  intros Hm Hk w. unfold Eff.bind. destruct (Hm w) as (a & w1 & ->). apply Hk.
Qed.

Lemma returns_update_notion_property page_id property_name value property_type :
  returns (update_notion_property page_id property_name value property_type).
Proof.
  intros w. rewrite update_notion_property_eq.
  destruct (payload value property_type); by eexists _, _.
Qed.

Lemma returns_when cond step : (cond = true -> returns step) -> returns (when cond step).
Proof.
  intros Hstep. unfold when. destruct cond; [|apply returns_ret].
  apply returns_bind; [by apply Hstep|intros; apply returns_ret].
Qed.

Section WithSync.

Variable py_hash : string -> Z.
Variable google_drive : bool.
Variable notebook_lm : bool.

Lemma returns_create_google_doc title content :
  returns (create_google_doc py_hash title content).
Proof. intros w. by eexists _, _. Qed.

Lemma returns_process_prompt_input ep :
  Py.truthy (prompt_input ep) = true ->
  returns (process_prompt_input py_hash google_drive ep).
Proof.
  intros Hprompt. unfold process_prompt_input. rewrite Hprompt. cbn [negb].
  destruct (negb google_drive); [apply returns_ret|].
  apply returns_bind; [apply returns_ret|]. intros [text|]; [|apply returns_ret].
  apply returns_bind; [apply returns_create_google_doc|]. intros doc_url.
  apply returns_bind; [apply returns_update_notion_property|]. intros; apply returns_ret.
Qed.

Lemma returns_process_notebooklm_integration ep :
  notebook_lm = false \/ is_Some (season ep) ->
  returns (process_notebooklm_integration py_hash notebook_lm ep).
Proof.
  intros Hok. unfold process_notebooklm_integration.
  destruct (negb notebook_lm || negb (Py.truthy_opt (script_doc_link ep))) eqn:Hskip;
    [apply returns_ret|].
  destruct Hok as [->|[s Hs]]; [done|]. rewrite Hs. cbn [fmt_number].
  apply returns_bind; [intros w; by eexists _, _|]. intros s'.
  apply returns_bind; [intros w; by eexists _, _|]. intros _.
  apply returns_bind; [intros w; by eexists _, _|]. intros audio_url.
  apply returns_bind; [apply returns_update_notion_property|]. intros; apply returns_ret.
Qed.

Lemma returns_process_audio_metadata ep : returns (process_audio_metadata ep).
Proof.
  unfold process_audio_metadata. destruct (negb _); [apply returns_ret|].
  apply returns_bind; [apply returns_update_notion_property|]. intros; apply returns_ret.
Qed.

Lemma returns_generate_and_upload_show_notes ep :
  returns (generate_and_upload_show_notes py_hash google_drive ep).
Proof.
  unfold generate_and_upload_show_notes. destruct (negb google_drive); [apply returns_ret|].
  apply returns_bind; [apply returns_create_google_doc|]. intros doc_url.
  apply returns_bind; [apply returns_update_notion_property|]. intros; apply returns_ret.
Qed.

(** X20: [retrofit_episode] answers [False] in one situation only: the
    episode has a script link and no audio link, NotebookLM is enabled,
    and the episode has no season number, so that the notebook name
    cannot be formatted.  Nothing has been changed when that happens; no
    failed update call and no missing input makes it answer [False]. *)
Theorem retrofit_fails_only_without_season (ep : Episode) (w : World) :
  let out := retrofit_episode py_hash google_drive notebook_lm ep w in
  (out.1 = false
   <-> notebook_lm = true /\ Py.truthy_opt (script_doc_link ep) = true
       /\ Py.truthy_opt (track_cloud ep) = false /\ season ep = None)
  /\ (out.1 = false -> out.2 = w).
Proof.
  intros out.
  destruct (decide (notebook_lm = true /\ Py.truthy_opt (script_doc_link ep) = true
                    /\ Py.truthy_opt (track_cloud ep) = false /\ season ep = None))
    as [(Hnb & Hscript & Htrack & Hseason)|Hok].
  - assert (out = (false, w)) as ->; [|done].
    unfold out, retrofit_episode, when, process_notebooklm_integration.
    rewrite Hnb, Hscript, Htrack, Hseason. rewrite andb_false_r. cbn [negb andb orb].
    reflexivity.
  - assert (out.1 = true) as Htrue; [|rewrite Htrue; split; [split|]; done].
    unfold out, retrofit_episode.
    match goal with
    | |- (match ?body w with _ => _ end).1 = _ =>
        assert (returns body) as Hret; [|by destruct (Hret w) as (a & w' & ->)]
    end.
    apply returns_bind; [|intros _; apply returns_bind; [|intros _; apply returns_bind]].
    + apply returns_when. intros [Hprompt _]%andb_true_iff.
      by apply returns_process_prompt_input.
    + apply returns_when. intros [Hscript Htrack%negb_true_iff]%andb_true_iff.
      apply returns_process_notebooklm_integration.
      destruct notebook_lm; [|by left]. right.
      destruct (season ep) as [s|] eqn:Hs; [by eexists|]. by destruct Hok.
    + apply returns_when. intros _. apply returns_process_audio_metadata.
    + intros _. apply returns_when. intros _. apply returns_generate_and_upload_show_notes.
Qed.

(** X21: for an episode that has neither a script link nor an audio
    link a run is the prompt step alone.  With a prompt and the drive
    enabled it creates the script document from the prompt and records
    its URL (unless that update call fails); otherwise it does nothing.
    No notebook source or audio overview is added in that run, no local
    prompt file is read, and the answer is [True] in every case. *)
Theorem retrofit_prompt_stage (ep : Episode) (w : World) :
  Py.truthy_opt (script_doc_link ep) = false ->
  Py.truthy_opt (track_cloud ep) = false ->
  retrofit_episode py_hash google_drive notebook_lm ep w
  = (true,
     if Py.truthy (prompt_input ep) && google_drive then
       mkWorld
         (updates w
          ++ (if match faults w with true :: _ => false | _ => true end
              then [mkUpdate (notion_id ep) "Script-Doc-Link"
                      (url ("https://docs.google.com/document/d/doc_"
                            +:+ hash4 py_hash (code_name ep +:+ " - Script") +:+ "/edit"))]
              else []))
         (tl (faults w))
         (docs w ++ [(code_name ep +:+ " - Script", prompt_input ep)])
         (sources w) (overviews w) (prompt_files w)
     else w).
Proof.
  intros Hscript Htrack. unfold retrofit_episode, when.
  rewrite Hscript, Htrack. cbn [negb andb]. rewrite andb_true_r.
  destruct (Py.truthy (prompt_input ep)) eqn:Hprompt; cbn [andb]; [|reflexivity].
  unfold process_prompt_input. rewrite Hprompt. cbn [negb].
  destruct google_drive; cbn [negb]; [|reflexivity].
  unfold Eff.bind at 1. unfold Eff.bind at 1. unfold Eff.bind at 1. unfold Eff.ret at 1.
  unfold Eff.bind at 1, create_google_doc.
  unfold Eff.bind at 1. rewrite update_notion_property_url.
  cbn [updates faults docs sources overviews prompt_files]. reflexivity.
Qed.

(** The last four digits of a hash hold no slash. *)
Lemma hash4_no_slash s :
  Py.all_chars (fun c => negb (Ascii.eqb c "/")) (hash4 py_hash s) = true.
Proof.
  unfold hash4, Py.fmt_0d_int.
  destruct (Z.ltb_spec (py_hash s mod 10000) 0) as [Hneg|_].
  { pose proof (Z.mod_pos_bound (py_hash s) 10000). lia. }
  unfold Py.fmt_0d. rewrite all_chars_app. apply andb_true_iff. split.
  - generalize (4 - String.length (Py.str_nat (Z.to_nat (py_hash s mod 10000)))).
    intros k. induction k as [|k IH]; [done|]. simpl. exact IH.
  - apply (all_chars_impl Py.is_digit); [|apply str_nat_digits].
    intros c Hc. destruct (Ascii.eqb_spec c "/") as [->|]; [discriminate Hc|done].
Qed.

Lemma doc_id_of_doc_url (doc_id : string) :
  Py.all_chars (fun c => negb (Ascii.eqb c "/")) doc_id = true ->
  doc_id_of ("https://docs.google.com/document/d/" +:+ doc_id +:+ "/edit") = doc_id.
Proof.
  intros Hid. unfold doc_id_of.
  assert (Py.contains "/" ("https://docs.google.com/document/d/" +:+ doc_id +:+ "/edit") = true)
    as ->.
  { apply (contains_app_r "/" "https:" ("//docs.google.com/document/d/" +:+ doc_id +:+ "/edit")).
    apply (contains_app_l "/"). }
  assert ("https://docs.google.com/document/d/" +:+ doc_id +:+ "/edit"
          = ("https://docs.google.com/document/d" +:+ String "/" doc_id) +:+ String "/" "edit")
    as -> by (rewrite !append_assoc; reflexivity).
  rewrite split_app. change (Py.split "/" "edit") with ["edit"].
  rewrite removelast_last, split_app, (split_no_sep "/" doc_id) by done.
  apply last_last.
Qed.

(** X22: the document id that the NotebookLM step takes out of a script
    link is the id under which the drive created the document: for an
    episode whose script link is the URL returned by [create_google_doc],
    the step registers that document as a source of the season's
    notebook, requests the audio overview and records its URL. *)
Theorem notebook_source_is_created_doc (ep : Episode) (doc_title content : string)
    (s : Z) (w0 w : World) :
  notebook_lm = true ->
  (create_google_doc py_hash doc_title content w0).1 = inr (default "" (script_doc_link ep)) ->
  season ep = Some s ->
  let notebook_id := "notebook_S" +:+ Py.fmt_0d_int 2 s in
  let out := process_notebooklm_integration py_hash notebook_lm ep w in
  doc_id_of (default "" (script_doc_link ep)) = "doc_" +:+ hash4 py_hash doc_title
  /\ out.1 = inr true
  /\ sources out.2 = sources w ++ [(notebook_id, "doc_" +:+ hash4 py_hash doc_title)]
  /\ overviews out.2 = overviews w ++ [notebook_id]
  /\ docs out.2 = docs w
  /\ updates out.2
     = updates w
       ++ (if match faults w with true :: _ => false | _ => true end
           then [mkUpdate (notion_id ep) "Track-Cloud"
                   (url ("https://notebooklm.google.com/audio/audio_"
                         +:+ hash4 py_hash notebook_id +:+ ".mp3"))]
           else []).
Proof.
  intros Hnb Hdoc Hseason notebook_id out.
  unfold create_google_doc in Hdoc. cbn [fst] in Hdoc. injection Hdoc as Hlink.
  assert (doc_id_of (default "" (script_doc_link ep)) = "doc_" +:+ hash4 py_hash doc_title)
    as Hid.
  { rewrite <- Hlink.
    assert ("https://docs.google.com/document/d/doc_" +:+ hash4 py_hash doc_title +:+ "/edit"
            = "https://docs.google.com/document/d/"
              +:+ ("doc_" +:+ hash4 py_hash doc_title) +:+ "/edit") as ->
      by (rewrite !append_assoc; reflexivity).
    apply doc_id_of_doc_url. rewrite all_chars_app, hash4_no_slash. reflexivity. }
  split; [exact Hid|].
  assert (Py.truthy_opt (script_doc_link ep) = true) as Hscript.
  { destruct (script_doc_link ep) as [u|]; cbn [default from_option Datatypes.id] in Hlink;
      rewrite append_cons in Hlink; [by rewrite <- Hlink|discriminate Hlink]. }
  assert (out
          = (inr true,
             mkWorld
               (updates w
                ++ (if match faults w with true :: _ => false | _ => true end
                    then [mkUpdate (notion_id ep) "Track-Cloud"
                            (url ("https://notebooklm.google.com/audio/audio_"
                                  +:+ hash4 py_hash notebook_id +:+ ".mp3"))]
                    else []))
               (tl (faults w)) (docs w)
               (sources w ++ [(notebook_id, "doc_" +:+ hash4 py_hash doc_title)])
               (overviews w ++ [notebook_id]) (prompt_files w))) as ->; [|done].
  unfold out, process_notebooklm_integration.
  rewrite Hnb, Hscript, Hseason, Hid. cbn [negb orb fmt_number].
  unfold Eff.bind at 1, Eff.lift, Py.ret. fold notebook_id.
  unfold Eff.bind at 1, add_source_to_notebook.
  unfold Eff.bind at 1, generate_audio_overview.
  cbn [updates faults docs sources overviews prompt_files].
  unfold Eff.bind at 1. rewrite update_notion_property_url.
  cbn [Eff.ret fst snd updates faults docs sources overviews prompt_files]. done.
Qed.

End WithSync.

(** The loop over the seasons, in closed form. *)
Lemma season_ids_loop_eq environ seasons acc :
  season_ids_loop environ seasons acc
  = acc ++ omap (fun season =>
                   match environ !! ("PR_CYBR_P0D_S" +:+ Py.str_nat season +:+ "_DB_ID") with
                   | Some db_id => if Py.truthy db_id then Some (season, db_id) else None
                   | None => None
                   end) seasons.
Proof.
  revert acc. induction seasons as [|season rest IH]; intros acc; cbn [season_ids_loop].
  - simpl. by rewrite app_nil_r.
  - cbn [omap list_omap].
    destruct (environ !! _) as [db_id|]; cbn [Py.truthy_opt]; [|apply IH].
    destruct (Py.truthy db_id); [|apply IH].
    rewrite IH, <- app_assoc. done.
Qed.

(** X23: the season databases are looked up for the seasons 1 to 18, one
    more than the seventeen seasons of the schedule.  A season is listed,
    with the value of its variable, exactly when the variable is set to a
    non-empty string, and the seasons come in ascending order without
    repeats. *)
Theorem get_season_database_ids_spec (environ : gmap string string) :
  (forall season db_id,
     (season, db_id) ∈ get_season_database_ids environ
     <-> 1 <= season <= 18
         /\ environ !! ("PR_CYBR_P0D_S" +:+ Py.str_nat season +:+ "_DB_ID") = Some db_id
         /\ db_id <> "")
  /\ map fst (get_season_database_ids environ) `sublist_of` seq 1 18.
Proof.
  unfold get_season_database_ids. rewrite season_ids_loop_eq. cbn [app]. split.
  - intros season db_id. rewrite list_elem_of_omap. split.
    + intros (x & Hx%elem_of_seq & Hsome).
      destruct (environ !! _) as [v|] eqn:Hv; [|discriminate].
      destruct v as [|c v]; [discriminate|]. cbn [Py.truthy] in Hsome.
      injection Hsome as <- <-. split; [lia|]. done.
    + intros (Hrange & Hv & Hne). exists season. split; [apply elem_of_seq; lia|].
      rewrite Hv. by destruct db_id.
  - generalize (seq 1 18). intros l. induction l as [|x l IH]; [done|].
    cbn [omap list_omap].
    destruct (environ !! _) as [v|]; [|by apply sublist_cons].
    destruct (Py.truthy v); [|by apply sublist_cons].
    cbn [map fst]. by apply sublist_skip.
Qed.

End RetrofitSteps.

Lemma retrofit_prompt_stage_witness :
  let ep := sync_notion_enhanced.mkEpisode "page-7" "Zero Trust" (Some 1%Z) (Some 7%Z)
              "Not started" "P0D-S01-E007-AXIS-BARRIER" "Explain zero trust."
              None None "" None in
  let w := sync_notion_enhanced.mkWorld [] [true] [] [] [] ∅ in
  sync_notion_enhanced.retrofit_episode (fun _ => 4242%Z) true true ep w
  = (true,
     if Py.truthy (sync_notion_enhanced.prompt_input ep) && true then
       sync_notion_enhanced.mkWorld
         (sync_notion_enhanced.updates w
          ++ (if match sync_notion_enhanced.faults w with true :: _ => false | _ => true end
              then [sync_notion_enhanced.mkUpdate (sync_notion_enhanced.notion_id ep)
                      "Script-Doc-Link"
                      (sync_notion_enhanced.url
                         ("https://docs.google.com/document/d/doc_"
                          +:+ sync_notion_enhanced.hash4 (fun _ => 4242%Z)
                                (sync_notion_enhanced.code_name ep +:+ " - Script")
                          +:+ "/edit"))]
              else []))
         (tl (sync_notion_enhanced.faults w))
         (sync_notion_enhanced.docs w
          ++ [(sync_notion_enhanced.code_name ep +:+ " - Script",
               sync_notion_enhanced.prompt_input ep)])
         (sync_notion_enhanced.sources w) (sync_notion_enhanced.overviews w)
         (sync_notion_enhanced.prompt_files w)
     else w).
Proof.
  intros ep w.
  apply (retrofit_prompt_stage (fun _ => 4242%Z) true true ep w); reflexivity.
Defined.

Lemma notebook_source_is_created_doc_witness :
  let ep := sync_notion_enhanced.mkEpisode "page-7" "Zero Trust" (Some 1%Z) (Some 7%Z)
              "Not started" "P0D-S01-E007-AXIS-BARRIER" "Explain zero trust."
              (Some "https://docs.google.com/document/d/doc_4242/edit") None "" None in
  let w := sync_notion_enhanced.demo_world in
  let notebook_id := "notebook_S" +:+ Py.fmt_0d_int 2 1 in
  let out := sync_notion_enhanced.process_notebooklm_integration (fun _ => 4242%Z) true ep w in
  sync_notion_enhanced.doc_id_of (default "" (sync_notion_enhanced.script_doc_link ep))
  = "doc_" +:+ sync_notion_enhanced.hash4 (fun _ => 4242%Z) "P0D-S01-E007-AXIS-BARRIER - Script"
  /\ out.1 = inr true
  /\ sync_notion_enhanced.sources out.2
     = sync_notion_enhanced.sources w
       ++ [(notebook_id,
            "doc_" +:+ sync_notion_enhanced.hash4 (fun _ => 4242%Z)
                         "P0D-S01-E007-AXIS-BARRIER - Script")]
  /\ sync_notion_enhanced.overviews out.2 = sync_notion_enhanced.overviews w ++ [notebook_id]
  /\ sync_notion_enhanced.docs out.2 = sync_notion_enhanced.docs w
  /\ sync_notion_enhanced.updates out.2
     = sync_notion_enhanced.updates w
       ++ (if match sync_notion_enhanced.faults w with true :: _ => false | _ => true end
           then [sync_notion_enhanced.mkUpdate (sync_notion_enhanced.notion_id ep) "Track-Cloud"
                   (sync_notion_enhanced.url
                      ("https://notebooklm.google.com/audio/audio_"
                       +:+ sync_notion_enhanced.hash4 (fun _ => 4242%Z) notebook_id +:+ ".mp3"))]
           else []).
Proof.
  intros ep w.
  apply (notebook_source_is_created_doc (fun _ => 4242%Z) true ep
           "P0D-S01-E007-AXIS-BARRIER - Script" "Explain zero trust." 1
           sync_notion_enhanced.demo_world w);
    reflexivity.
Defined.
(** ** The printed form of the identifier *)

Section DeterministicIdFormat.

Import hashlib uuid notion_sync.
Local Open Scope Z_scope.

(** ['%0wx'] of the big-endian value of some bytes is their [hex()]. *)
Lemma hex_fixed_be_int bs :
  Forall is_byte bs -> hex_fixed (2 * length bs) (be_int bs) = hex bs.
Proof.
  induction 1 as [|b bs Hb Hbs IH]; [done|].
  cbn [length]. replace (2 * S (length bs))%nat with (S (S (2 * length bs))) by lia.
  set (k := (2 * length bs)%nat) in *.
  pose proof (be_int_range bs Hbs) as HR. rewrite be_int_cons.
  assert (256 ^ Z.of_nat (length bs) = 16 ^ Z.of_nat k) as ->.
  { unfold k. rewrite Nat2Z.inj_mul, Z.pow_mul_r by lia. done. }
  assert (256 ^ Z.of_nat (length bs) = 16 ^ Z.of_nat k) as HP.
  { unfold k. rewrite Nat2Z.inj_mul, Z.pow_mul_r by lia. done. }
  rewrite HP in HR.
  set (P := 16 ^ Z.of_nat k) in *. set (R := be_int bs) in *.
  assert (0 < P) as HPpos by (apply Z.pow_pos_nonneg; lia).
  unfold is_byte in Hb.
  cbn [hex_fixed hex]. fold P.
  assert (16 ^ Z.of_nat (S k) = 16 * P) as -> by (rewrite Nat2Z.inj_succ, Z.pow_succ_r by lia; done).
  assert ((b * P + R) / (16 * P) = b / 16) as ->.
  { symmetry. apply Z.div_unique with ((b mod 16) * P + R); [left|].
    - pose proof (Z.mod_pos_bound b 16 ltac:(lia)). nia.
    - pose proof (Z.div_mod b 16 ltac:(lia)). nia. }
  assert ((b * P + R) / P = b) as ->.
  { symmetry. apply Z.div_unique with R; [left; lia|lia]. }
  rewrite (Z.mod_small (b / 16)) by (Z.div_mod_to_equations; lia).
  do 2 f_equal. rewrite <- IH. apply hex_fixed_congr. fold P.
  rewrite Z.add_comm, Z.mod_add by lia. done.
Qed.

(** X24: the identifier is the first 32 characters of the SHA-256
    hexdigest of the stable string, written 8-4-4-4-12 with hyphens: it
    is 36 characters long, has its hyphens after the 8th, 12th, 16th and
    20th digit, and without them it is the head of the hexdigest. *)
Theorem deterministic_id_is_hexdigest_head
    (agent repo : string) (issue : Z) (meeting_date : string) :
  exists did,
    generate_deterministic_id agent repo issue meeting_date = Py.ret did
    /\ String.length did = 36%nat
    /\ String.get 8 did = Some "-"%char /\ String.get 13 did = Some "-"%char
    /\ String.get 18 did = Some "-"%char /\ String.get 23 did = Some "-"%char
    /\ unhyphen did
       = Py.slice_to 32 (hexdigest (encode (identifier agent repo issue meeting_date))).
Proof.
  assert (unhyphen (uuid.str (digest128 agent repo issue meeting_date))
          = Py.slice_to (2 * 16) (hexdigest (encode (identifier agent repo issue meeting_date))))
    as Hhead.
  { rewrite unhyphen_str, digest128_unfold. unfold hexdigest.
    destruct (sha256_bytes (encode (identifier agent repo issue meeting_date)))
      as [Hlen Hbytes].
    rewrite slice_to_hex, <- hex_fixed_be_int by (by apply Forall_take).
    rewrite length_take, Hlen. reflexivity. }
  rewrite generate_deterministic_id_eq. eexists. split; [reflexivity|].
  split; [|split; [|split; [|split; [|split; [|exact Hhead]]]]];
    generalize (digest128 agent repo issue meeting_date); intros d; reflexivity.
Qed.

End DeterministicIdFormat.
(** ** Task ids under a growing transcript *)

Section TranscriptGrowth.

Import extract_tasks.

Lemma imap_prefix {A B} (f : nat -> A -> B) (l k : list A) :
  l `prefix_of` k -> imap f l `prefix_of` imap f k.
Proof. intros [rest ->]. rewrite imap_app. by eexists. Qed.

Lemma take_app_prefix {A} n (l k : list A) : take n l `prefix_of` take n (l ++ k).
Proof.
  revert l. induction n as [|n IH]; intros [|x l]; cbn [take app].
  - apply prefix_nil.
  - apply prefix_nil.
  - apply prefix_nil.
  - apply prefix_cons, IH.
Qed.

(** X25: when lines are added at the end of a transcript, the tasks
    extracted before are extracted again, first and unchanged, task ids
    included (up to the limit of ten tasks). *)
Theorem stub_tasks_stable_under_new_lines (mid : option string) (text more : string) :
  extract_tasks_stub (mkTranscript mid (Some text))
  `prefix_of`
  extract_tasks_stub (mkTranscript mid (Some (text +:+ String "010" more))).
Proof.
  unfold extract_tasks_stub. cbn [meeting_id transcript default from_option Datatypes.id].
  rewrite !stub_loop_spec by lia. cbn [app]. rewrite split_app, filter_app.
  apply imap_prefix, take_app_prefix.
Qed.

End TranscriptGrowth.
